(** * Extraction and versioned-upsert engine of extracto-storage-service

    A shallow embedding of the TypeScript sources:

    - [JS]: the fragment of the JavaScript runtime the sources rely on
      (values of type [any], truthiness, property reads, [String(...)],
      [parseFloat], exceptions);
    - [StorageService], [BaseExtractionStrategy]: the two domain
      canonicalizers and the shared field utilities;
    - [FalabellaStrategy], [GenericStrategy], [UrbaniaStrategy]: the
      extraction strategies;
    - [ProductExtractorService], [RealEstateExtractorService]: the two
      orchestrators;
    - [ProductStorageService], [RealEstateStorageService]: the two
      versioned upsert stores, over a collection keyed by [uniqueKey].

    Definitions come first, the theorems about them follow. *)

From Stdlib Require Import ZArith String Ascii List Bool Lia DecimalString.
From stdpp Require Import gmap strings list.

Set Warnings "-register-all".

Open Scope string_scope.
Open Scope Z_scope.

(* ===================================================================== *)
(** * The JavaScript fragment *)
(* ===================================================================== *)

Module JS.

(** JavaScript numbers. [Dec m e] is the decimal [m / 10^e]. The range
    of a double is modelled where a text is read ([parseFloat] below
    gives an infinity or zero outside it); the rounding of the engine
    within that range is not (two decimals closer than one ulp are
    distinct here), nor is the exponent notation that [String(n)] uses
    outside [1e-6, 1e21). *)
Inductive number :=
| NaN
| Inf (negative : bool)
| Dec (mant : Z) (dexp : nat).

(** Values of type [any] as the queue delivers them: JSON, plus
    [undefined] for what is absent. *)
Inductive value :=
| Undefined
| Null
| Bool (b : bool)
| Num (n : number)
| Str (s : string)
| Arr (items : list value)
| Obj (fields : list (string * value)).

(** What a [throw] carries: an [Error] instance with its [message], or
    any other value. *)
Inductive thrown :=
| Error (message : string)
| Thrown (v : value).

(** Computations that may throw. *)
Definition Exc (A : Type) : Type := (thrown + A)%type.

Definition ret {A} (a : A) : Exc A := inr a.
Definition throw {A} (e : thrown) : Exc A := inl e.
Definition bind {A B} (m : Exc A) (f : A -> Exc B) : Exc B :=
  match m with
  | inl e => inl e
  | inr a => f a
  end.

(** [try { body } catch (error) { handler }] *)
Definition try_catch {A} (body : Exc A) (handler : thrown -> Exc A) : Exc A :=
  match body with
  | inl e => handler e
  | inr a => inr a
  end.

(** The engine's own [TypeError]s (reading a property of [undefined],
    calling what is not a function); the text of their message is the
    engine's and is not modelled. *)
Definition TypeError : thrown := Error "TypeError".

Fixpoint mapM {A B} (f : A -> Exc B) (l : list A) : Exc (list B) :=
  match l with
  | [] => ret []
  | x :: xs =>
      bind (f x) (fun y => bind (mapM f xs) (fun ys => ret (y :: ys)))
  end.

Fixpoint filterM {A} (f : A -> Exc bool) (l : list A) : Exc (list A) :=
  match l with
  | [] => ret []
  | x :: xs =>
      bind (f x) (fun keep =>
      bind (filterM f xs) (fun ys => ret (if keep then x :: ys else ys)))
  end.

(** ** Numbers *)

Definition zero : number := Dec 0 0.
Definition of_Z (z : Z) : number := Dec z 0.
Definition of_nat (n : nat) : number := Dec (Z.of_nat n) 0.

(** [a === b] on numbers: [NaN] equals nothing. *)
Definition num_strict_eq (a b : number) : bool :=
  match a, b with
  | Dec m1 e1, Dec m2 e2 =>
      (m1 * 10 ^ Z.of_nat e2 =? m2 * 10 ^ Z.of_nat e1)
  | Inf n1, Inf n2 => Bool.eqb n1 n2
  | _, _ => false
  end.

(** [a !== b] *)
Definition num_strict_neq (a b : number) : bool := negb (num_strict_eq a b).

Definition num_truthy (n : number) : bool :=
  match n with
  | NaN => false
  | Inf _ => true
  | Dec m _ => negb (m =? 0)
  end.

(** [n > 0] *)
Definition num_gt0 (n : number) : bool :=
  match n with
  | NaN => false
  | Inf negative => negb negative
  | Dec m _ => 0 <? m
  end.

Fixpoint normalize (m : Z) (e : nat) : Z * nat :=
  match e with
  | O => (m, O)
  | S e' => if m mod 10 =? 0 then normalize (m / 10) e' else (m, e)
  end.

Definition digits_of (n : N) : string := NilZero.string_of_uint (N.to_uint n).

Fixpoint zeros (n : nat) : string :=
  match n with
  | O => EmptyString
  | S n' => String "0" (zeros n')
  end.

(** [String(n)] for a number, in positional notation. *)
Definition num_to_string (n : number) : string :=
  match n with
  | NaN => "NaN"
  | Inf false => "Infinity"
  | Inf true => "-Infinity"
  | Dec m e =>
      let '(m', e') := normalize m e in
      let d := digits_of (Z.abs_N m') in
      let len := String.length d in
      let sign := if m' <? 0 then "-" else EmptyString in
      match e' with
      | O => sign ++ d
      | _ =>
          if (e' <? len)%nat
          then sign ++ substring 0 (len - e') d ++ "." ++ substring (len - e') e' d
          else sign ++ "0." ++ zeros (e' - len) ++ d
      end
  end.

(** ** Strings *)

(** A string is held as the bytes of its UTF-8 encoding, which is what a
    string literal of this file denotes. Searching for a string
    ([includes]), splitting at an ASCII character and filtering by a
    test on ASCII characters give the same result on these bytes as on
    the code units of the engine. *)

(** [s.length]: the number of UTF-16 code units, one for each character
    and two for a character of four bytes. *)
Fixpoint code_units (s : string) : nat :=
  match s with
  | EmptyString => O
  | String a rest =>
      let n := nat_of_ascii a in
      ((if (n <? 128) then 1 else if (n <? 192) then 0 else if (n <? 240) then 1 else 2)
       + code_units rest)%nat
  end.

(** [hay.includes(needle)] *)
Fixpoint includes (needle hay : string) : bool :=
  String.prefix needle hay ||
  match hay with
  | EmptyString => false
  | String _ rest => includes needle rest
  end.

Definition is_digit (a : ascii) : bool :=
  let n := nat_of_ascii a in ((48 <=? n) && (n <=? 57))%nat.

Definition digit_val (a : ascii) : Z := Z.of_nat (nat_of_ascii a) - 48.

Fixpoint filter_chars (keep : ascii -> bool) (s : string) : string :=
  match s with
  | EmptyString => EmptyString
  | String a rest =>
      if keep a then String a (filter_chars keep rest) else filter_chars keep rest
  end.

(** [s.split(c)] for a one-character separator [c]: never the empty
    list. *)
Fixpoint split (c : ascii) (s : string) : list string :=
  match s with
  | EmptyString => [EmptyString]
  | String a rest =>
      if Ascii.eqb a c then EmptyString :: split c rest
      else match split c rest with
           | hd :: tl => String a hd :: tl
           | [] => [String a EmptyString]
           end
  end.

Fixpoint drop (n : nat) (s : string) : string :=
  match n, s with
  | O, _ => s
  | S n', String _ rest => drop n' rest
  | S _, EmptyString => EmptyString
  end.

Fixpoint join (sep : string) (l : list string) : string :=
  match l with
  | [] => EmptyString
  | [x] => x
  | x :: rest => x ++ sep ++ join sep rest
  end.

(** ** [parseFloat] *)

(** Reads a run of decimal digits: the accumulated value, the number of
    digits read, and what follows. *)
Fixpoint take_digits (s : string) (acc : Z) (count : nat) : Z * nat * string :=
  match s with
  | String a rest =>
      if is_digit a then take_digits rest (10 * acc + digit_val a) (S count)
      else (acc, count, s)
  | EmptyString => (acc, count, EmptyString)
  end.

(** The white space and the line terminators that [parseFloat] skips:
    of one byte (tab to carriage return, space), of two bytes (U+00A0)
    and of three bytes (U+1680, U+2000 to U+200A, U+2028, U+2029, U+202F,
    U+205F, U+3000 and U+FEFF). *)
Definition is_space (a : ascii) : bool :=
  let n := nat_of_ascii a in (((9 <=? n) && (n <=? 13)) || (n =? 32))%nat.

Definition is_space2 (a b : ascii) : bool :=
  ((nat_of_ascii a =? 194) && (nat_of_ascii b =? 160))%nat.

Definition is_space3 (a b c : ascii) : bool :=
  let x := nat_of_ascii a in
  let y := nat_of_ascii b in
  let z := nat_of_ascii c in
  (((x =? 225) && (y =? 154) && (z =? 128))
   || ((x =? 226) && (y =? 128)
       && (((128 <=? z) && (z <=? 138)) || (z =? 168) || (z =? 169) || (z =? 175)))
   || ((x =? 226) && (y =? 129) && (z =? 159))
   || ((x =? 227) && (y =? 128) && (z =? 128))
   || ((x =? 239) && (y =? 187) && (z =? 191)))%nat.

Fixpoint skip_spaces (s : string) : string :=
  match s with
  | String a rest =>
      if is_space a then skip_spaces rest
      else
        match rest with
        | String b rest2 =>
            if is_space2 a b then skip_spaces rest2
            else
              match rest2 with
              | String c rest3 => if is_space3 a b c then skip_spaces rest3 else s
              | EmptyString => s
              end
        | EmptyString => s
        end
  | EmptyString => EmptyString
  end.

(** The value of an exponent part [e[+-]digits] at the head of [s], [0]
    when there is none. *)
Definition exponent_part (s : string) : Z :=
  match s with
  | String a rest =>
      if Ascii.eqb a "e" || Ascii.eqb a "E" then
        let '(negative, digits) :=
          match rest with
          | String "-" r => (true, r)
          | String "+" r => (false, r)
          | _ => (false, rest)
          end in
        let '(k, count, _) := take_digits digits 0 O in
        match count with
        | O => 0
        | _ => if negative then - k else k
        end
      else 0
  | EmptyString => 0
  end.

(** Half an ulp above the largest double: from here on a decimal reads
    as an infinity. *)
Definition overflow_threshold : Z := 2 ^ 1024 - 2 ^ 970.

(** The number that the decimal [m / 10^e], [0 <= m], with its sign,
    reads as: an infinity from [overflow_threshold] on, zero up to
    [2^-1075] (half the smallest double), and itself in between. *)
Definition in_double_range (negative : bool) (m : Z) (e : nat) : number :=
  if overflow_threshold * 10 ^ Z.of_nat e <=? m then Inf negative
  else if (0 <? m) && (m * 2 ^ 1075 <=? 10 ^ Z.of_nat e) then zero
  else Dec (if negative then - m else m) e.

(** [parseFloat(s)]: the longest prefix of [s], after leading white
    space, that is a decimal literal; [NaN] when there is none. *)
Definition parseFloat (s : string) : number :=
  let s1 := skip_spaces s in
  let '(negative, s2) :=
    match s1 with
    | String "-" r => (true, r)
    | String "+" r => (false, r)
    | _ => (false, s1)
    end in
  if String.prefix "Infinity" s2 then Inf negative
  else
    let '(ip, ni, r1) := take_digits s2 0 O in
    let '(m, nf, r2) :=
      match r1 with
      | String "." r => take_digits r ip O
      | _ => (ip, O, r1)
      end in
    match (ni + nf)%nat with
    | O => NaN
    | _ =>
        let k := exponent_part r2 in
        if 0 <=? k then in_double_range negative (m * 10 ^ k) nf
        else in_double_range negative m (nf + Z.to_nat (- k))
    end.

(** ** Values *)

Definition truthy (v : value) : bool :=
  match v with
  | Undefined | Null => false
  | Bool b => b
  | Num n => num_truthy n
  | Str s => negb (String.eqb s EmptyString)
  | Arr _ | Obj _ => true
  end.

(** [a || b] and [a && b] on values that are already evaluated. *)
Definition or (a b : value) : value := if truthy a then a else b.
Definition and (a b : value) : value := if truthy a then b else a.

Fixpoint lookup_field (k : string) (fields : list (string * value)) : value :=
  match fields with
  | [] => Undefined
  | (k', v) :: rest => if String.eqb k k' then v else lookup_field k rest
  end.

(** [v?.k] for a data property [k]. A string or an array has its
    [length]; the methods of the prototypes are not values of this
    model, and the sources read none of them as data from a primitive
    (the only such name they read, [link], is read from records that
    passed an object check). *)
Definition get_opt (v : value) (k : string) : value :=
  match v with
  | Obj fields => lookup_field k fields
  | Arr items => if String.eqb k "length" then Num (of_nat (List.length items)) else Undefined
  | Str s => if String.eqb k "length" then Num (of_nat (code_units s)) else Undefined
  | _ => Undefined
  end.

(** [v.k]: a [TypeError] on [undefined] and [null]. *)
Definition get (v : value) (k : string) : Exc value :=
  match v with
  | Undefined | Null => throw TypeError
  | _ => ret (get_opt v k)
  end.

(** [v?.[0]]. On a string this is its first code unit: the first
    character when that is ASCII. The first byte stands for the code
    unit of any other character; the sources pass it to [parsePrice]
    only, which drops the one as it drops the other. *)
Definition first_opt (v : value) : value :=
  match v with
  | Arr items => List.nth 0 items Undefined
  | Str (String a _) => Str (String a EmptyString)
  | Obj fields => lookup_field "0" fields
  | _ => Undefined
  end.

Definition isArray (v : value) : bool :=
  match v with Arr _ => true | _ => false end.

(** [typeof v === 'object'] *)
Definition typeof_object (v : value) : bool :=
  match v with Null | Arr _ | Obj _ => true | _ => false end.

(** [typeof v === 'string'] *)
Definition typeof_string (v : value) : bool :=
  match v with Str _ => true | _ => false end.

(** [a === b] where [b] is a string. *)
Definition strict_eq_str (a : value) (b : string) : bool :=
  match a with Str s => String.eqb s b | _ => false end.

(** [v !== undefined] *)
Definition is_defined (v : value) : bool :=
  match v with Undefined => false | _ => true end.

Definition has_field (k : string) (fields : list (string * value)) : bool :=
  existsb (fun kv => String.eqb k (fst kv)) fields.

(** [String(v)], also what a template literal does to [v]. An array
    joins its elements with a comma, [null] and [undefined] elements
    giving the empty string; a plain object gives [[object Object]],
    unless a member of its own named [toString] shadows the inherited
    method, which is a [TypeError]. *)
Fixpoint ToString (v : value) : Exc string :=
  match v with
  | Undefined => ret "undefined"
  | Null => ret "null"
  | Bool true => ret "true"
  | Bool false => ret "false"
  | Num n => ret (num_to_string n)
  | Str s => ret s
  | Arr items =>
      bind
        ((fix elements (l : list value) : Exc (list string) :=
            match l with
            | [] => ret []
            | x :: xs =>
                bind (match x with
                      | Undefined | Null => ret EmptyString
                      | _ => ToString x
                      end) (fun s =>
                bind (elements xs) (fun ss => ret (s :: ss)))
            end) items)
        (fun parts => ret (join "," parts))
  | Obj fields =>
      if has_field "toString" fields then throw TypeError
      else ret "[object Object]"
  end.

End JS.

Notation "'let*' x ':=' m 'in' k" := (JS.bind m (fun x => k))
  (at level 10, x name, m at level 100, k at level 200).

(* ===================================================================== *)
(** * URLs *)
(* ===================================================================== *)

(** [new URL(url).hostname] belongs to the platform, not to the
    repository: the canonicalizers are stated for any parser, [None]
    standing for the constructor throwing on a string it cannot parse. *)
Class URLParser := url_hostname : string -> option string.

Module SimpleURL.

Definition lower (a : ascii) : ascii :=
  let n := nat_of_ascii a in
  if ((65 <=? n) && (n <=? 90))%nat then ascii_of_nat (n + 32) else a.

Fixpoint lowercase (s : string) : string :=
  match s with
  | EmptyString => EmptyString
  | String a rest => String (lower a) (lowercase rest)
  end.

(** What follows the first [://] of [s], when the scheme before it is
    not empty. *)
Fixpoint after_scheme (seen : nat) (s : string) : option string :=
  match s with
  | EmptyString => None
  | String a rest =>
      if String.prefix "://" s
      then match seen with O => None | _ => Some (JS.drop 3 s) end
      else after_scheme (S seen) rest
  end.

Fixpoint take_until (stop : ascii -> bool) (s : string) : string :=
  match s with
  | EmptyString => EmptyString
  | String a rest => if stop a then EmptyString else String a (take_until stop rest)
  end.

Definition ends_authority (a : ascii) : bool :=
  Ascii.eqb a "/" || Ascii.eqb a "?" || Ascii.eqb a "#".

(** The host of [scheme://[userinfo@]host[:port][/path][?query][#fragment]],
    in lower case: the URLs a crawl job carries. *)
Definition hostname (url : string) : option string :=
  match after_scheme O url with
  | None => None
  | Some rest =>
      let authority := take_until ends_authority rest in
      let hostport := List.last (JS.split "@" authority) EmptyString in
      let host := List.hd EmptyString (JS.split ":" hostport) in
      if String.eqb host EmptyString then None else Some (lowercase host)
  end.

Definition parser : URLParser := hostname.

End SimpleURL.

(* ===================================================================== *)
(** * The two domain canonicalizers *)
(* ===================================================================== *)

(** [hostname.replace(/^www\./, '')] *)
Definition strip_www (hostname : string) : string :=
  if String.prefix "www." hostname then JS.drop 4 hostname else hostname.

(** [parts[i]], read where [i] is in range. *)
Definition part (parts : list string) (i : nat) : string :=
  List.nth i parts EmptyString.

Module StorageService.
Section WithURL.
Context {U : URLParser}.

Definition commonSLDs : list string :=
  ["com"; "co"; "org"; "net"; "gov"; "edu"; "ac"].

(** storage.service.ts, [StorageService.extractDomain]: the domain that
    tags the raw job record. *)
Definition extractDomain (url : string) : string :=
  match url_hostname url with
  | None => "unknown"
  | Some hostname =>
      let withoutWww := strip_www hostname in
      let parts := JS.split "." withoutWww in
      let n := List.length parts in
      if (3 <=? n)%nat then
        let secondToLast := part parts (n - 2) in
        if existsb (String.eqb secondToLast) commonSLDs
        then part parts (n - 3)
        else part parts (n - 2)
      else if (n =? 2)%nat then part parts 0
      else part parts 0
  end.

(** types/index.ts ([FetchResult], [StoredResult]). An optional field is
    [None] when the object has no such key. *)
Record FetchResult := {
  jobId : string;
  url : string;
  html : string;
  fetchedAt : Z;
  screenshot : option string;
  statusCode : option JS.number;
  headers : option JS.value;
  actionResults : option JS.value;
  extractedData : option JS.value;
}.

Inductive JobState := Completed | Failed | UnknownState.

Record StoredResult := {
  fetched : FetchResult;
  storedAt : Z;
  state : JobState;
  domain : string;
  failureReason : option string;
}.

(** The service: [collection] is [null] until [connect()]; the
    [scrape_jobs] collection is a finite map from [jobId], its unique
    index. *)
Record t := {
  collection : option (gmap string StoredResult);
}.

(** What [$set] does to an optional field: a key of the update replaces
    the stored one, a key the update lacks leaves it. *)
Definition set_optional {A} (update existing : option A) : option A :=
  match update with
  | Some v => Some v
  | None => existing
  end.

(** [...(failureReason && { failureReason })] *)
Definition failureReason_field (failureReason : option string) : option string :=
  match failureReason with
  | Some reason => if String.eqb reason EmptyString then None else Some reason
  | None => None
  end.

(** [updateOne({ jobId }, { $set: storedResult }, { upsert: true })] *)
Definition upsertOne (documents : gmap string StoredResult) (update : StoredResult)
    : gmap string StoredResult :=
  let key := jobId (fetched update) in
  match documents !! key with
  | None => <[key := update]> documents
  | Some existing =>
      <[key :=
        {| fetched :=
             {| jobId := key;
                url := url (fetched update);
                html := html (fetched update);
                fetchedAt := fetchedAt (fetched update);
                screenshot :=
                  set_optional (screenshot (fetched update)) (screenshot (fetched existing));
                statusCode :=
                  set_optional (statusCode (fetched update)) (statusCode (fetched existing));
                headers :=
                  set_optional (headers (fetched update)) (headers (fetched existing));
                actionResults :=
                  set_optional (actionResults (fetched update))
                               (actionResults (fetched existing));
                extractedData :=
                  set_optional (extractedData (fetched update))
                               (extractedData (fetched existing)) |};
           storedAt := storedAt update;
           state := state update;
           domain := domain update;
           failureReason :=
             set_optional (failureReason update) (failureReason existing) |}]> documents
  end.

(** [saveResult]; [now] is the reading of the clock for [storedAt]. *)
Definition saveResult (this : t) (result : FetchResult) (state : JobState)
    (failureReason : option string) (now : Z) : JS.Exc t :=
  match collection this with
  | None => JS.throw (JS.Error "MongoDB not connected. Call connect() first.")
  | Some documents =>
      let domain := extractDomain (url result) in
      let storedResult :=
        {| fetched := result;
           storedAt := now;
           state := state;
           domain := domain;
           failureReason := failureReason_field failureReason |} in
      JS.ret {| collection := Some (upsertOne documents storedResult) |}
  end.

(** [getResult] *)
Definition getResult (this : t) (jobId : string) : JS.Exc (option StoredResult) :=
  match collection this with
  | None => JS.throw (JS.Error "MongoDB not connected. Call connect() first.")
  | Some documents => JS.ret (documents !! jobId)
  end.

End WithURL.
End StorageService.

(* ===================================================================== *)
(** * Canonical entities *)
(* ===================================================================== *)

(** types/product.types.ts. The fields that the statements below read:
    identity, name, price and provenance. The remaining fields of
    [Product] (rating, media, availability, variants, badges, seller,
    rawData, [scrapedAt]) are not modelled; see the strategies for what
    that leaves out. At run time [productId], [name] and the provenance
    [url] hold whatever the raw record held, hence [JS.value]. *)
Module ProductTypes.

Record ProductPrice := {
  amount : JS.number;
  currency : string;
}.

Record ProductSource := {
  domain : string;
  url : JS.value;
  jobId : option string;
}.

Record Product := {
  productId : JS.value;
  name : JS.value;
  price : ProductPrice;
  source : ProductSource;
}.

End ProductTypes.

(** types/real-estate.types.ts, likewise: identity, title, price and
    provenance of a [RealEstateListing]. *)
Module RealEstateTypes.

Record ListingPrice := {
  amount : JS.number;
  currency : JS.value;
}.

Record ListingSource := {
  domain : string;
  jobId : option string;
}.

Record RealEstateListing := {
  listingId : string;
  source : ListingSource;
  title : JS.value;
  price : ListingPrice;
}.

End RealEstateTypes.

(** The interface [ExtractionStrategy] of both type files. A registered
    strategy is arbitrary code: both methods may throw. *)
Record ExtractionStrategy (E : Type) := {
  name : string;
  canHandle : JS.value -> string -> JS.Exc bool;
  extract : JS.value -> string -> option string -> JS.Exc (list E);
}.
Arguments name {E} _.
Arguments canHandle {E} _ _ _.
Arguments extract {E} _ _ _ _.

(** [...(jobId && { jobId })]: an absent or empty job id leaves no
    field. *)
Definition jobId_field (jobId : option string) : option string :=
  match jobId with
  | Some j => if String.eqb j EmptyString then None else Some j
  | None => None
  end.

(* ===================================================================== *)
(** * Shared utilities of the product strategies *)
(* ===================================================================== *)

Module BaseExtractionStrategy.
Import JS ProductTypes.

Section WithURL.
Context {U : URLParser}.

Definition commonSLDs : list string :=
  ["com"; "co"; "org"; "net"; "gov"; "edu"].

(** base.strategy.ts, [BaseExtractionStrategy.extractDomain]: the domain
    of the provenance block. *)
Definition extractDomain (url : string) : string :=
  match url_hostname url with
  | None => "unknown"
  | Some host =>
      let hostname := strip_www host in
      let parts := split "." hostname in
      let n := List.length parts in
      if (3 <=? n)%nat then
        let secondToLast := part parts (n - 2) in
        if existsb (String.eqb secondToLast) commonSLDs
        then part parts (n - 3)
        else part parts (n - 2)
      else part parts 0
  end.

End WithURL.

Definition price_char (a : ascii) : bool := is_digit a || Ascii.eqb a ".".

(** [parsePrice]: a number is returned as it is; a string is stripped of
    everything but digits and dots and parsed, [0] standing in for [NaN]
    and for zero; any other value has no [replace] method. *)
Definition parsePrice (priceStr : value) : Exc number :=
  match priceStr with
  | Num n => ret n
  | Str s =>
      let cleaned := filter_chars price_char s in
      let parsed := parseFloat cleaned in
      ret (if num_truthy parsed then parsed else zero)
  | _ => throw TypeError
  end.

(** The entries of [currencyMap], in the order [Object.entries] yields
    them (insertion order). *)
Definition currencyMap : list (string * string) :=
  [ ("S/", "PEN"); ("$", "USD"); ("€", "EUR"); ("£", "GBP"); ("¥", "JPY");
    ("R$", "BRL"); ("ARS", "ARS"); ("COP", "COP"); ("CLP", "CLP") ].

(** The loop of [extractCurrency]: the code of the first entry whose
    symbol [found] accepts, [USD] when none does. *)
Fixpoint first_code (found : string -> bool) (entries : list (string * string)) : string :=
  match entries with
  | [] => "USD"
  | (symbol, code) :: rest => if found symbol then code else first_code found rest
  end.

(** [extractCurrency]: [str.includes(symbol)] is a substring test on a
    string and a membership test on an array; no other value has the
    method. *)
Definition extractCurrency (str : value) : Exc string :=
  match str with
  | Str s => ret (first_code (fun symbol => includes symbol s) currencyMap)
  | Arr items =>
      ret (first_code (fun symbol => existsb (fun x => strict_eq_str x symbol) items)
             currencyMap)
  | _ => throw TypeError
  end.

(** [createBaseProduct] *)
Definition createBaseProduct (productId name : string) (price : ProductPrice)
    (domain url : string) (jobId : option string) : Product :=
  {| productId := Str productId;
     name := Str name;
     price := price;
     source := {| domain := domain; url := Str url; jobId := jobId_field jobId |} |}.

End BaseExtractionStrategy.

(** [products.filter(...)], [products.map(...)]: only an array has the
    methods. *)
Definition as_array (v : JS.value) : JS.Exc (list JS.value) :=
  match v with
  | JS.Arr items => JS.ret items
  | _ => JS.throw JS.TypeError
  end.

(* ===================================================================== *)
(** * The Falabella strategy *)
(* ===================================================================== *)

(** base.strategy.ts, second part ([falabella.strategy.ts]).

    [normalizeProduct] is modelled on the fields of [ProductTypes]. What
    it computes besides (rating, media, availability, variants,
    specifications, badges, promotions, seller) can only add a
    [TypeError], which [extract] turns into the empty list: every entity
    the source returns is an entity of this model, with these fields. *)
Module FalabellaStrategy.
Import JS ProductTypes.

Section WithURL.
Context {U : URLParser}.

Definition strategy_name : string := "Falabella".

Definition canHandle (data : value) (url : string) : bool :=
  let isFalabellaUrl := includes "falabella.com" url in
  let hasNextJsStructure :=
    is_defined (get_opt (get_opt (get_opt data "props") "pageProps") "results") in
  let hasFalabellaProducts :=
    match data with
    | Arr items =>
        (0 <? List.length items)%nat
        && is_defined (get_opt (List.nth 0 items Undefined) "displayName")
        && is_defined (get_opt (List.nth 0 items Undefined) "mediaUrls")
    | _ => false
    end in
  isFalabellaUrl || hasNextJsStructure || hasFalabellaProducts.

(** [item.prices.find((p) => p.type === 'internetPrice')] *)
Fixpoint find_internetPrice (prices : list value) : Exc value :=
  match prices with
  | [] => ret Undefined
  | p :: rest =>
      let* t := get p "type" in
      if strict_eq_str t "internetPrice" then ret p else find_internetPrice rest
  end.

Definition extractPrice (item : value) : Exc ProductPrice :=
  let* prices := get item "prices" in
  match prices with
  | Arr (first :: others) =>
      let* found := find_internetPrice (first :: others) in
      let internetPrice := or found first in
      let* p := get internetPrice "price" in
      let* amount :=
        BaseExtractionStrategy.parsePrice (or (or (first_opt p) p) (Str "0")) in
      let* symbol := get internetPrice "symbol" in
      let* currency := BaseExtractionStrategy.extractCurrency (or symbol (Str "S/ ")) in
      ret {| amount := amount; currency := currency |}
  | _ =>
      let* p := get item "price" in
      let* priceStr := ToString (or p (Str "0")) in
      let* amount := BaseExtractionStrategy.parsePrice (Str priceStr) in
      let* currency := BaseExtractionStrategy.extractCurrency (Str priceStr) in
      ret {| amount := amount; currency := currency |}
  end.

Definition normalizeProduct (item : value) (domain sourceUrl : string)
    (jobId : option string) : Exc Product :=
  let* pid := get item "productId" in
  let* sku := get item "skuId" in
  let productId := or (or pid sku) (Str EmptyString) in
  let* price := extractPrice item in
  let* displayName := get item "displayName" in
  let* itemUrl := get item "url" in
  ret {| productId := productId;
         name := or displayName (Str EmptyString);
         price := price;
         source := {| domain := domain;
                      url := or itemUrl (Str sourceUrl);
                      jobId := jobId_field jobId |} |}.

(** [(item) => item.productId && item.displayName], as a condition. *)
Definition keeps (item : value) : Exc bool :=
  let* pid := get item "productId" in
  let* displayName := get item "displayName" in
  ret (truthy (and pid displayName)).

(** The [try] block of [extract]. *)
Definition extract_body (data : value) (url : string) (jobId : option string)
    : Exc (list Product) :=
  let results := get_opt (get_opt (get_opt data "props") "pageProps") "results" in
  let products :=
    if truthy results then results
    else if isArray data then data
    else if truthy (and (get_opt data "productId") (get_opt data "displayName"))
         then Arr [data]
    else Arr [] in
  let domain := BaseExtractionStrategy.extractDomain url in
  let* items := as_array products in
  let* kept := filterM keeps items in
  mapM (fun item => normalizeProduct item domain url jobId) kept.

Definition extract (data : value) (url : string) (jobId : option string)
    : Exc (list Product) :=
  try_catch (extract_body data url jobId) (fun _ => ret []).

Definition strategy : ExtractionStrategy Product :=
  Build_ExtractionStrategy Product
    strategy_name (fun data url => ret (canHandle data url)) extract.

End WithURL.
End FalabellaStrategy.

(* ===================================================================== *)
(** * The generic fallback strategy *)
(* ===================================================================== *)

(** generic.strategy.ts. [normalizeProduct] is modelled on the fields of
    [ProductTypes]; brand, description, category, media, rating,
    availability, seoUrl and rawData are left out, under the same
    proviso as for Falabella. *)
Module GenericStrategy.
Import JS ProductTypes.

Section WithURL.
Context {U : URLParser}.

Definition strategy_name : string := "Generic".

Definition canHandle (data : value) (url : string) : bool := true.

Definition looksLikeProduct (item : value) : bool :=
  if negb (truthy item) || negb (typeof_object item) then false
  else
    let hasId :=
      truthy (or (or (or (or (get_opt item "id") (get_opt item "productId"))
                         (get_opt item "sku")) (get_opt item "skuId"))
                 (get_opt item "asin")) in
    let hasName :=
      truthy (or (or (or (get_opt item "name") (get_opt item "title"))
                     (get_opt item "displayName")) (get_opt item "productName")) in
    hasId && hasName.

Definition extractPrice (item : value) : Exc ProductPrice :=
  let* p := get item "price" in
  let priceValue :=
    or (or (or (or p (get_opt item "currentPrice")) (get_opt item "salePrice"))
           (get_opt item "amount")) (Num zero) in
  let explicit := get_opt item "currency" in
  let priceSymbol := get_opt item "priceSymbol" in
  let* currency :=
    if truthy explicit then ret explicit
    else if truthy priceSymbol
         then let* code := BaseExtractionStrategy.extractCurrency priceSymbol in
              ret (Str code)
         else ret (Str "USD") in
  let* amount := BaseExtractionStrategy.parsePrice priceValue in
  ret {| amount := amount;
         currency := match currency with Str c => c | _ => "USD" end |}.

Definition normalizeProduct (item : value) (domain sourceUrl : string)
    (jobId : option string) : Exc Product :=
  let* id := get item "id" in
  let* productId :=
    ToString (or (or (or (or (or id (get_opt item "productId")) (get_opt item "sku"))
                         (get_opt item "skuId")) (get_opt item "asin"))
                 (Str EmptyString)) in
  let* name :=
    ToString (or (or (or (get_opt item "name") (get_opt item "title"))
                     (get_opt item "displayName")) (Str "Unknown Product")) in
  let* price := extractPrice item in
  ret (BaseExtractionStrategy.createBaseProduct productId name price domain sourceUrl jobId).

(** The [try] block of [extract]. *)
Definition extract_body (data : value) (url : string) (jobId : option string)
    : Exc (list Product) :=
  let products :=
    if isArray data then data
    else if truthy (get_opt data "products") && isArray (get_opt data "products")
         then get_opt data "products"
    else if truthy (get_opt data "items") && isArray (get_opt data "items")
         then get_opt data "items"
    else if truthy (get_opt data "results") && isArray (get_opt data "results")
         then get_opt data "results"
    else if looksLikeProduct data then Arr [data]
    else Arr [] in
  let domain := BaseExtractionStrategy.extractDomain url in
  let* items := as_array products in
  let kept := List.filter looksLikeProduct items in
  mapM (fun item => normalizeProduct item domain url jobId) kept.

Definition extract (data : value) (url : string) (jobId : option string)
    : Exc (list Product) :=
  try_catch (extract_body data url jobId) (fun _ => ret []).

Definition strategy : ExtractionStrategy Product :=
  Build_ExtractionStrategy Product
    strategy_name (fun data url => ret (canHandle data url)) extract.

End WithURL.
End GenericStrategy.

(* ===================================================================== *)
(** * The Urbania strategy *)
(* ===================================================================== *)

(** real-estate-strategies/urbania.strategy.ts. The HTML path runs an
    external DOM engine (cheerio) and is a parameter here, as is the
    reading of the clock. The JSON path is modelled on the fields of
    [RealEstateTypes]; of the fields that are left out (listing and
    property type, price period, location, details, images and the
    provenance url) the model keeps what decides whether a record
    becomes a listing at all: the calls that throw on a record of the
    wrong shape. *)
Module UrbaniaStrategy.
Import JS RealEstateTypes.

Section WithPlatform.
Variable extractFromHTML :
  value -> string -> option string -> Exc (list RealEstateListing).
Variable now : Z.

Definition strategy_name : string := "Urbania".

Definition canHandle (data : value) (url : string) : bool :=
  includes "urbania.pe" url.

(** [(v).toLowerCase()], as far as throwing goes: only a string has the
    method. *)
Definition toLowerCase_of (v : value) : Exc unit :=
  match v with
  | Str _ => ret tt
  | _ => throw TypeError
  end.

(** [determineListingType] and [determinePropertyType], as far as
    throwing goes: [(item.type || item.listingType || '').toLowerCase()]
    and its like. [determinePricePeriod] calls [item.type.toLowerCase()]
    when [item.type] is truthy, and so throws nothing that
    [determineListingType] has not thrown before it. *)
Definition determineListingType (item : value) : Exc unit :=
  toLowerCase_of (or (or (get_opt item "type") (get_opt item "listingType"))
                     (Str EmptyString)).

Definition determinePropertyType (item : value) : Exc unit :=
  toLowerCase_of (or (or (get_opt item "propertyType") (get_opt item "category"))
                     (Str EmptyString)).

(** The four numbers of [details], as far as throwing goes: [parseInt]
    and [parseFloat] turn their argument into a string first. *)
Definition parseDetails (item : value) : Exc unit :=
  let* bedrooms :=
    ToString (or (or (get_opt item "bedrooms") (get_opt item "rooms")) (Num zero)) in
  let* bathrooms := ToString (or (get_opt item "bathrooms") (Num zero)) in
  let* parkingSpaces :=
    ToString (or (or (get_opt item "parking") (get_opt item "parkingSpaces")) (Num zero)) in
  let* totalArea :=
    ToString (or (or (get_opt item "area") (get_opt item "totalArea")) (Num zero)) in
  ret tt.

(** [parseJsonListing]: [None] is the [null] of the [catch] branch. *)
Definition parseJsonListing (item : value) (url : string) (jobId : option string)
    : option RealEstateListing :=
  match
    (let* id := get item "id" in
     let* listingId :=
       ToString (or (or (or id (get_opt item "listingId")) (get_opt item "propertyId"))
                    (Str ("unknown-" ++ num_to_string (of_Z now)))) in
     let* listingType := determineListingType item in
     let* propertyType := determinePropertyType item in
     let* amount :=
       ToString (or (or (get_opt (get_opt item "price") "amount") (get_opt item "price"))
                    (Num zero)) in
     let* details := parseDetails item in
     ret {| listingId := listingId;
            source := {| domain := "urbania.pe"; jobId := jobId |};
            title := or (or (get_opt item "title") (get_opt item "name"))
                        (Str "Sin título");
            price := {| amount := parseFloat amount;
                        currency := or (get_opt (get_opt item "price") "currency")
                                       (Str "PEN") |} |})
  with
  | inr listing => Some listing
  | inl _ => None
  end.

(** [items.map(item => this.parseJsonListing(item, url, jobId)).filter(Boolean)] *)
Definition parseAll (items : list value) (url : string) (jobId : option string)
    : list RealEstateListing :=
  omap (fun item => parseJsonListing item url jobId) items.

Definition extractFromJSON (data : value) (url : string) (jobId : option string)
    : Exc (list RealEstateListing) :=
  try_catch
    (match data with
     | Arr items => ret (parseAll items url jobId)
     | _ =>
         let* listings := get data "listings" in
         match listings with
         | Arr items => ret (parseAll items url jobId)
         | _ =>
             match get_opt data "results" with
             | Arr items => ret (parseAll items url jobId)
             | _ =>
                 if truthy (or (get_opt data "id") (get_opt data "listingId"))
                 then ret (match parseJsonListing data url jobId with
                           | Some listing => [listing]
                           | None => []
                           end)
                 else ret []
             end
         end
     end)
    (fun _ => ret []).

(** The [try] block of [extract]. *)
Definition extract_body (data : value) (url : string) (jobId : option string)
    : Exc (list RealEstateListing) :=
  if typeof_object data then
    let* html := get data "html" in
    if truthy html then extractFromHTML html url jobId
    else extractFromJSON data url jobId
  else if typeof_string data then extractFromHTML data url jobId
  else ret [].

Definition extract (data : value) (url : string) (jobId : option string)
    : Exc (list RealEstateListing) :=
  try_catch (extract_body data url jobId) (fun _ => ret []).

Definition strategy : ExtractionStrategy RealEstateListing :=
  Build_ExtractionStrategy RealEstateListing
    strategy_name (fun data url => ret (canHandle data url)) extract.

(** The longest run of digits at the head of [s]. *)
Fixpoint leading_digits (s : string) : string :=
  match s with
  | String a rest => if is_digit a then String a (leading_digits rest) else EmptyString
  | EmptyString => EmptyString
  end.

(** [href.match(/\/(\d+)/)]: the digits of the leftmost slash that
    digits follow, [None] when the pattern does not match. *)
Fixpoint match_slash_digits (href : string) : option string :=
  match href with
  | EmptyString => None
  | String a rest =>
      if Ascii.eqb a "/" then
        match leading_digits rest with
        | EmptyString => match_slash_digits rest
        | digits => Some digits
        end
      else match_slash_digits rest
  end.

(** [generateIdFromUrl], the listing id of the HTML and JSON-LD paths. *)
Definition generateIdFromUrl (href : string) : string :=
  match match_slash_digits href with
  | Some digits => digits
  | None =>
      let parts :=
        List.filter (fun part => negb (String.eqb part EmptyString)) (split "/" href) in
      match List.last (List.map Some parts) None with
      | Some part => part
      | None => "unknown-" ++ num_to_string (of_Z now)
      end
  end.

End WithPlatform.
End UrbaniaStrategy.

(* ===================================================================== *)
(** * The two orchestrators *)
(* ===================================================================== *)

(** [metadata] of both result types; [extractedAt] is not modelled. *)
Record Metadata := {
  totalExtracted : nat;
  source : string;
  strategyUsed : option string;
  errors : option (list string);
}.

(** [error instanceof Error ? error.message : 'Unknown error'] *)
Definition errorMsg (error : JS.thrown) : string :=
  match error with
  | JS.Error message => message
  | JS.Thrown _ => "Unknown error"
  end.

(** The loop of both [findStrategy] methods: the first registered
    strategy whose [canHandle] answers [true], if any. *)
Fixpoint firstHandling {E} (strategies : list (ExtractionStrategy E))
    (data : JS.value) (url : string) : JS.Exc (option (ExtractionStrategy E)) :=
  match strategies with
  | [] => JS.ret None
  | strategy :: rest =>
      let* handles := canHandle strategy data url in
      if handles then JS.ret (Some strategy) else firstHandling rest data url
  end.

(** product-extractor.service.ts *)
Module ProductExtractorService.
Import JS.

Record ProductExtractionResult := {
  products : list ProductTypes.Product;
  metadata : Metadata;
}.

Record t := {
  strategies : list (ExtractionStrategy ProductTypes.Product);
  fallbackStrategy : ExtractionStrategy ProductTypes.Product;
}.

Definition registerStrategy (strategy : ExtractionStrategy ProductTypes.Product) (this : t) : t :=
  {| strategies := (strategies this ++ [strategy])%list;
     fallbackStrategy := fallbackStrategy this |}.

(** The constructor. *)
Definition new {U : URLParser} : t :=
  registerStrategy FalabellaStrategy.strategy
    {| strategies := []; fallbackStrategy := GenericStrategy.strategy |}.

Definition findStrategy (this : t) (data : value) (url : string)
    : Exc (ExtractionStrategy ProductTypes.Product) :=
  let* found := firstHandling (strategies this) data url in
  match found with
  | Some strategy => ret strategy
  | None => ret (fallbackStrategy this)
  end.

(** The [try] block of [extractProducts]. *)
Definition extractProducts_body (this : t) (data : value) (url : string)
    (jobId : option string) : Exc ProductExtractionResult :=
  let* strategy := findStrategy this data url in
  let* products := extract strategy data url jobId in
  ret {| products := products;
         metadata := {| totalExtracted := List.length products;
                        source := url;
                        strategyUsed := Some (name strategy);
                        errors := None |} |}.

Definition extractProducts (this : t) (data : value) (url : string)
    (jobId : option string) : Exc ProductExtractionResult :=
  try_catch (extractProducts_body this data url jobId)
    (fun error =>
       ret {| products := [];
              metadata := {| totalExtracted := 0;
                             source := url;
                             strategyUsed := None;
                             errors := Some ["Extraction error: " ++ errorMsg error] |} |}).

Definition getRegisteredStrategies (this : t) : list string :=
  List.map name (strategies this).

End ProductExtractorService.

(** real-estate-extractor.service.ts *)
Module RealEstateExtractorService.
Import JS.

Record RealEstateExtractionResult := {
  listings : list RealEstateTypes.RealEstateListing;
  metadata : Metadata;
}.

Record t := {
  strategies : list (ExtractionStrategy RealEstateTypes.RealEstateListing);
}.

Definition registerStrategy (strategy : ExtractionStrategy RealEstateTypes.RealEstateListing)
    (this : t) : t :=
  {| strategies := (strategies this ++ [strategy])%list |}.

(** The constructor, over the platform the Urbania strategy needs. *)
Definition new (extractFromHTML : value -> string -> option string ->
                                  Exc (list RealEstateTypes.RealEstateListing)) (now : Z) : t :=
  registerStrategy (UrbaniaStrategy.strategy extractFromHTML now)
    {| strategies := [] |}.

(** [null] is [None]. *)
Definition findStrategy (this : t) (data : value) (url : string)
    : Exc (option (ExtractionStrategy RealEstateTypes.RealEstateListing)) :=
  firstHandling (strategies this) data url.

(** The [try] block of [extractListings]. *)
Definition extractListings_body (this : t) (data : value) (url : string)
    (jobId : option string) : Exc RealEstateExtractionResult :=
  let* found := findStrategy this data url in
  match found with
  | None =>
      ret {| listings := [];
             metadata := {| totalExtracted := 0;
                            source := url;
                            strategyUsed := None;
                            errors := Some ["No strategy found for this real estate site"] |} |}
  | Some strategy =>
      let* listings := extract strategy data url jobId in
      ret {| listings := listings;
             metadata := {| totalExtracted := List.length listings;
                            source := url;
                            strategyUsed := Some (name strategy);
                            errors := None |} |}
  end.

Definition extractListings (this : t) (data : value) (url : string)
    (jobId : option string) : Exc RealEstateExtractionResult :=
  try_catch (extractListings_body this data url jobId)
    (fun error =>
       ret {| listings := [];
              metadata := {| totalExtracted := 0;
                             source := url;
                             strategyUsed := None;
                             errors := Some ["Extraction error: " ++ errorMsg error] |} |}).

(** [isRealEstateSite] *)
Definition isRealEstateSite (url : string) : bool :=
  existsb (fun domain => includes domain url)
    [ "urbania.pe"; "adondevivir.com"; "properati.com.pe"; "nexoinmobiliario.pe" ].

Definition getRegisteredStrategies (this : t) : list string :=
  List.map name (strategies this).

End RealEstateExtractorService.

(** product-extractor.service.ts, second part
    ([queue-listener.service.ts]): how a completed job is routed. *)
Module QueueListenerService.
Section WithURL.
Context {U : URLParser}.

(** [isRealEstateDomain] *)
Definition isRealEstateDomain (url : string) : bool :=
  match url_hostname url with
  | None => false
  | Some host =>
      let hostname := strip_www host in
      existsb (fun domain => JS.includes domain hostname)
        [ "urbania.pe"; "urbania"; "adondevivir.com"; "adondevivir";
          "properati.com.pe"; "properati"; "nexoinmobiliario.pe"; "nexoinmobiliario" ]
  end.

(** The test of the [completed] handler: [true] sends the job to the
    real-estate orchestrator, [false] to the product orchestrator. *)
Definition isRealEstate (url : string) : bool :=
  RealEstateExtractorService.isRealEstateSite url || isRealEstateDomain url.

End WithURL.
End QueueListenerService.

(* ===================================================================== *)
(** * The two versioned upsert stores *)
(* ===================================================================== *)

(** [history.slice(-n)] *)
Definition slice_last {A} (n : nat) (history : list A) : list A :=
  skipn (List.length history - n) history.

(** real-estate-strategies/urbania.strategy.ts, second part
    ([product-storage.service.ts]).

    The [products] collection is a finite map from [uniqueKey] (its
    unique index) to documents; [findOne], [insertOne] and [updateOne]
    are lookups and inserts. In [upsertProduct] the backing store is
    taken to answer; [upsertProducts], which counts failures, is given
    what the store answers. Dates are milliseconds, and every call
    reads the clock once ([now]). [version] is an integer; the loss of
    precision of a JavaScript number beyond 2^53 is not modelled.

    A document is modelled on the keys that every upsert writes: the
    four keys of [ProductTypes.Product] and the tracking keys. The
    optional keys of a product (brand, rating, media, ...) are not part
    of it: [updateOne] with [$set] leaves such a key of the stored
    document in place when the incoming product lacks it, and replaces
    it otherwise. *)
Module ProductStorageService.
Import JS.

Record PriceHistoryEntry := {
  price : ProductTypes.ProductPrice;
  recordedAt : Z;
}.

Record StoredProduct := {
  product : ProductTypes.Product;
  uniqueKey : string;
  firstSeenAt : Z;
  lastSeenAt : Z;
  lastUpdatedAt : Z;
  priceHistory : list PriceHistoryEntry;
  version : Z;
}.

(** The service: [collection] is [null] until [connect()]. *)
Record t := {
  collection : option (gmap string StoredProduct);
}.

(** [`${domain}:${productId}`] *)
Definition generateUniqueKey (domain : string) (productId : value) : Exc string :=
  let* id := ToString productId in
  ret (domain ++ ":" ++ id).

Definition priceChanged (oldPrice newPrice : ProductTypes.ProductPrice) : bool :=
  num_strict_neq (ProductTypes.amount oldPrice) (ProductTypes.amount newPrice)
  || negb (String.eqb (ProductTypes.currency oldPrice) (ProductTypes.currency newPrice)).

Definition upsertProduct (this : t) (product : ProductTypes.Product) (now : Z) : Exc t :=
  match collection this with
  | None => throw (Error "MongoDB not connected. Call connect() first.")
  | Some documents =>
      let* uniqueKey :=
        generateUniqueKey (ProductTypes.domain (ProductTypes.source product))
                          (ProductTypes.productId product) in
      match documents !! uniqueKey with
      | Some existing =>
          let history :=
            if priceChanged (ProductTypes.price (ProductStorageService.product existing))
                            (ProductTypes.price product)
            then
              let appended :=
                (priceHistory existing
                 ++ [ {| price := ProductTypes.price product; recordedAt := now |} ])%list in
              if (100 <? List.length appended)%nat then slice_last 100 appended
              else appended
            else priceHistory existing in
          let updates :=
            {| product := product;
               uniqueKey := uniqueKey;
               lastSeenAt := now;
               lastUpdatedAt := now;
               version := version existing + 1;
               priceHistory := history;
               firstSeenAt := firstSeenAt existing |} in
          ret {| collection := Some (<[uniqueKey := updates]> documents) |}
      | None =>
          let storedProduct :=
            {| product := product;
               uniqueKey := uniqueKey;
               firstSeenAt := now;
               lastSeenAt := now;
               lastUpdatedAt := now;
               version := 1;
               priceHistory :=
                 [ {| price := ProductTypes.price product; recordedAt := now |} ] |} in
          ret {| collection := Some (<[uniqueKey := storedProduct]> documents) |}
      end
  end.

(** [getProduct] *)
Definition getProduct (this : t) (domain : string) (productId : value)
    : Exc (option StoredProduct) :=
  match collection this with
  | None => throw (Error "MongoDB not connected. Call connect() first.")
  | Some documents =>
      let* uniqueKey := generateUniqueKey domain productId in
      ret (documents !! uniqueKey)
  end.

(** Successive calls of [upsertProduct], each with its product and its
    reading of the clock; the first failure ends the run. *)
Fixpoint upsertSuccessively (this : t) (calls : list (ProductTypes.Product * Z)) : Exc t :=
  match calls with
  | [] => ret this
  | (product, now) :: rest =>
      let* next := upsertProduct this product now in
      upsertSuccessively next rest
  end.

(** The key of the document a call addresses. *)
Definition keyOf (product : ProductTypes.Product) : Exc string :=
  generateUniqueKey (ProductTypes.domain (ProductTypes.source product))
                    (ProductTypes.productId product).

(** The history entry a call records when it records one. *)
Definition entryOf (call : ProductTypes.Product * Z) : PriceHistoryEntry :=
  {| price := ProductTypes.price (fst call); recordedAt := snd call |}.

(** Every call carries a price that [priceChanged] tells from the price
    before it, [previous] being the price before the first call. *)
Fixpoint eachPriceChanges (previous : ProductTypes.ProductPrice)
    (calls : list (ProductTypes.Product * Z)) : bool :=
  match calls with
  | [] => true
  | call :: rest =>
      priceChanged previous (ProductTypes.price (fst call))
      && eachPriceChanges (ProductTypes.price (fst call)) rest
  end.

(** The same for a whole run, whose first call sets the first price. *)
Definition pricesAllChange (calls : list (ProductTypes.Product * Z)) : bool :=
  match calls with
  | [] => true
  | first :: rest => eachPriceChanges (ProductTypes.price (fst first)) rest
  end.

(** Every call addresses the document [key]. *)
Definition allAddress (key : string) (calls : list (ProductTypes.Product * Z)) : bool :=
  forallb (fun call => match keyOf (fst call) with
                       | inr k => String.eqb k key
                       | inl _ => false
                       end) calls.

(** [collection.findOne({ uniqueKey })] *)
Definition findOne (this : t) (uniqueKey : string) : option StoredProduct :=
  match collection this with
  | Some documents => documents !! uniqueKey
  | None => None
  end.

(** The tally that [upsertProducts] returns. *)
Record UpsertTally := {
  inserted : nat;
  updated : nat;
  errors : nat;
}.

(** What the backing store does with the calls made while one product
    is handled ([findOne] in [upsertProducts]; [findOne], then
    [insertOne] or [updateOne], in [upsertProduct], which rethrows): it
    answers them all, or it rejects one of them. A rejected call leaves
    the collection as it was. *)
Inductive StoreAnswer :=
| Answers
| Rejects (error : thrown).

(** One product of a bulk upsert: the product, the clock reading of its
    upsert and what the store answers. *)
Record BulkCall := {
  upserted : ProductTypes.Product;
  clock : Z;
  answer : StoreAnswer;
}.

(** The body of the loop of [upsertProducts], [try] and [catch]
    included: the new state of the service and the new tally. On a
    service that is not connected no call reaches the store
    ([this.collection?.findOne]) and [upsertProduct] throws. *)
Definition upsertCounted (this : t) (call : BulkCall) (tally : UpsertTally)
    : t * UpsertTally :=
  match
    (let* uniqueKey := keyOf (upserted call) in
     match collection this, answer call with
     | Some _, Rejects error => throw error
     | _, _ =>
         let existing := findOne this uniqueKey in
         let* next := upsertProduct this (upserted call) (clock call) in
         ret (next, existing)
     end)
  with
  | inr (next, Some _) =>
      (next, {| inserted := inserted tally;
                updated := S (updated tally);
                errors := errors tally |})
  | inr (next, None) =>
      (next, {| inserted := S (inserted tally);
                updated := updated tally;
                errors := errors tally |})
  | inl _ =>
      (this, {| inserted := inserted tally;
                updated := updated tally;
                errors := S (errors tally) |})
  end.




(** The collections that upserts build from the empty collection. *)
Inductive reachable : gmap string StoredProduct -> Prop :=
| reachable_empty : reachable ∅
| reachable_upsert documents documents' product now :
    reachable documents ->
    upsertProduct {| collection := Some documents |} product now
    = inr {| collection := Some documents' |} ->
    reachable documents'.

End ProductStorageService.

(** real-estate-storage.service.ts, over the [real_estate_listings]
    collection, modelled like [products]. The interface [StoredListing]
    declares no [version], and [priceHistory] is optional in it. *)
Module RealEstateStorageService.
Import JS.

Record PriceChange := {
  amount : number;
  currency : value;
  changedAt : Z;
}.

Record StoredListing := {
  listing : RealEstateTypes.RealEstateListing;
  uniqueKey : string;
  firstSeenAt : Z;
  lastSeenAt : Z;
  lastUpdatedAt : Z;
  priceHistory : option (list PriceChange);
}.

Record t := {
  collection : option (gmap string StoredListing);
}.

(** [`${domain}:${listingId}`] *)
Definition generateUniqueKey (domain listingId : string) : string :=
  domain ++ ":" ++ listingId.

Definition upsertListing (this : t) (listing : RealEstateTypes.RealEstateListing)
    (now : Z) : Exc t :=
  match collection this with
  | None => throw (Error "MongoDB not connected. Call connect() first.")
  | Some documents =>
      let uniqueKey :=
        generateUniqueKey (RealEstateTypes.domain (RealEstateTypes.source listing))
                          (RealEstateTypes.listingId listing) in
      match documents !! uniqueKey with
      | Some existing =>
          let existingPrice :=
            RealEstateTypes.price (RealEstateStorageService.listing existing) in
          let history :=
            if num_strict_neq (RealEstateTypes.amount (RealEstateTypes.price listing))
                              (RealEstateTypes.amount existingPrice)
            then
              Some (default [] (priceHistory existing)
                    ++ [ {| amount := RealEstateTypes.amount existingPrice;
                            currency := RealEstateTypes.currency existingPrice;
                            changedAt := now |} ])%list
            else priceHistory existing in
          let updates :=
            {| listing := listing;
               uniqueKey := uniqueKey;
               lastSeenAt := now;
               lastUpdatedAt := now;
               firstSeenAt := firstSeenAt existing;
               priceHistory := history |} in
          ret {| collection := Some (<[uniqueKey := updates]> documents) |}
      | None =>
          let newListing :=
            {| listing := listing;
               uniqueKey := uniqueKey;
               firstSeenAt := now;
               lastSeenAt := now;
               lastUpdatedAt := now;
               priceHistory := Some [] |} in
          ret {| collection := Some (<[uniqueKey := newListing]> documents) |}
      end
  end.

(** The key of the document a call addresses. *)
Definition keyOf (listing : RealEstateTypes.RealEstateListing) : string :=
  generateUniqueKey (RealEstateTypes.domain (RealEstateTypes.source listing))
                    (RealEstateTypes.listingId listing).

(** [collection.findOne({ uniqueKey })] *)
Definition findOne (this : t) (uniqueKey : string) : option StoredListing :=
  match collection this with
  | Some documents => documents !! uniqueKey
  | None => None
  end.

(** Successive calls of [upsertListing]. *)
Fixpoint upsertSuccessively (this : t)
    (calls : list (RealEstateTypes.RealEstateListing * Z)) : Exc t :=
  match calls with
  | [] => ret this
  | (listing, now) :: rest =>
      let* next := upsertListing this listing now in
      upsertSuccessively next rest
  end.

(** The tally that [upsertListings] returns. *)
Record UpsertTally := {
  inserted : nat;
  updated : nat;
  errors : nat;
}.

(** The body of the loop of [upsertListings]: the document is read back
    after the upsert, and counts as inserted when its [firstSeenAt] and
    [lastSeenAt] are the same instant. *)
Definition upsertCounted (this : t) (listing : RealEstateTypes.RealEstateListing)
    (now : Z) (tally : UpsertTally) : t * UpsertTally :=
  match upsertListing this listing now with
  | inr next =>
      let isInsert :=
        match findOne next (keyOf listing) with
        | Some existing => firstSeenAt existing =? lastSeenAt existing
        | None => false
        end in
      if isInsert
      then (next, {| inserted := S (inserted tally);
                     updated := updated tally;
                     errors := errors tally |})
      else (next, {| inserted := inserted tally;
                     updated := S (updated tally);
                     errors := errors tally |})
  | inl _ =>
      (this, {| inserted := inserted tally;
                updated := updated tally;
                errors := S (errors tally) |})
  end.

Fixpoint upsertListings_from (this : t)
    (calls : list (RealEstateTypes.RealEstateListing * Z)) (tally : UpsertTally)
    : t * UpsertTally :=
  match calls with
  | [] => (this, tally)
  | (listing, now) :: rest =>
      let '(next, tally') := upsertCounted this listing now tally in
      upsertListings_from next rest tally'
  end.

(** [upsertListings], each listing with the clock reading of its
    upsert. *)
Definition upsertListings (this : t)
    (calls : list (RealEstateTypes.RealEstateListing * Z)) : t * UpsertTally :=
  upsertListings_from this calls {| inserted := 0; updated := 0; errors := 0 |}.

End RealEstateStorageService.

(** A persisted document of either collection, and the [version] it
    carries: a stored listing has no such field. *)
Inductive StoredEntity :=
| StoredProductDocument (document : ProductStorageService.StoredProduct)
| StoredListingDocument (document : RealEstateStorageService.StoredListing).

Definition stored_version (entity : StoredEntity) : option Z :=
  match entity with
  | StoredProductDocument document => Some (ProductStorageService.version document)
  | StoredListingDocument _ => None
  end.

Definition stored_firstSeenAt (entity : StoredEntity) : Z :=
  match entity with
  | StoredProductDocument document => ProductStorageService.firstSeenAt document
  | StoredListingDocument document => RealEstateStorageService.firstSeenAt document
  end.


(* ===================================================================== *)
(** * Vocabulary of the statements *)
(* ===================================================================== *)

(** Every character of the string is a digit or a dot: what the
    [replace] of [parsePrice] leaves. *)
Fixpoint price_chars (s : string) : Prop :=
  match s with
  | EmptyString => True
  | String a rest => BaseExtractionStrategy.price_char a = true /\ price_chars rest
  end.

(** The last call of a run, [first] when the run has one call. *)
Definition lastCall {A} (first : A) (rest : list A) : A := List.last rest first.

(** A field that is a string, or absent. *)
Definition string_or_absent (v : JS.value) : Prop :=
  match v with
  | JS.Str _ | JS.Undefined => True
  | _ => False
  end.

(** Every character of the string is a digit. *)
Fixpoint all_digits (s : string) : Prop :=
  match s with
  | EmptyString => True
  | String a rest => JS.is_digit a = true /\ all_digits rest
  end.

(** Two prices that are one and the same, or that [priceChanged] does
    not tell apart. *)
Definition same_price (a b : ProductTypes.ProductPrice) : Prop :=
  a = b \/ ProductStorageService.priceChanged a b = false.

(* ===================================================================== *)
(** * Scenarios *)
(* ===================================================================== *)

(** Concrete entities and payloads that the examples below run. *)
Module Scenarios.
Import JS.

(** Product [p1] of domain [x], at a given price. *)
Definition widget (amount : Z) (currency : string) : ProductTypes.Product :=
  {| ProductTypes.productId := Str "p1";
     ProductTypes.name := Str "Widget";
     ProductTypes.price :=
       {| ProductTypes.amount := of_Z amount; ProductTypes.currency := currency |};
     ProductTypes.source :=
       {| ProductTypes.domain := "x";
          ProductTypes.url := Str "https://x.example/p1";
          ProductTypes.jobId := None |} |}.

(** Listing [77] of Urbania, at a given price. *)
Definition flat (amount : Z) (currency : string) : RealEstateTypes.RealEstateListing :=
  {| RealEstateTypes.listingId := "77";
     RealEstateTypes.source :=
       {| RealEstateTypes.domain := "urbania.pe"; RealEstateTypes.jobId := None |};
     RealEstateTypes.title := Str "Departamento en Miraflores";
     RealEstateTypes.price :=
       {| RealEstateTypes.amount := of_Z amount;
          RealEstateTypes.currency := Str currency |} |}.

(** The document that the first upsert of [p1], at 10 USD and time
    1000, stores. *)
Definition storedWidget : ProductStorageService.StoredProduct :=
  {| ProductStorageService.product := widget 10 "USD";
     ProductStorageService.uniqueKey := "x:p1";
     ProductStorageService.firstSeenAt := 1000;
     ProductStorageService.lastSeenAt := 1000;
     ProductStorageService.lastUpdatedAt := 1000;
     ProductStorageService.priceHistory :=
       [ ProductStorageService.entryOf (widget 10 "USD", 1000) ];
     ProductStorageService.version := 1 |}.

(** The document that the first upsert of listing [77], at 1500 PEN and
    time 1000, stores. *)
Definition storedFlat : RealEstateStorageService.StoredListing :=
  {| RealEstateStorageService.listing := flat 1500 "PEN";
     RealEstateStorageService.uniqueKey := "urbania.pe:77";
     RealEstateStorageService.firstSeenAt := 1000;
     RealEstateStorageService.lastSeenAt := 1000;
     RealEstateStorageService.lastUpdatedAt := 1000;
     RealEstateStorageService.priceHistory := Some [] |}.

(** [n] upserts of [p1], the [i]-th at price [i] and time [i]. *)
Definition risingPrices (n : nat) : list (ProductTypes.Product * Z) :=
  List.map (fun i => (widget (Z.of_nat i) "USD", Z.of_nat i)) (seq 1 n).

(** [n] upserts of listing [77], the [i]-th at price [i] and time [i]. *)
Definition risingRents (n : nat) : list (RealEstateTypes.RealEstateListing * Z) :=
  List.map (fun i => (flat (Z.of_nat i) "PEN", Z.of_nat i)) (seq 1 n).


(** The payload of the Falabella end-to-end scenario: one record in a
    Next.js page-state blob. *)
Definition falabellaPage : value :=
  Obj [ ("props", Obj [ ("pageProps", Obj [ ("results", Arr [
    Obj [ ("productId", Str "123");
          ("displayName", Str "Phone X");
          ("prices", Arr [ Obj [ ("type", Str "internetPrice");
                                 ("price", Arr [ Str "999" ]);
                                 ("symbol", Str "S/ ") ] ]) ] ]) ]) ]) ].

(** A record whose only price information is a price string in soles. *)
Definition widgetInSoles : value :=
  Obj [ ("id", Str "a1"); ("name", Str "Widget"); ("price", Str "S/ 19.99") ].

(** A record whose currency is an object, not a code, and which has a
    price symbol. *)
Definition widgetWithCurrencyObject : value :=
  Obj [ ("id", Str "a1"); ("name", Str "Widget"); ("price", Num (of_Z 20));
        ("currency", Obj [ ("code", Str "PEN") ]); ("priceSymbol", Str "S/") ].

(** A record whose id is an empty array. *)
Definition widgetWithEmptyId : value :=
  Obj [ ("id", Arr []); ("name", Str "Widget") ].

(** A Falabella record whose productId is an empty array. *)
Definition phoneWithEmptyId : value :=
  Obj [ ("productId", Arr []); ("displayName", Str "Phone X") ].

(** A pre-parsed Urbania API response with one listing. *)
Definition urbaniaResponse : value :=
  Arr [ Obj [ ("id", Num (of_Z 77));
              ("title", Str "Departamento en Miraflores");
              ("price", Num (of_Z 1500)) ] ].

(** A listing of the API response whose price is a text, not a
    number. *)
Definition listingOnRequest : value :=
  Obj [ ("id", Num (of_Z 78));
        ("title", Str "Casa en La Molina");
        ("price", Str "Consultar precio") ].

(** A Falabella record whose internet price is a plain string instead
    of a list of strings. *)
Definition phoneWithStringPrice : value :=
  Obj [ ("productId", Str "123");
        ("displayName", Str "Phone X");
        ("prices", Arr [ Obj [ ("type", Str "internetPrice");
                               ("price", Str "999");
                               ("symbol", Str "S/ ") ] ]) ].

(** The raw result of job [job-1], and the record of its failure. *)
Definition fetched1 : StorageService.FetchResult :=
  {| StorageService.jobId := "job-1";
     StorageService.url := "https://www.falabella.com.pe/category/cat40052";
     StorageService.html := "<html></html>";
     StorageService.fetchedAt := 900;
     StorageService.screenshot := None;
     StorageService.statusCode := Some (of_Z 200);
     StorageService.headers := None;
     StorageService.actionResults := None;
     StorageService.extractedData := None |}.

Definition failedJob1 : StorageService.StoredResult :=
  {| StorageService.fetched :=
       {| StorageService.jobId := "job-1";
          StorageService.url := "https://www.falabella.com.pe/category/cat40052";
          StorageService.html := EmptyString;
          StorageService.fetchedAt := 500;
          StorageService.screenshot := None;
          StorageService.statusCode := None;
          StorageService.headers := None;
          StorageService.actionResults := None;
          StorageService.extractedData := None |};
     StorageService.storedAt := 600;
     StorageService.state := StorageService.Failed;
     StorageService.domain := "falabella";
     StorageService.failureReason := Some "Navigation timeout" |}.

(** An HTML engine that finds no listing card. *)
Definition noCards (html : value) (url : string) (jobId : option string)
    : Exc (list RealEstateTypes.RealEstateListing) :=
  ret [].

(** A strategy that claims every payload and whose [extract] throws
    [error]. *)
Definition failing (error : thrown) : ExtractionStrategy ProductTypes.Product :=
  Build_ExtractionStrategy ProductTypes.Product
    "Failing" (fun _ _ => ret true) (fun _ _ _ => throw error).

End Scenarios.

(* ===================================================================== *)
(** * Properties of the upsert stores *)
(* ===================================================================== *)

Section SliceLast.
Context {A : Type}.
Implicit Types l history : list A.

Lemma slice_last_short n l : (List.length l <= n)%nat -> slice_last n l = l.
Proof.
  intros Hle. unfold slice_last.
  replace (List.length l - n)%nat with O by lia. reflexivity.
Qed.

Lemma slice_last_length n l :
  List.length (slice_last n l) = Nat.min n (List.length l).
Proof. unfold slice_last. rewrite length_skipn. lia. Qed.

(** Trimming after an append forgets whether the list was trimmed
    before. *)
Lemma slice_last_app_slice n l more :
  slice_last n (slice_last n l ++ more) = slice_last n (l ++ more).
Proof.
  destruct (Nat.le_gt_cases (List.length l) n) as [Hle | Hgt].
  - rewrite (slice_last_short n l) by exact Hle. reflexivity.
  - unfold slice_last at 1 3.
    rewrite !skipn_app, !length_app, slice_last_length.
    unfold slice_last. rewrite skipn_skipn.
    f_equal; f_equal; lia.
Qed.

(** What [upsertProduct] does to an appended history is [slice(-100)]
    whether or not the guard on the length fires. *)
Lemma trim_is_slice_last l :
  (if (100 <? List.length l)%nat then slice_last 100 l else l) = slice_last 100 l.
Proof.
  destruct (100 <? List.length l)%nat eqn:Hlen; [reflexivity |].
  apply Nat.ltb_ge in Hlen. symmetry. apply slice_last_short. exact Hlen.
Qed.

(** Appending one entry and keeping the last [n]: the new entry stays,
    behind the last [n - 1] of the entries before it. *)
Lemma slice_last_snoc n l x :
  (0 < n)%nat -> slice_last n (l ++ [x]) = (slice_last (n - 1) l ++ [x])%list.
Proof.
  intros Hn. unfold slice_last.
  rewrite skipn_app, length_app. simpl.
  replace (List.length l + 1 - n)%nat with (List.length l - (n - 1))%nat by lia.
  replace (List.length l - (n - 1) - List.length l)%nat with O by lia.
  reflexivity.
Qed.

End SliceLast.

Module ProductStoreFacts.
Import JS ProductStorageService.

(** [upsertProduct] on a connected service, by the two cases of its
    lookup. *)
Lemma upsertProduct_insert documents product now key :
  keyOf product = inr key ->
  documents !! key = None ->
  upsertProduct {| collection := Some documents |} product now
  = inr {| collection := Some (<[key :=
        {| product := product; uniqueKey := key; firstSeenAt := now;
           lastSeenAt := now; lastUpdatedAt := now;
           priceHistory := [ entryOf (product, now) ]; version := 1 |}]> documents) |}.
Proof.
  unfold keyOf. intros Hkey Hnone. unfold upsertProduct. simpl.
  rewrite Hkey. simpl. rewrite Hnone. reflexivity.
Qed.

Lemma upsertProduct_update documents product now key existing :
  keyOf product = inr key ->
  documents !! key = Some existing ->
  upsertProduct {| collection := Some documents |} product now
  = inr {| collection := Some (<[key :=
        {| product := product; uniqueKey := key;
           firstSeenAt := firstSeenAt existing;
           lastSeenAt := now; lastUpdatedAt := now;
           priceHistory :=
             if priceChanged (ProductTypes.price (ProductStorageService.product existing))
                             (ProductTypes.price product)
             then slice_last 100 (priceHistory existing ++ [ entryOf (product, now) ])
             else priceHistory existing;
           version := version existing + 1 |}]> documents) |}.
Proof.
  unfold keyOf. intros Hkey Hsome. unfold upsertProduct. simpl.
  rewrite Hkey. simpl. rewrite Hsome.
  rewrite trim_is_slice_last. reflexivity.
Qed.

(** A successful upsert went through one of the two cases. *)
Lemma upsert_inv this product now next :
  upsertProduct this product now = inr next ->
  exists documents key,
    collection this = Some documents /\ keyOf product = inr key.
Proof.
  unfold upsertProduct, keyOf. destruct (collection this) as [documents |]; [| discriminate].
  destruct (generateUniqueKey _ _) as [e | key] eqn:Hkey; simpl; [discriminate |].
  intros _. exists documents, key. split; reflexivity.
Qed.

Lemma history_bounded_step documents documents' product now :
  (forall key stored, documents !! key = Some stored ->
     (List.length (priceHistory stored) <= 100)%nat) ->
  upsertProduct {| collection := Some documents |} product now
  = inr {| collection := Some documents' |} ->
  forall key stored, documents' !! key = Some stored ->
    (List.length (priceHistory stored) <= 100)%nat.
Proof.
  intros Hbound Hstep key stored Hlookup.
  destruct (upsert_inv _ _ _ _ Hstep) as (docs & k & Hdocs & Hkey).
  simpl in Hdocs. injection Hdocs as <-.
  destruct (documents !! k) as [existing |] eqn:Hexisting.
  - rewrite (upsertProduct_update _ _ _ _ _ Hkey Hexisting) in Hstep.
    injection Hstep as <-.
    destruct (decide (k = key)) as [-> | Hne].
    + rewrite lookup_insert_eq in Hlookup. injection Hlookup as <-. simpl.
      destruct (priceChanged _ _).
      * rewrite slice_last_length. lia.
      * eapply Hbound; eassumption.
    + rewrite lookup_insert_ne in Hlookup by exact Hne. eapply Hbound; eassumption.
  - rewrite (upsertProduct_insert _ _ _ _ Hkey Hexisting) in Hstep.
    injection Hstep as <-.
    destruct (decide (k = key)) as [-> | Hne].
    + rewrite lookup_insert_eq in Hlookup. injection Hlookup as <-. simpl. lia.
    + rewrite lookup_insert_ne in Hlookup by exact Hne. eapply Hbound; eassumption.
Qed.

Lemma reachable_history_bounded documents :
  reachable documents ->
  forall key stored, documents !! key = Some stored ->
    (List.length (priceHistory stored) <= 100)%nat.
Proof.
  induction 1 as [| documents documents' product now _ IH Hstep].
  - intros key stored Hlookup. rewrite lookup_empty in Hlookup. discriminate.
  - eapply history_bounded_step; eassumption.
Qed.

(** Updates of one key, each with a changed price: the history is the
    last hundred of all the entries recorded so far. *)
Lemma successive_updates key calls :
  forall documents existing recorded,
    documents !! key = Some existing ->
    priceHistory existing = slice_last 100 recorded ->
    Forall (fun call => keyOf (fst call) = inr key) calls ->
    eachPriceChanges (ProductTypes.price (ProductStorageService.product existing)) calls = true ->
    exists documents' stored,
      upsertSuccessively {| collection := Some documents |} calls
      = inr {| collection := Some documents' |}
      /\ documents' !! key = Some stored
      /\ priceHistory stored = slice_last 100 (recorded ++ List.map entryOf calls)
      /\ version stored = version existing + Z.of_nat (List.length calls)
      /\ firstSeenAt stored = firstSeenAt existing.
Proof.
  induction calls as [| [product now] rest IH];
    intros documents existing recorded Hlookup Hhistory Hkeys Hchanges.
  - exists documents, existing. simpl. rewrite app_nil_r.
    repeat split; try assumption. lia.
  - apply Forall_cons_iff in Hkeys as [Hkey Hkeys]. simpl in Hkey.
    simpl in Hchanges. apply andb_true_iff in Hchanges as [Hchanged Hchanges].
    simpl. rewrite (upsertProduct_update _ _ _ _ _ Hkey Hlookup). simpl.
    rewrite Hchanged.
    match goal with
    | |- context [ <[key := ?updated]> documents ] =>
        destruct (IH (<[key := updated]> documents) updated
                     (recorded ++ [entryOf (product, now)])%list)
          as (documents' & stored & Hrun & Hstored & Hhist & Hversion & Hfirst)
    end.
    + apply lookup_insert_eq.
    + simpl. rewrite Hhistory. apply slice_last_app_slice.
    + exact Hkeys.
    + simpl. exact Hchanges.
    + exists documents', stored. rewrite Hrun. simpl in *.
      repeat split; try assumption.
      * rewrite Hhist, <- app_assoc. reflexivity.
      * lia.
Qed.

(** The same from a collection that does not hold the key yet. *)
Lemma successive_upserts key first rest documents :
  documents !! key = None ->
  Forall (fun call => keyOf (fst call) = inr key) (first :: rest) ->
  eachPriceChanges (ProductTypes.price (fst first)) rest = true ->
  exists documents' stored,
    upsertSuccessively {| collection := Some documents |} (first :: rest)
    = inr {| collection := Some documents' |}
    /\ documents' !! key = Some stored
    /\ priceHistory stored = slice_last 100 (List.map entryOf (first :: rest))
    /\ version stored = Z.of_nat (List.length (first :: rest))
    /\ firstSeenAt stored = snd first.
Proof.
  intros Hnone Hkeys Hchanges. destruct first as [product now].
  apply Forall_cons_iff in Hkeys as [Hkey Hkeys]. simpl in Hkey.
  simpl. rewrite (upsertProduct_insert _ _ _ _ Hkey Hnone). simpl.
  match goal with
  | |- context [ <[key := ?inserted]> documents ] =>
      destruct (successive_updates key rest (<[key := inserted]> documents) inserted
                  [entryOf (product, now)])
        as (documents' & stored & Hrun & Hstored & Hhist & Hversion & Hfirst)
  end.
  - apply lookup_insert_eq.
  - simpl. reflexivity.
  - exact Hkeys.
  - simpl. exact Hchanges.
  - exists documents', stored. rewrite Hrun. simpl in *.
    repeat split; try assumption. lia.
Qed.

End ProductStoreFacts.

Module ListingStoreFacts.
Import JS RealEstateStorageService.

Lemma upsertListing_insert documents listing now :
  documents !! keyOf listing = None ->
  upsertListing {| collection := Some documents |} listing now
  = inr {| collection := Some (<[keyOf listing :=
        {| listing := listing; uniqueKey := keyOf listing; firstSeenAt := now;
           lastSeenAt := now; lastUpdatedAt := now;
           priceHistory := Some [] |}]> documents) |}.
Proof.
  intros Hnone. unfold upsertListing. simpl. fold (keyOf listing).
  rewrite Hnone. reflexivity.
Qed.

Lemma upsertListing_update documents listing now existing :
  documents !! keyOf listing = Some existing ->
  upsertListing {| collection := Some documents |} listing now
  = inr {| collection := Some (<[keyOf listing :=
        {| listing := listing; uniqueKey := keyOf listing;
           firstSeenAt := firstSeenAt existing;
           lastSeenAt := now; lastUpdatedAt := now;
           priceHistory :=
             let existingPrice :=
               RealEstateTypes.price (RealEstateStorageService.listing existing) in
             if num_strict_neq (RealEstateTypes.amount (RealEstateTypes.price listing))
                               (RealEstateTypes.amount existingPrice)
             then Some (default [] (priceHistory existing)
                        ++ [ {| amount := RealEstateTypes.amount existingPrice;
                                currency := RealEstateTypes.currency existingPrice;
                                changedAt := now |} ])%list
             else priceHistory existing |}]> documents) |}.
Proof.
  intros Hsome. unfold upsertListing. simpl. fold (keyOf listing).
  rewrite Hsome. reflexivity.
Qed.

End ListingStoreFacts.

(** C1 (amended). The first upsert of a product's uniqueKey stores it
    with version 1 and firstSeenAt equal to the time of the call; every
    later upsert of that key succeeds, sets version to the stored
    version plus 1 and leaves firstSeenAt as it was. An upsert of a
    real-estate listing sets firstSeenAt at the first upsert of its key
    and leaves it as it was afterwards; a stored listing carries no
    version. *)
Theorem upsert_version_and_firstSeenAt :
  (forall documents product now key,
      ProductStorageService.keyOf product = inr key ->
      exists stored,
        ProductStorageService.upsertProduct
          {| ProductStorageService.collection := Some documents |} product now
        = inr {| ProductStorageService.collection := Some (<[key := stored]> documents) |}
        /\ match documents !! key with
           | None =>
               stored_version (StoredProductDocument stored) = Some 1
               /\ stored_firstSeenAt (StoredProductDocument stored) = now
           | Some existing =>
               stored_version (StoredProductDocument stored)
               = Some (ProductStorageService.version existing + 1)
               /\ stored_firstSeenAt (StoredProductDocument stored)
                  = ProductStorageService.firstSeenAt existing
           end)
  /\ (forall documents listing now,
      exists stored,
        RealEstateStorageService.upsertListing
          {| RealEstateStorageService.collection := Some documents |} listing now
        = inr {| RealEstateStorageService.collection :=
                   Some (<[RealEstateStorageService.keyOf listing := stored]> documents) |}
        /\ stored_version (StoredListingDocument stored) = None
        /\ stored_firstSeenAt (StoredListingDocument stored)
           = match documents !! RealEstateStorageService.keyOf listing with
             | None => now
             | Some existing => RealEstateStorageService.firstSeenAt existing
             end).
Proof.
  split.
  - intros documents product now key Hkey.
    destruct (documents !! key) as [existing |] eqn:Hlookup.
    + eexists. split.
      * apply (ProductStoreFacts.upsertProduct_update _ _ _ _ _ Hkey Hlookup).
      * simpl. split; reflexivity.
    + eexists. split.
      * apply (ProductStoreFacts.upsertProduct_insert _ _ _ _ Hkey Hlookup).
      * simpl. split; reflexivity.
  - intros documents listing now.
    destruct (documents !! RealEstateStorageService.keyOf listing) as [existing |] eqn:Hlookup.
    + eexists. split.
      * apply (ListingStoreFacts.upsertListing_update _ _ _ _ Hlookup).
      * simpl. split; reflexivity.
    + eexists. split.
      * apply (ListingStoreFacts.upsertListing_insert _ _ _ Hlookup).
      * simpl. split; reflexivity.
Qed.

(** The product half of C1 on product [p1] of domain [x], upserted into
    the empty collection. *)
Lemma upsert_version_and_firstSeenAt_witness :
  exists stored,
    ProductStorageService.upsertProduct
      {| ProductStorageService.collection := Some ∅ |} (Scenarios.widget 10 "USD") 1000
    = inr {| ProductStorageService.collection := Some (<["x:p1" := stored]> ∅) |}
    /\ match (∅ : gmap string ProductStorageService.StoredProduct) !! "x:p1" with
       | None =>
           stored_version (StoredProductDocument stored) = Some 1
           /\ stored_firstSeenAt (StoredProductDocument stored) = 1000
       | Some existing =>
           stored_version (StoredProductDocument stored)
           = Some (ProductStorageService.version existing + 1)
           /\ stored_firstSeenAt (StoredProductDocument stored)
              = ProductStorageService.firstSeenAt existing
       end.
Proof.
  apply (proj1 upsert_version_and_firstSeenAt ∅ (Scenarios.widget 10 "USD") 1000 "x:p1").
  reflexivity.
Defined.

(** C1, as stated, fails on listings: the document that the first
    upsert of a listing stores has no version, hence not version 1. *)
Lemma listing_first_upsert_stores_no_version :
  exists final stored,
    RealEstateStorageService.upsertListing
      {| RealEstateStorageService.collection := Some ∅ |} (Scenarios.flat 1500 "PEN") 1000
    = inr final
    /\ RealEstateStorageService.findOne final "urbania.pe:77" = Some stored
    /\ stored_version (StoredListingDocument stored) <> Some 1.
Proof.
  eexists _, _. split; [reflexivity |]. split; [reflexivity |]. discriminate.
Qed.

(** C2 (amended). On an upsert of a stored product whose incoming price
    differs from the stored price by amount or by currency, the new
    history is the old one with exactly one entry appended, the
    incoming price at the time of the call (only the last 100 entries
    being kept); when the two prices are equal the history is carried
    forward unchanged. On an upsert of a stored listing whose incoming
    amount differs from the stored amount, exactly one entry is
    appended, and it carries the previously stored price (amount and
    currency) at the time of the call; when the incoming amount and
    currency equal the stored ones the history is carried forward
    unchanged. *)
Theorem upsert_priceHistory_on_price_change :
  (forall documents product now key existing,
      ProductStorageService.keyOf product = inr key ->
      documents !! key = Some existing ->
      exists stored,
        ProductStorageService.upsertProduct
          {| ProductStorageService.collection := Some documents |} product now
        = inr {| ProductStorageService.collection := Some (<[key := stored]> documents) |}
        /\ (ProductStorageService.priceChanged
              (ProductTypes.price (ProductStorageService.product existing))
              (ProductTypes.price product) = true ->
            ProductStorageService.priceHistory stored
            = (slice_last 99 (ProductStorageService.priceHistory existing)
               ++ [ {| ProductStorageService.price := ProductTypes.price product;
                       ProductStorageService.recordedAt := now |} ])%list)
        /\ (ProductStorageService.priceChanged
              (ProductTypes.price (ProductStorageService.product existing))
              (ProductTypes.price product) = false ->
            ProductStorageService.priceHistory stored
            = ProductStorageService.priceHistory existing))
  /\ (forall documents listing now existing,
      documents !! RealEstateStorageService.keyOf listing = Some existing ->
      exists stored,
        RealEstateStorageService.upsertListing
          {| RealEstateStorageService.collection := Some documents |} listing now
        = inr {| RealEstateStorageService.collection :=
                   Some (<[RealEstateStorageService.keyOf listing := stored]> documents) |}
        /\ (JS.num_strict_neq
              (RealEstateTypes.amount (RealEstateTypes.price listing))
              (RealEstateTypes.amount
                 (RealEstateTypes.price (RealEstateStorageService.listing existing)))
            = true ->
            RealEstateStorageService.priceHistory stored
            = Some (default [] (RealEstateStorageService.priceHistory existing)
                    ++ [ {| RealEstateStorageService.amount :=
                              RealEstateTypes.amount
                                (RealEstateTypes.price (RealEstateStorageService.listing existing));
                            RealEstateStorageService.currency :=
                              RealEstateTypes.currency
                                (RealEstateTypes.price (RealEstateStorageService.listing existing));
                            RealEstateStorageService.changedAt := now |} ])%list)
        /\ (JS.num_strict_eq
              (RealEstateTypes.amount (RealEstateTypes.price listing))
              (RealEstateTypes.amount
                 (RealEstateTypes.price (RealEstateStorageService.listing existing)))
            = true ->
            RealEstateTypes.currency (RealEstateTypes.price listing)
            = RealEstateTypes.currency
                (RealEstateTypes.price (RealEstateStorageService.listing existing)) ->
            RealEstateStorageService.priceHistory stored
            = RealEstateStorageService.priceHistory existing)).
Proof.
  split.
  - intros documents product now key existing Hkey Hlookup.
    eexists. split; [apply (ProductStoreFacts.upsertProduct_update _ _ _ _ _ Hkey Hlookup) |].
    simpl. split; intros ->.
    + apply slice_last_snoc. lia.
    + reflexivity.
  - intros documents listing now existing Hlookup.
    eexists. split; [apply (ListingStoreFacts.upsertListing_update _ _ _ _ Hlookup) |].
    simpl. split.
    + intros ->. reflexivity.
    + intros Heq _. unfold JS.num_strict_neq. rewrite Heq. reflexivity.
Qed.

(** The product half of C2 on [p1], stored at 10 USD and upserted at
    12 USD. *)
Lemma upsert_priceHistory_on_price_change_witness :
  exists stored,
    ProductStorageService.upsertProduct
      {| ProductStorageService.collection := Some {[ "x:p1" := Scenarios.storedWidget ]} |}
      (Scenarios.widget 12 "USD") 2000
    = inr {| ProductStorageService.collection :=
               Some (<["x:p1" := stored]> {[ "x:p1" := Scenarios.storedWidget ]}) |}
    /\ ProductStorageService.priceHistory stored
       = [ ProductStorageService.entryOf (Scenarios.widget 10 "USD", 1000);
           ProductStorageService.entryOf (Scenarios.widget 12 "USD", 2000) ].
Proof.
  destruct (proj1 upsert_priceHistory_on_price_change
              {[ "x:p1" := Scenarios.storedWidget ]}
              (Scenarios.widget 12 "USD") 2000 "x:p1" Scenarios.storedWidget)
    as (stored & Hrun & Hchanged & _); [reflexivity | reflexivity |].
  exists stored. split; [exact Hrun |].
  rewrite (Hchanged eq_refl). reflexivity.
Defined.

(** C2, as stated, fails on listings: after listing 77 is stored at
    1500 PEN, an upsert at 1800 PEN appends an entry that carries the
    old price 1500, not the incoming 1800; and an upsert at 1500 USD,
    which changes the currency alone, appends nothing. *)
Lemma listing_history_records_previous_price :
  (exists final stored,
      RealEstateStorageService.upsertSuccessively
        {| RealEstateStorageService.collection := Some ∅ |}
        [ (Scenarios.flat 1500 "PEN", 1000); (Scenarios.flat 1800 "PEN", 2000) ]
      = inr final
      /\ RealEstateStorageService.findOne final "urbania.pe:77" = Some stored
      /\ RealEstateStorageService.priceHistory stored
         = Some [ {| RealEstateStorageService.amount := JS.of_Z 1500;
                     RealEstateStorageService.currency := JS.Str "PEN";
                     RealEstateStorageService.changedAt := 2000 |} ])
  /\ (exists final stored,
      RealEstateStorageService.upsertSuccessively
        {| RealEstateStorageService.collection := Some ∅ |}
        [ (Scenarios.flat 1500 "PEN", 1000); (Scenarios.flat 1500 "USD", 2000) ]
      = inr final
      /\ RealEstateStorageService.findOne final "urbania.pe:77" = Some stored
      /\ RealEstateStorageService.priceHistory stored = Some []).
Proof.
  split; eexists _, _; (split; [reflexivity |]); split; reflexivity.
Qed.

(** C3 (amended). The first upsert of a product's uniqueKey seeds
    priceHistory with exactly one entry, the product's price at the
    time of the call; the first upsert of a listing's uniqueKey seeds
    priceHistory with the empty list. *)
Theorem insert_seeds_priceHistory :
  (forall documents product now key,
      ProductStorageService.keyOf product = inr key ->
      documents !! key = None ->
      exists stored,
        ProductStorageService.upsertProduct
          {| ProductStorageService.collection := Some documents |} product now
        = inr {| ProductStorageService.collection := Some (<[key := stored]> documents) |}
        /\ ProductStorageService.priceHistory stored
           = [ {| ProductStorageService.price := ProductTypes.price product;
                  ProductStorageService.recordedAt := now |} ])
  /\ (forall documents listing now,
      documents !! RealEstateStorageService.keyOf listing = None ->
      exists stored,
        RealEstateStorageService.upsertListing
          {| RealEstateStorageService.collection := Some documents |} listing now
        = inr {| RealEstateStorageService.collection :=
                   Some (<[RealEstateStorageService.keyOf listing := stored]> documents) |}
        /\ RealEstateStorageService.priceHistory stored = Some []).
Proof.
  split.
  - intros documents product now key Hkey Hnone.
    eexists. split; [apply (ProductStoreFacts.upsertProduct_insert _ _ _ _ Hkey Hnone) |].
    reflexivity.
  - intros documents listing now Hnone.
    eexists. split; [apply (ListingStoreFacts.upsertListing_insert _ _ _ Hnone) |].
    reflexivity.
Qed.

(** C3's product half on [p1], inserted at 10 USD into the empty
    collection. *)
Lemma insert_seeds_priceHistory_witness :
  exists stored,
    ProductStorageService.upsertProduct
      {| ProductStorageService.collection := Some ∅ |} (Scenarios.widget 10 "USD") 1000
    = inr {| ProductStorageService.collection := Some (<["x:p1" := stored]> ∅) |}
    /\ ProductStorageService.priceHistory stored
       = [ {| ProductStorageService.price :=
                {| ProductTypes.amount := JS.of_Z 10; ProductTypes.currency := "USD" |};
              ProductStorageService.recordedAt := 1000 |} ].
Proof.
  apply (proj1 insert_seeds_priceHistory ∅ (Scenarios.widget 10 "USD") 1000 "x:p1");
    reflexivity.
Defined.

(** C3, as stated, fails on listings: the first upsert of listing 77
    stores an empty priceHistory, with no entry for the initial price. *)
Lemma listing_insert_seeds_empty_history :
  exists final stored,
    RealEstateStorageService.upsertListing
      {| RealEstateStorageService.collection := Some ∅ |} (Scenarios.flat 1500 "PEN") 1000
    = inr final
    /\ RealEstateStorageService.findOne final "urbania.pe:77" = Some stored
    /\ RealEstateStorageService.priceHistory stored = Some []
    /\ RealEstateStorageService.priceHistory stored
       <> Some [ {| RealEstateStorageService.amount := JS.of_Z 1500;
                    RealEstateStorageService.currency := JS.Str "PEN";
                    RealEstateStorageService.changedAt := 1000 |} ].
Proof.
  eexists _, _. split; [reflexivity |]. split; [reflexivity |].
  split; [reflexivity | discriminate].
Qed.

Lemma allAddress_Forall key calls :
  ProductStorageService.allAddress key calls = true ->
  Forall (fun call => ProductStorageService.keyOf (fst call) = inr key) calls.
Proof.
  unfold ProductStorageService.allAddress. intros Hall.
  apply Forall_forall. intros call Hin.
  apply list_elem_of_In in Hin.
  pose proof (proj1 (forallb_forall _ _) Hall call Hin) as Hcall. simpl in Hcall.
  destruct (ProductStorageService.keyOf (fst call)) as [e | k]; [discriminate |].
  apply String.eqb_eq in Hcall. congruence.
Qed.

(** C4 (amended). The priceHistory of a stored product never exceeds 100
    entries, and what is trimmed is the oldest: after successive upserts
    of one uniqueKey, each at a price that differs from the one stored
    before it, the history holds the entries of the last 100 calls, in
    order; after 150 such upserts it has exactly 100 entries, those of
    calls 51 to 150. (The history of a listing is not bounded.) *)
Theorem product_priceHistory_bounded :
  (forall documents,
      ProductStorageService.reachable documents ->
      forall key stored,
        documents !! key = Some stored ->
        (List.length (ProductStorageService.priceHistory stored) <= 100)%nat)
  /\ (forall documents key calls,
      documents !! key = None ->
      calls <> [] ->
      ProductStorageService.allAddress key calls = true ->
      ProductStorageService.pricesAllChange calls = true ->
      exists final stored,
        ProductStorageService.upsertSuccessively
          {| ProductStorageService.collection := Some documents |} calls = inr final
        /\ ProductStorageService.findOne final key = Some stored
        /\ ProductStorageService.priceHistory stored
           = slice_last 100 (List.map ProductStorageService.entryOf calls))
  /\ (forall documents key calls,
      documents !! key = None ->
      List.length calls = 150%nat ->
      ProductStorageService.allAddress key calls = true ->
      ProductStorageService.pricesAllChange calls = true ->
      exists final stored,
        ProductStorageService.upsertSuccessively
          {| ProductStorageService.collection := Some documents |} calls = inr final
        /\ ProductStorageService.findOne final key = Some stored
        /\ List.length (ProductStorageService.priceHistory stored) = 100%nat
        /\ ProductStorageService.priceHistory stored
           = skipn 50 (List.map ProductStorageService.entryOf calls)).
Proof.
  assert (Hrun : forall documents key calls,
      documents !! key = None ->
      calls <> [] ->
      ProductStorageService.allAddress key calls = true ->
      ProductStorageService.pricesAllChange calls = true ->
      exists final stored,
        ProductStorageService.upsertSuccessively
          {| ProductStorageService.collection := Some documents |} calls = inr final
        /\ ProductStorageService.findOne final key = Some stored
        /\ ProductStorageService.priceHistory stored
           = slice_last 100 (List.map ProductStorageService.entryOf calls)).
  { intros documents key calls Hnone Hne Hkeys Hchanges.
    destruct calls as [| first rest]; [congruence |].
    destruct (ProductStoreFacts.successive_upserts key first rest documents Hnone
                (allAddress_Forall _ _ Hkeys) Hchanges)
      as (documents' & stored & Hfinal & Hstored & Hhistory & _).
    exists {| ProductStorageService.collection := Some documents' |}, stored.
    repeat split; assumption. }
  split; [exact ProductStoreFacts.reachable_history_bounded |].
  split; [exact Hrun |].
  intros documents key calls Hnone Hlen Hkeys Hchanges.
  destruct (Hrun documents key calls Hnone) as (final & stored & Hfinal & Hstored & Hhistory);
    try assumption.
  { intros ->. discriminate. }
  exists final, stored. repeat split; try assumption.
  - rewrite Hhistory, slice_last_length, length_map, Hlen. reflexivity.
  - rewrite Hhistory. unfold slice_last. rewrite length_map, Hlen. reflexivity.
Qed.

(** C4's run of 150 upserts on [p1], the [i]-th at price [i]: 100
    entries remain, those of prices 51 to 150. *)
Lemma product_priceHistory_bounded_witness :
  exists final stored,
    ProductStorageService.upsertSuccessively
      {| ProductStorageService.collection := Some ∅ |} (Scenarios.risingPrices 150)
    = inr final
    /\ ProductStorageService.findOne final "x:p1" = Some stored
    /\ List.length (ProductStorageService.priceHistory stored) = 100%nat
    /\ ProductStorageService.priceHistory stored
       = skipn 50 (List.map ProductStorageService.entryOf (Scenarios.risingPrices 150)).
Proof.
  apply (proj2 (proj2 product_priceHistory_bounded) ∅ "x:p1" (Scenarios.risingPrices 150)).
  - reflexivity.
  - reflexivity.
  - vm_compute. reflexivity.
  - vm_compute. reflexivity.
Defined.


(** C4, as stated, fails on listings: after 150 successive upserts of
    listing 77, each at a new price, its priceHistory has 149 entries. *)
Lemma listing_history_exceeds_100 :
  exists final stored history,
    RealEstateStorageService.upsertSuccessively
      {| RealEstateStorageService.collection := Some ∅ |} (Scenarios.risingRents 150)
    = inr final
    /\ RealEstateStorageService.findOne final "urbania.pe:77" = Some stored
    /\ RealEstateStorageService.priceHistory stored = Some history
    /\ List.length history = 149%nat.
Proof.
  destruct (RealEstateStorageService.upsertSuccessively
              {| RealEstateStorageService.collection := Some ∅ |}
              (Scenarios.risingRents 150)) as [error | final] eqn:Hrun.
  { vm_compute in Hrun. discriminate. }
  exists final.
  destruct (RealEstateStorageService.findOne final "urbania.pe:77") as [stored |] eqn:Hfind.
  2: { vm_compute in Hrun. injection Hrun as <-. vm_compute in Hfind. discriminate. }
  exists stored.
  destruct (RealEstateStorageService.priceHistory stored) as [history |] eqn:Hhistory.
  2: { vm_compute in Hrun. injection Hrun as <-. vm_compute in Hfind.
       injection Hfind as <-. discriminate. }
  exists history. repeat split.
  vm_compute in Hrun. injection Hrun as <-. vm_compute in Hfind.
  injection Hfind as <-. simpl in Hhistory. injection Hhistory as <-. reflexivity.
Qed.

(* ===================================================================== *)
(** * Properties of the canonicalizers and of the strategies *)
(* ===================================================================== *)

Section ExcFacts.
Import JS.
Context {A B : Type}.

Lemma mapM_Forall (f : A -> Exc B) (P : B -> Prop) (l : list A) (l' : list B) :
  (forall x y, f x = inr y -> P y) ->
  mapM f l = inr l' ->
  Forall P l'.
Proof.
  intros Hf. revert l'. induction l as [| x xs IH]; intros l' Hmap; simpl in Hmap.
  - injection Hmap as <-. constructor.
  - destruct (f x) as [e | y] eqn:Hx; simpl in Hmap; [discriminate |].
    destruct (mapM f xs) as [e | ys] eqn:Hxs; simpl in Hmap; [discriminate |].
    injection Hmap as <-. constructor; [eapply Hf; eassumption | apply IH; reflexivity].
Qed.

End ExcFacts.

Section DomainFacts.
Context {U : URLParser}.
Import JS.

(** The two canonicalizers differ by one entry of their tables. *)
Lemma extractDomain_agree url :
  (forall host,
      url_hostname url = Some host ->
      (List.length (split "." (strip_www host)) < 3)%nat
      \/ part (split "." (strip_www host))
              (List.length (split "." (strip_www host)) - 2) <> "ac") ->
  StorageService.extractDomain url = BaseExtractionStrategy.extractDomain url.
Proof.
  intros Hac. unfold StorageService.extractDomain, BaseExtractionStrategy.extractDomain.
  destruct (url_hostname url) as [host |]; [| reflexivity].
  specialize (Hac host eq_refl). cbv zeta.
  set (parts := split "." (strip_www host)) in *.
  destruct (3 <=? List.length parts)%nat eqn:Hlen.
  - apply Nat.leb_le in Hlen. destruct Hac as [Hshort | Hac]; [lia |].
    unfold StorageService.commonSLDs, BaseExtractionStrategy.commonSLDs. simpl.
    destruct (String.eqb_spec (part parts (List.length parts - 2)) "ac") as [Heq | _];
      [contradiction |].
    rewrite !orb_false_r. reflexivity.
  - destruct (List.length parts =? 2)%nat; reflexivity.
Qed.

Lemma falabella_normalize_domain item domain url jobId product :
  FalabellaStrategy.normalizeProduct item domain url jobId = inr product ->
  ProductTypes.domain (ProductTypes.source product) = domain.
Proof.
  unfold FalabellaStrategy.normalizeProduct. intros Hnorm.
  repeat match type of Hnorm with
         | bind ?m _ = inr _ => destruct m; simpl in Hnorm; [discriminate |]
         end.
  injection Hnorm as <-. reflexivity.
Qed.

Lemma generic_normalize_domain item domain url jobId product :
  GenericStrategy.normalizeProduct item domain url jobId = inr product ->
  ProductTypes.domain (ProductTypes.source product) = domain.
Proof.
  unfold GenericStrategy.normalizeProduct. intros Hnorm.
  repeat match type of Hnorm with
         | bind ?m _ = inr _ => destruct m; simpl in Hnorm; [discriminate |]
         end.
  injection Hnorm as <-. reflexivity.
Qed.

(** Falabella's [extract] always returns, and tags what it returns
    with the strategy-side domain of the URL. *)
Lemma falabella_extract_domain data url jobId :
  exists products,
    FalabellaStrategy.extract data url jobId = inr products
    /\ Forall (fun product =>
                 ProductTypes.domain (ProductTypes.source product)
                 = BaseExtractionStrategy.extractDomain url) products.
Proof.
  unfold FalabellaStrategy.extract.
  match goal with
  | |- context [try_catch ?body _] => destruct body as [e | products] eqn:Hbody
  end; simpl.
  - exists []. split; [reflexivity | constructor].
  - exists products. split; [reflexivity |].
    unfold FalabellaStrategy.extract_body in Hbody. cbv zeta in Hbody.
    destruct (as_array _) as [e | items]; simpl in Hbody; [discriminate |].
    destruct (filterM _ _) as [e | kept]; simpl in Hbody; [discriminate |].
    eapply mapM_Forall; [| exact Hbody].
    intros item product. apply falabella_normalize_domain.
Qed.

Lemma generic_extract_domain data url jobId :
  exists products,
    GenericStrategy.extract data url jobId = inr products
    /\ Forall (fun product =>
                 ProductTypes.domain (ProductTypes.source product)
                 = BaseExtractionStrategy.extractDomain url) products.
Proof.
  unfold GenericStrategy.extract.
  match goal with
  | |- context [try_catch ?body _] => destruct body as [e | products] eqn:Hbody
  end; simpl.
  - exists []. split; [reflexivity | constructor].
  - exists products. split; [reflexivity |].
    unfold GenericStrategy.extract_body in Hbody. cbv zeta in Hbody.
    destruct (as_array _) as [e | items]; simpl in Hbody; [discriminate |].
    eapply mapM_Forall; [| exact Hbody].
    intros item product. apply generic_normalize_domain.
Qed.

End DomainFacts.

Lemma urbania_parse_domain now item url jobId listing :
  UrbaniaStrategy.parseJsonListing now item url jobId = Some listing ->
  RealEstateTypes.domain (RealEstateTypes.source listing) = "urbania.pe".
Proof.
  unfold UrbaniaStrategy.parseJsonListing. intros Hparse.
  match type of Hparse with
  | match ?m with _ => _ end = _ => destruct m as [e | l] eqn:Hm; [discriminate |]
  end.
  injection Hparse as <-.
  repeat match type of Hm with
         | JS.bind ?m _ = inr _ => destruct m; simpl in Hm; [discriminate |]
         end.
  injection Hm as <-. reflexivity.
Qed.

Lemma urbania_parseAll_domain now items url jobId :
  Forall (fun listing =>
            RealEstateTypes.domain (RealEstateTypes.source listing) = "urbania.pe")
         (UrbaniaStrategy.parseAll now items url jobId).
Proof.
  unfold UrbaniaStrategy.parseAll. induction items as [| item rest IH]; simpl.
  - constructor.
  - destruct (UrbaniaStrategy.parseJsonListing now item url jobId) as [listing |] eqn:Hparse;
      simpl; [| exact IH].
    constructor; [| exact IH]. eapply urbania_parse_domain; exact Hparse.
Qed.

Lemma urbania_json_domain now data url jobId :
  exists listings,
    UrbaniaStrategy.extractFromJSON now data url jobId = inr listings
    /\ Forall (fun listing =>
                 RealEstateTypes.domain (RealEstateTypes.source listing) = "urbania.pe")
              listings.
Proof.
  unfold UrbaniaStrategy.extractFromJSON.
  match goal with
  | |- context [JS.try_catch ?body _] => destruct body as [e | listings] eqn:Hbody
  end; simpl.
  - exists []. split; [reflexivity | constructor].
  - exists listings. split; [reflexivity |].
    assert (Hall := urbania_parseAll_domain now).
    assert (Hone : forall l,
               match UrbaniaStrategy.parseJsonListing now data url jobId with
               | Some listing => [listing]
               | None => []
               end = l ->
               Forall (fun listing =>
                 RealEstateTypes.domain (RealEstateTypes.source listing) = "urbania.pe") l).
    { intros l <-.
      destruct (UrbaniaStrategy.parseJsonListing now data url jobId) eqn:Hparse;
        repeat constructor. eapply urbania_parse_domain; exact Hparse. }
    destruct data; simpl in Hbody; try discriminate;
      repeat match type of Hbody with
             | JS.ret _ = inr _ => injection Hbody as <-
             | inr _ = inr _ => injection Hbody as <-
             | match ?v with _ => _ end = inr _ => destruct v; simpl in Hbody
             | (if ?c then _ else _) = inr _ => destruct c; simpl in Hbody
             end;
      try apply Hall; try (apply Hone; reflexivity); try constructor.
Qed.

(** C5 (amended). For every URL whose hostname, once [www.] is
    stripped, has fewer than three labels or a second-to-last label
    other than [ac] (and for every URL that does not parse), the
    job-store canonicalizer and the strategy-side canonicalizer return
    the same domain, and every entity that the Falabella strategy or
    the generic strategy extracts from that URL carries that domain in
    its provenance. The Urbania strategy puts the fixed domain
    [urbania.pe] in the provenance of every listing it extracts from
    pre-parsed JSON, whatever the URL. *)
Theorem provenance_domain_of_extracted_entities {U : URLParser} (url : string) :
  (forall host,
      url_hostname url = Some host ->
      (List.length (JS.split "." (strip_www host)) < 3)%nat
      \/ part (JS.split "." (strip_www host))
              (List.length (JS.split "." (strip_www host)) - 2) <> "ac") ->
  StorageService.extractDomain url = BaseExtractionStrategy.extractDomain url
  /\ (forall data jobId,
        exists products,
          FalabellaStrategy.extract data url jobId = inr products
          /\ Forall (fun product =>
                       ProductTypes.domain (ProductTypes.source product)
                       = StorageService.extractDomain url) products)
  /\ (forall data jobId,
        exists products,
          GenericStrategy.extract data url jobId = inr products
          /\ Forall (fun product =>
                       ProductTypes.domain (ProductTypes.source product)
                       = StorageService.extractDomain url) products)
  /\ (forall now data jobId,
        exists listings,
          UrbaniaStrategy.extractFromJSON now data url jobId = inr listings
          /\ Forall (fun listing =>
                       RealEstateTypes.domain (RealEstateTypes.source listing)
                       = "urbania.pe") listings).
Proof.
  intros Hac. pose proof (extractDomain_agree url Hac) as Hagree.
  split; [exact Hagree |]. rewrite Hagree.
  split; [intros; apply falabella_extract_domain |].
  split; [intros; apply generic_extract_domain |].
  intros; apply urbania_json_domain.
Qed.

(** C5 at [https://www.falabella.com.pe/category/cat40052], whose
    labels are [falabella], [com], [pe]. *)
Lemma provenance_domain_of_extracted_entities_witness :
  @StorageService.extractDomain SimpleURL.parser
     "https://www.falabella.com.pe/category/cat40052"
  = @BaseExtractionStrategy.extractDomain SimpleURL.parser
      "https://www.falabella.com.pe/category/cat40052"
  /\ exists products,
       @FalabellaStrategy.extract SimpleURL.parser Scenarios.falabellaPage
         "https://www.falabella.com.pe/category/cat40052" None = inr products
       /\ Forall (fun product =>
                    ProductTypes.domain (ProductTypes.source product)
                    = @StorageService.extractDomain SimpleURL.parser
                        "https://www.falabella.com.pe/category/cat40052") products.
Proof.
  destruct (@provenance_domain_of_extracted_entities SimpleURL.parser
              "https://www.falabella.com.pe/category/cat40052")
    as (Hagree & Hfalabella & _).
  - intros host Hhost. vm_compute in Hhost. injection Hhost as <-.
    right. vm_compute. discriminate.
  - split; [exact Hagree | exact (Hfalabella Scenarios.falabellaPage None)].
Defined.

(** C5, as stated, fails twice. At [https://shop.example.ac.uk/p/1] the
    raw job record is tagged [example], while the entity that the
    generic strategy extracts is tagged [ac]. At
    [https://urbania.pe/inmueble/77] the raw job record is tagged
    [urbania], while the listing that the Urbania strategy extracts is
    tagged [urbania.pe]. *)
Lemma provenance_domain_differs_from_job_domain :
  (@StorageService.extractDomain SimpleURL.parser "https://shop.example.ac.uk/p/1"
   = "example"
   /\ @BaseExtractionStrategy.extractDomain SimpleURL.parser "https://shop.example.ac.uk/p/1"
      = "ac"
   /\ exists product,
        @GenericStrategy.extract SimpleURL.parser (JS.Arr [Scenarios.widgetInSoles])
          "https://shop.example.ac.uk/p/1" None = inr [product]
        /\ ProductTypes.domain (ProductTypes.source product) = "ac")
  /\ (@StorageService.extractDomain SimpleURL.parser "https://urbania.pe/inmueble/77"
      = "urbania"
      /\ exists listing,
           UrbaniaStrategy.extract Scenarios.noCards 0 Scenarios.urbaniaResponse
             "https://urbania.pe/inmueble/77" None = inr [listing]
           /\ RealEstateTypes.domain (RealEstateTypes.source listing) = "urbania.pe").
Proof.
  split.
  - split; [reflexivity |]. split; [reflexivity |].
    eexists. split; reflexivity.
  - split; [reflexivity |]. eexists. split; reflexivity.
Qed.

(* ===================================================================== *)
(** * Properties of the orchestrators *)
(* ===================================================================== *)

Section FirstHandling.
Context {E : Type}.
Implicit Types strategies before after : list (ExtractionStrategy E).

Lemma firstHandling_first before strategy after data url :
  Forall (fun s => canHandle s data url = inr false) before ->
  canHandle strategy data url = inr true ->
  firstHandling (before ++ strategy :: after) data url = inr (Some strategy).
Proof.
  intros Hbefore Hclaims. induction Hbefore as [| s rest Hs _ IH]; simpl.
  - rewrite Hclaims. reflexivity.
  - rewrite Hs. simpl. exact IH.
Qed.

Lemma firstHandling_none strategies data url :
  Forall (fun s => canHandle s data url = inr false) strategies ->
  firstHandling strategies data url = inr None.
Proof.
  induction 1 as [| s rest Hs _ IH]; simpl; [reflexivity |].
  rewrite Hs. simpl. exact IH.
Qed.

End FirstHandling.

(** C6 (amended). Neither orchestrator's extract operation raises: for
    every registry of strategies, payload, URL and job id it returns a
    result. When an exception reaches the [try] block of the
    orchestrator (the canHandle or the extract of a registered strategy
    throws), the result has no entity, no strategyUsed and an [errors]
    list of one text: [Extraction error: ] followed by the message of
    the exception, or by [Unknown error] when what was thrown is not an
    [Error]. The strategies of the repository catch what is thrown
    inside their own extract and return the empty list: such a failure
    gives a result with no entity, the name of the strategy as
    strategyUsed and no [errors] list. So the product orchestrator as
    constructed never reports an error, and the real-estate
    orchestrator as constructed reports none but [No strategy found for
    this real estate site]. *)
Theorem extract_never_raises :
  (forall this data url jobId,
      exists result,
        ProductExtractorService.extractProducts this data url jobId = inr result
        /\ (forall error,
              ProductExtractorService.extractProducts_body this data url jobId = inl error ->
              result
              = {| ProductExtractorService.products := [];
                   ProductExtractorService.metadata :=
                     {| totalExtracted := 0;
                        source := url;
                        strategyUsed := None;
                        errors := Some ["Extraction error: " ++ errorMsg error] |} |}))
  /\ (forall this data url jobId,
      exists result,
        RealEstateExtractorService.extractListings this data url jobId = inr result
        /\ (forall error,
              RealEstateExtractorService.extractListings_body this data url jobId = inl error ->
              result
              = {| RealEstateExtractorService.listings := [];
                   RealEstateExtractorService.metadata :=
                     {| totalExtracted := 0;
                        source := url;
                        strategyUsed := None;
                        errors := Some ["Extraction error: " ++ errorMsg error] |} |}))
  /\ (forall message v,
      errorMsg (JS.Error message) = message /\ errorMsg (JS.Thrown v) = "Unknown error")
  /\ (forall (U : URLParser) data url jobId error,
      FalabellaStrategy.canHandle data url = true ->
      FalabellaStrategy.extract_body data url jobId = inl error ->
      ProductExtractorService.extractProducts ProductExtractorService.new data url jobId
      = inr {| ProductExtractorService.products := [];
               ProductExtractorService.metadata :=
                 {| totalExtracted := 0;
                    source := url;
                    strategyUsed := Some "Falabella";
                    errors := None |} |})
  /\ (forall (U : URLParser) data url jobId error,
      FalabellaStrategy.canHandle data url = false ->
      GenericStrategy.extract_body data url jobId = inl error ->
      ProductExtractorService.extractProducts ProductExtractorService.new data url jobId
      = inr {| ProductExtractorService.products := [];
               ProductExtractorService.metadata :=
                 {| totalExtracted := 0;
                    source := url;
                    strategyUsed := Some "Generic";
                    errors := None |} |})
  /\ (forall extractFromHTML now data url jobId error,
      UrbaniaStrategy.canHandle data url = true ->
      UrbaniaStrategy.extract_body extractFromHTML now data url jobId = inl error ->
      RealEstateExtractorService.extractListings
        (RealEstateExtractorService.new extractFromHTML now) data url jobId
      = inr {| RealEstateExtractorService.listings := [];
               RealEstateExtractorService.metadata :=
                 {| totalExtracted := 0;
                    source := url;
                    strategyUsed := Some "Urbania";
                    errors := None |} |})
  /\ (forall (U : URLParser) data url jobId,
      exists result,
        ProductExtractorService.extractProducts ProductExtractorService.new data url jobId
        = inr result
        /\ errors (ProductExtractorService.metadata result) = None)
  /\ (forall extractFromHTML now data url jobId,
      exists result,
        RealEstateExtractorService.extractListings
          (RealEstateExtractorService.new extractFromHTML now) data url jobId
        = inr result
        /\ (errors (RealEstateExtractorService.metadata result) = None
            \/ errors (RealEstateExtractorService.metadata result)
               = Some ["No strategy found for this real estate site"])).
Proof.
  split; [| split; [| split; [| split; [| split; [| split; [| split]]]]]].
  - intros this data url jobId.
    unfold ProductExtractorService.extractProducts.
    destruct (ProductExtractorService.extractProducts_body this data url jobId)
      as [thrown | result]; simpl.
    + eexists. split; [reflexivity |]. intros error [= <-]. reflexivity.
    + exists result. split; [reflexivity | discriminate].
  - intros this data url jobId.
    unfold RealEstateExtractorService.extractListings.
    destruct (RealEstateExtractorService.extractListings_body this data url jobId)
      as [thrown | result]; simpl.
    + eexists. split; [reflexivity |]. intros error [= <-]. reflexivity.
    + exists result. split; [reflexivity | discriminate].
  - intros message v. split; reflexivity.
  - intros U data url jobId error Hclaims Hbody.
    unfold ProductExtractorService.extractProducts,
      ProductExtractorService.extractProducts_body,
      ProductExtractorService.findStrategy.
    cbn -[FalabellaStrategy.canHandle FalabellaStrategy.extract_body
          GenericStrategy.extract_body].
    rewrite Hclaims.
    cbn -[FalabellaStrategy.canHandle FalabellaStrategy.extract_body
          GenericStrategy.extract_body].
    unfold FalabellaStrategy.extract. rewrite Hbody. reflexivity.
  - intros U data url jobId error Hdeclines Hbody.
    unfold ProductExtractorService.extractProducts,
      ProductExtractorService.extractProducts_body,
      ProductExtractorService.findStrategy.
    cbn -[FalabellaStrategy.canHandle FalabellaStrategy.extract_body
          GenericStrategy.extract_body].
    rewrite Hdeclines.
    cbn -[FalabellaStrategy.canHandle FalabellaStrategy.extract_body
          GenericStrategy.extract_body].
    unfold GenericStrategy.extract. rewrite Hbody. reflexivity.
  - intros extractFromHTML now data url jobId error Hclaims Hbody.
    unfold RealEstateExtractorService.extractListings,
      RealEstateExtractorService.extractListings_body,
      RealEstateExtractorService.findStrategy.
    cbn -[UrbaniaStrategy.canHandle UrbaniaStrategy.extract_body].
    rewrite Hclaims.
    cbn -[UrbaniaStrategy.canHandle UrbaniaStrategy.extract_body].
    unfold UrbaniaStrategy.extract. rewrite Hbody. reflexivity.
  - intros U data url jobId.
    unfold ProductExtractorService.extractProducts,
      ProductExtractorService.extractProducts_body,
      ProductExtractorService.findStrategy. simpl.
    destruct (FalabellaStrategy.canHandle data url); simpl.
    + destruct (falabella_extract_domain data url jobId) as (products & -> & _). simpl.
      eexists. split; reflexivity.
    + destruct (generic_extract_domain data url jobId) as (products & -> & _). simpl.
      eexists. split; reflexivity.
  - intros extractFromHTML now data url jobId.
    unfold RealEstateExtractorService.extractListings,
      RealEstateExtractorService.extractListings_body,
      RealEstateExtractorService.findStrategy.
    cbn -[UrbaniaStrategy.canHandle UrbaniaStrategy.extract_body].
    destruct (UrbaniaStrategy.canHandle data url);
      cbn -[UrbaniaStrategy.canHandle UrbaniaStrategy.extract_body].
    + unfold UrbaniaStrategy.extract.
      destruct (UrbaniaStrategy.extract_body extractFromHTML now data url jobId);
        simpl; eexists; (split; [reflexivity | left; reflexivity]).
    + eexists. split; [reflexivity | right; reflexivity].
Qed.

(** C6 on a registry whose second strategy throws [Error("boom")]: the
    caller gets a result with no product and the error text. *)
Lemma extract_never_raises_witness :
  exists result,
    ProductExtractorService.extractProducts
      (ProductExtractorService.registerStrategy
         (Scenarios.failing (JS.Error "boom"))
         (@ProductExtractorService.new SimpleURL.parser))
      JS.Null "https://example.com/p/1" None = inr result
    /\ result
       = {| ProductExtractorService.products := [];
            ProductExtractorService.metadata :=
              {| totalExtracted := 0;
                 source := "https://example.com/p/1";
                 strategyUsed := None;
                 errors := Some ["Extraction error: boom"] |} |}.
Proof.
  destruct (proj1 extract_never_raises
              (ProductExtractorService.registerStrategy
                 (Scenarios.failing (JS.Error "boom"))
                 (@ProductExtractorService.new SimpleURL.parser))
              JS.Null "https://example.com/p/1" None)
    as (result & Hrun & Herror).
  exists result. split; [exact Hrun |].
  apply (Herror (JS.Error "boom")). reflexivity.
Defined.

(** C6, as stated, fails on an exception raised inside a strategy. On
    the payload [[null]] of a falabella.com page the filter of the
    Falabella strategy reads [productId] of [null]; the TypeError ends
    the [try] block of the strategy, and the orchestrator returns a
    result with no entity and no [errors] list. *)
Lemma internal_exception_leaves_no_error :
  @FalabellaStrategy.extract_body SimpleURL.parser (JS.Arr [JS.Null])
    "https://www.falabella.com/falabella-cl/category/cat70057" None
  = inl JS.TypeError
  /\ ProductExtractorService.extractProducts (@ProductExtractorService.new SimpleURL.parser)
       (JS.Arr [JS.Null]) "https://www.falabella.com/falabella-cl/category/cat70057" None
     = inr {| ProductExtractorService.products := [];
              ProductExtractorService.metadata :=
                {| totalExtracted := 0;
                   source := "https://www.falabella.com/falabella-cl/category/cat70057";
                   strategyUsed := Some "Falabella";
                   errors := None |} |}.
Proof. split; reflexivity. Qed.

(** C7 (amended). Both orchestrators select the first registered
    strategy, in registration order, whose canHandle returns true. The
    product orchestrator uses its fallback strategy when no registered
    strategy claims the payload; the fallback it is constructed with
    claims every payload, so that the constructed orchestrator always
    returns a result without errors, produced by Falabella or by
    Generic; and when a registered strategy is the first to claim a
    payload and extracts from it, strategyUsed is that strategy's name.
    The real-estate orchestrator has no fallback: when no registered
    strategy claims the payload it returns no listing, no strategyUsed
    and the error [No strategy found for this real estate site]. *)
Theorem strategy_selection :
  (forall this data url before strategy after,
      ProductExtractorService.strategies this = (before ++ strategy :: after)%list ->
      Forall (fun s => canHandle s data url = inr false) before ->
      canHandle strategy data url = inr true ->
      ProductExtractorService.findStrategy this data url = inr strategy
      /\ (forall jobId products,
            extract strategy data url jobId = inr products ->
            ProductExtractorService.extractProducts this data url jobId
            = inr {| ProductExtractorService.products := products;
                     ProductExtractorService.metadata :=
                       {| totalExtracted := List.length products;
                          source := url;
                          strategyUsed := Some (name strategy);
                          errors := None |} |}))
  /\ (forall this data url,
      Forall (fun s => canHandle s data url = inr false)
             (ProductExtractorService.strategies this) ->
      ProductExtractorService.findStrategy this data url
      = inr (ProductExtractorService.fallbackStrategy this))
  /\ (forall (U : URLParser) data url jobId,
      canHandle (ProductExtractorService.fallbackStrategy ProductExtractorService.new)
                data url = inr true
      /\ exists result,
           ProductExtractorService.extractProducts ProductExtractorService.new data url jobId
           = inr result
           /\ errors (ProductExtractorService.metadata result) = None
           /\ (strategyUsed (ProductExtractorService.metadata result) = Some "Falabella"
               \/ strategyUsed (ProductExtractorService.metadata result) = Some "Generic"))
  /\ (forall this data url before strategy after,
      RealEstateExtractorService.strategies this = (before ++ strategy :: after)%list ->
      Forall (fun s => canHandle s data url = inr false) before ->
      canHandle strategy data url = inr true ->
      RealEstateExtractorService.findStrategy this data url = inr (Some strategy))
  /\ (forall this data url jobId,
      Forall (fun s => canHandle s data url = inr false)
             (RealEstateExtractorService.strategies this) ->
      RealEstateExtractorService.extractListings this data url jobId
      = inr {| RealEstateExtractorService.listings := [];
               RealEstateExtractorService.metadata :=
                 {| totalExtracted := 0;
                    source := url;
                    strategyUsed := None;
                    errors := Some ["No strategy found for this real estate site"] |} |}).
Proof.
  split; [| split; [| split; [| split]]].
  - intros this data url before strategy after Hregistry Hbefore Hclaims.
    assert (Hfind : ProductExtractorService.findStrategy this data url = inr strategy).
    { unfold ProductExtractorService.findStrategy.
      rewrite Hregistry, (firstHandling_first _ _ _ _ _ Hbefore Hclaims). reflexivity. }
    split; [exact Hfind |].
    intros jobId products Hextract.
    unfold ProductExtractorService.extractProducts,
      ProductExtractorService.extractProducts_body.
    rewrite Hfind. simpl. rewrite Hextract. reflexivity.
  - intros this data url Hnone. unfold ProductExtractorService.findStrategy.
    rewrite (firstHandling_none _ _ _ Hnone). reflexivity.
  - intros U data url jobId. split; [reflexivity |].
    unfold ProductExtractorService.extractProducts,
      ProductExtractorService.extractProducts_body,
      ProductExtractorService.findStrategy. simpl.
    destruct (FalabellaStrategy.canHandle data url); simpl.
    + destruct (falabella_extract_domain data url jobId) as (products & -> & _). simpl.
      eexists. split; [reflexivity |]. split; [reflexivity | left; reflexivity].
    + destruct (generic_extract_domain data url jobId) as (products & -> & _). simpl.
      eexists. split; [reflexivity |]. split; [reflexivity | right; reflexivity].
  - intros this data url before strategy after Hregistry Hbefore Hclaims.
    unfold RealEstateExtractorService.findStrategy.
    rewrite Hregistry. apply firstHandling_first; assumption.
  - intros this data url jobId Hnone.
    unfold RealEstateExtractorService.extractListings,
      RealEstateExtractorService.extractListings_body,
      RealEstateExtractorService.findStrategy.
    rewrite (firstHandling_none _ _ _ Hnone). reflexivity.
Qed.

(** C7's priority on a registry where the site-specific strategy comes
    before one that claims everything: a Falabella page is reported as
    extracted by Falabella. *)
Lemma strategy_selection_witness :
  ProductExtractorService.findStrategy
    (ProductExtractorService.registerStrategy (@GenericStrategy.strategy SimpleURL.parser)
       (@ProductExtractorService.new SimpleURL.parser))
    Scenarios.falabellaPage "https://www.falabella.com.pe/category/cat40052"
  = inr (@FalabellaStrategy.strategy SimpleURL.parser)
  /\ forall jobId products,
       extract (@FalabellaStrategy.strategy SimpleURL.parser) Scenarios.falabellaPage
         "https://www.falabella.com.pe/category/cat40052" jobId = inr products ->
       ProductExtractorService.extractProducts
         (ProductExtractorService.registerStrategy (@GenericStrategy.strategy SimpleURL.parser)
            (@ProductExtractorService.new SimpleURL.parser))
         Scenarios.falabellaPage "https://www.falabella.com.pe/category/cat40052" jobId
       = inr {| ProductExtractorService.products := products;
                ProductExtractorService.metadata :=
                  {| totalExtracted := List.length products;
                     source := "https://www.falabella.com.pe/category/cat40052";
                     strategyUsed := Some "Falabella";
                     errors := None |} |}.
Proof.
  apply (proj1 strategy_selection
           (ProductExtractorService.registerStrategy (@GenericStrategy.strategy SimpleURL.parser)
              (@ProductExtractorService.new SimpleURL.parser))
           Scenarios.falabellaPage "https://www.falabella.com.pe/category/cat40052"
           [] (@FalabellaStrategy.strategy SimpleURL.parser)
           [@GenericStrategy.strategy SimpleURL.parser]).
  - reflexivity.
  - constructor.
  - reflexivity.
Defined.

(** C7, as stated, fails on the real-estate orchestrator: for a page of
    properati.com.pe, which no registered strategy claims, no fallback
    strategy runs; the result carries an error and no strategyUsed. *)
Lemma real_estate_orchestrator_has_no_fallback :
  RealEstateExtractorService.extractListings
    (RealEstateExtractorService.new Scenarios.noCards 0)
    Scenarios.urbaniaResponse "https://www.properati.com.pe/inmueble/77" None
  = inr {| RealEstateExtractorService.listings := [];
           RealEstateExtractorService.metadata :=
             {| totalExtracted := 0;
                source := "https://www.properati.com.pe/inmueble/77";
                strategyUsed := None;
                errors := Some ["No strategy found for this real estate site"] |} |}.
Proof. reflexivity. Qed.

(** C9. For the payload of the scenario and any URL that contains
    [falabella.com], the product orchestrator returns exactly one
    entity, with productId [123], price amount 999 and currency [PEN],
    and reports the strategy [Falabella]. *)
Theorem falabella_end_to_end {U : URLParser} (url : string) (jobId : option string) :
  JS.includes "falabella.com" url = true ->
  exists product,
    ProductExtractorService.extractProducts ProductExtractorService.new
      Scenarios.falabellaPage url jobId
    = inr {| ProductExtractorService.products := [product];
             ProductExtractorService.metadata :=
               {| totalExtracted := 1;
                  source := url;
                  strategyUsed := Some "Falabella";
                  errors := None |} |}
    /\ ProductTypes.productId product = JS.Str "123"
    /\ ProductTypes.amount (ProductTypes.price product) = JS.of_Z 999
    /\ ProductTypes.currency (ProductTypes.price product) = "PEN".
Proof.
  intros Hurl.
  unfold ProductExtractorService.extractProducts,
    ProductExtractorService.extractProducts_body,
    ProductExtractorService.findStrategy. simpl.
  unfold FalabellaStrategy.canHandle. rewrite Hurl. simpl.
  eexists. split; [reflexivity |]. repeat split.
Qed.

(** C9 at a category page of falabella.com.pe. *)
Lemma falabella_end_to_end_witness :
  exists product,
    ProductExtractorService.extractProducts (@ProductExtractorService.new SimpleURL.parser)
      Scenarios.falabellaPage "https://www.falabella.com.pe/category/cat40052" (Some "job-1")
    = inr {| ProductExtractorService.products := [product];
             ProductExtractorService.metadata :=
               {| totalExtracted := 1;
                  source := "https://www.falabella.com.pe/category/cat40052";
                  strategyUsed := Some "Falabella";
                  errors := None |} |}
    /\ ProductTypes.productId product = JS.Str "123"
    /\ ProductTypes.amount (ProductTypes.price product) = JS.of_Z 999
    /\ ProductTypes.currency (ProductTypes.price product) = "PEN".
Proof.
  apply (@falabella_end_to_end SimpleURL.parser
           "https://www.falabella.com.pe/category/cat40052" (Some "job-1")).
  reflexivity.
Defined.

(* ===================================================================== *)
(** * Currency inference and the record filters *)
(* ===================================================================== *)

Section CurrencyFacts.
Import JS.

(** First match wins, in the order of the table. *)
Lemma first_code_first found before symbol code after :
  Forall (fun entry => found (fst entry) = false) before ->
  found symbol = true ->
  BaseExtractionStrategy.first_code found (before ++ (symbol, code) :: after) = code.
Proof.
  intros Hbefore Hfound. induction Hbefore as [| [s c] rest Hs _ IH]; simpl.
  - rewrite Hfound. reflexivity.
  - simpl in Hs. rewrite Hs. exact IH.
Qed.

Lemma first_code_none found entries :
  Forall (fun entry => found (fst entry) = false) entries ->
  BaseExtractionStrategy.first_code found entries = "USD".
Proof.
  induction 1 as [| [s c] rest Hs _ IH]; simpl; [reflexivity |].
  simpl in Hs. rewrite Hs. exact IH.
Qed.

Lemma generic_extractPrice_currency item price :
  GenericStrategy.extractPrice item = inr price ->
  (forall code,
      get_opt item "currency" = Str code -> code <> EmptyString ->
      ProductTypes.currency price = code)
  /\ (truthy (get_opt item "currency") = true ->
      typeof_string (get_opt item "currency") = false ->
      ProductTypes.currency price = "USD")
  /\ (truthy (get_opt item "currency") = false ->
      truthy (get_opt item "priceSymbol") = true ->
      BaseExtractionStrategy.extractCurrency (get_opt item "priceSymbol")
      = inr (ProductTypes.currency price))
  /\ (truthy (get_opt item "currency") = false ->
      truthy (get_opt item "priceSymbol") = false ->
      ProductTypes.currency price = "USD").
Proof.
  unfold GenericStrategy.extractPrice. intros Hprice.
  destruct (get item "price") as [e | p]; simpl in Hprice; [discriminate |].
  destruct (truthy (get_opt item "currency")) eqn:Hexplicit.
  - simpl in Hprice.
    destruct (BaseExtractionStrategy.parsePrice _) as [e | amount]; simpl in Hprice;
      [discriminate |].
    injection Hprice as <-. simpl.
    split; [| split; [| split; discriminate]].
    + intros code -> _. reflexivity.
    + intros _ Hshape. destruct (get_opt item "currency"); try reflexivity.
      discriminate Hshape.
  - destruct (truthy (get_opt item "priceSymbol")) eqn:Hsymbol.
    + destruct (BaseExtractionStrategy.extractCurrency (get_opt item "priceSymbol"))
        as [e | code] eqn:Hcode; simpl in Hprice; [discriminate |].
      destruct (BaseExtractionStrategy.parsePrice _) as [e | amount]; simpl in Hprice;
        [discriminate |].
      injection Hprice as <-. simpl.
      split; [| split; [discriminate | split; [reflexivity | discriminate]]].
      intros code' Heq Hne. rewrite Heq in Hexplicit. simpl in Hexplicit.
      destruct (String.eqb_spec code' EmptyString); [contradiction | discriminate].
    + simpl in Hprice.
      destruct (BaseExtractionStrategy.parsePrice _) as [e | amount]; simpl in Hprice;
        [discriminate |].
      injection Hprice as <-. simpl.
      split; [| split; [discriminate | split; [discriminate | reflexivity]]].
      intros code' Heq Hne. rewrite Heq in Hexplicit. simpl in Hexplicit.
      destruct (String.eqb_spec code' EmptyString); [contradiction | discriminate].
Qed.

Lemma generic_normalize_price {U : URLParser} item domain url jobId product :
  GenericStrategy.normalizeProduct item domain url jobId = inr product ->
  GenericStrategy.extractPrice item = inr (ProductTypes.price product).
Proof.
  unfold GenericStrategy.normalizeProduct. intros Hnorm.
  destruct (get item "id"); simpl in Hnorm; [discriminate |].
  destruct (ToString _); simpl in Hnorm; [discriminate |].
  destruct (ToString _); simpl in Hnorm; [discriminate |].
  destruct (GenericStrategy.extractPrice item); simpl in Hnorm; [discriminate |].
  injection Hnorm as <-. reflexivity.
Qed.

Lemma falabella_normalize_price item domain url jobId product :
  FalabellaStrategy.normalizeProduct item domain url jobId = inr product ->
  FalabellaStrategy.extractPrice item = inr (ProductTypes.price product).
Proof.
  unfold FalabellaStrategy.normalizeProduct. intros Hnorm.
  destruct (get item "productId"); simpl in Hnorm; [discriminate |].
  destruct (get item "skuId"); simpl in Hnorm; [discriminate |].
  destruct (FalabellaStrategy.extractPrice item); simpl in Hnorm; [discriminate |].
  destruct (get item "displayName"); simpl in Hnorm; [discriminate |].
  destruct (get item "url"); simpl in Hnorm; [discriminate |].
  injection Hnorm as <-. reflexivity.
Qed.

Lemma falabella_extractPrice_currency item price :
  FalabellaStrategy.extractPrice item = inr price ->
  (forall first others,
      get_opt item "prices" = Arr (first :: others) ->
      exists found,
        FalabellaStrategy.find_internetPrice (first :: others) = inr found
        /\ BaseExtractionStrategy.extractCurrency
             (or (get_opt (or found first) "symbol") (Str "S/ "))
           = inr (ProductTypes.currency price))
  /\ ((forall first others, get_opt item "prices" <> Arr (first :: others)) ->
      exists priceStr,
        ToString (or (get_opt item "price") (Str "0")) = inr priceStr
        /\ BaseExtractionStrategy.extractCurrency (Str priceStr)
           = inr (ProductTypes.currency price)).
Proof.
  unfold FalabellaStrategy.extractPrice. intros Hprice.
  assert (Hitem : get item "prices" = inr (get_opt item "prices")
                  /\ get item "price" = inr (get_opt item "price")).
  { destruct item; simpl in Hprice; try discriminate; split; reflexivity. }
  destruct Hitem as [Hprices Hp]. rewrite Hprices in Hprice. cbn [bind] in Hprice.
  assert (Hstring :
            (let* p := get item "price" in
             let* priceStr := ToString (or p (Str "0")) in
             let* amount := BaseExtractionStrategy.parsePrice (Str priceStr) in
             let* currency := BaseExtractionStrategy.extractCurrency (Str priceStr) in
             ret {| ProductTypes.amount := amount; ProductTypes.currency := currency |})
            = inr price ->
            exists priceStr,
              ToString (or (get_opt item "price") (Str "0")) = inr priceStr
              /\ BaseExtractionStrategy.extractCurrency (Str priceStr)
                 = inr (ProductTypes.currency price)).
  { rewrite Hp. cbn [bind]. intros H.
    destruct (ToString _) as [e | priceStr]; cbn [bind] in H; [discriminate |].
    destruct (BaseExtractionStrategy.parsePrice _); cbn [bind] in H; [discriminate |].
    destruct (BaseExtractionStrategy.extractCurrency _) eqn:Hcode; cbn [bind ret] in H;
      [discriminate |].
    injection H as <-. exists priceStr. split; [reflexivity | exact Hcode]. }
  destruct (get_opt item "prices") as [| | b | n | s | [| first others] | fields] eqn:Hshape;
    try (split; [intros ? ? [=] | intros _; apply Hstring; exact Hprice]).
  split.
  - intros first' others' [= <- <-].
    destruct (FalabellaStrategy.find_internetPrice (first :: others)) as [e | found];
      cbn [bind] in Hprice; [discriminate |].
    exists found. split; [reflexivity |].
    destruct (get (or found first) "price"); cbn [bind] in Hprice; [discriminate |].
    destruct (BaseExtractionStrategy.parsePrice _); cbn [bind] in Hprice; [discriminate |].
    assert (Hsym : get (or found first) "symbol" = inr (get_opt (or found first) "symbol")).
    { destruct (or found first); cbn [get bind throw] in Hprice; try discriminate;
        reflexivity. }
    rewrite Hsym in Hprice. cbn [bind] in Hprice.
    destruct (BaseExtractionStrategy.extractCurrency _); cbn [bind ret] in Hprice;
      [discriminate |].
    injection Hprice as <-. reflexivity.
  - intros Hnot. exfalso. apply (Hnot first others). reflexivity.
Qed.

End CurrencyFacts.

(** C8 (amended). The generic strategy takes the currency of an entity
    from the record's [currency] field when that is a non-empty string;
    when that field holds any other truthy value (an object, a number,
    [true]) the currency is [USD] and [priceSymbol] is not read; when
    the field is absent or falsy, the currency comes from the table
    lookup on the record's [priceSymbol] field when that is truthy, and
    is [USD] otherwise: the symbol is never looked up in the price
    string. The Falabella strategy consults no currency
    field: for a record with a non-empty [prices] list it looks up the
    [symbol] of the chosen price entry ([S/ ] when that is absent), and
    otherwise it looks up the record's price string. The table lookup
    on a string returns the code of the first entry, in table order,
    whose symbol occurs in the string, and [USD] when none occurs. *)
Theorem currency_inference :
  (forall (U : URLParser) item domain url jobId product,
      GenericStrategy.normalizeProduct item domain url jobId = inr product ->
      (forall code,
          JS.get_opt item "currency" = JS.Str code -> code <> EmptyString ->
          ProductTypes.currency (ProductTypes.price product) = code)
      /\ (JS.truthy (JS.get_opt item "currency") = true ->
          JS.typeof_string (JS.get_opt item "currency") = false ->
          ProductTypes.currency (ProductTypes.price product) = "USD")
      /\ (JS.truthy (JS.get_opt item "currency") = false ->
          JS.truthy (JS.get_opt item "priceSymbol") = true ->
          BaseExtractionStrategy.extractCurrency (JS.get_opt item "priceSymbol")
          = inr (ProductTypes.currency (ProductTypes.price product)))
      /\ (JS.truthy (JS.get_opt item "currency") = false ->
          JS.truthy (JS.get_opt item "priceSymbol") = false ->
          ProductTypes.currency (ProductTypes.price product) = "USD"))
  /\ (forall item domain url jobId product,
      FalabellaStrategy.normalizeProduct item domain url jobId = inr product ->
      (forall first others,
          JS.get_opt item "prices" = JS.Arr (first :: others) ->
          exists found,
            FalabellaStrategy.find_internetPrice (first :: others) = inr found
            /\ BaseExtractionStrategy.extractCurrency
                 (JS.or (JS.get_opt (JS.or found first) "symbol") (JS.Str "S/ "))
               = inr (ProductTypes.currency (ProductTypes.price product)))
      /\ ((forall first others, JS.get_opt item "prices" <> JS.Arr (first :: others)) ->
          exists priceStr,
            JS.ToString (JS.or (JS.get_opt item "price") (JS.Str "0")) = inr priceStr
            /\ BaseExtractionStrategy.extractCurrency (JS.Str priceStr)
               = inr (ProductTypes.currency (ProductTypes.price product))))
  /\ (forall s before symbol code after,
      BaseExtractionStrategy.currencyMap = (before ++ (symbol, code) :: after)%list ->
      Forall (fun entry => JS.includes (fst entry) s = false) before ->
      JS.includes symbol s = true ->
      BaseExtractionStrategy.extractCurrency (JS.Str s) = inr code)
  /\ (forall s,
      Forall (fun entry => JS.includes (fst entry) s = false)
             BaseExtractionStrategy.currencyMap ->
      BaseExtractionStrategy.extractCurrency (JS.Str s) = inr "USD").
Proof.
  split; [| split; [| split]].
  - intros U item domain url jobId product Hnorm.
    apply generic_extractPrice_currency. eapply generic_normalize_price. exact Hnorm.
  - intros item domain url jobId product Hnorm.
    apply falabella_extractPrice_currency. eapply falabella_normalize_price. exact Hnorm.
  - intros s before symbol code after Htable Hbefore Hfound.
    unfold BaseExtractionStrategy.extractCurrency, JS.ret. f_equal. rewrite Htable.
    apply (first_code_first (fun symbol => JS.includes symbol s)); assumption.
  - intros s Hnone. unfold BaseExtractionStrategy.extractCurrency, JS.ret. f_equal.
    apply (first_code_none (fun symbol => JS.includes symbol s)). exact Hnone.
Qed.

(** C8 on a Falabella record that has no [prices] list and the price
    string [S/ 19.99]: the lookup on the price string gives [PEN]; and
    on a generic record whose currency is an object and whose
    priceSymbol is [S/]: the currency is [USD]. *)
Lemma currency_inference_witness :
  (exists product,
    FalabellaStrategy.normalizeProduct
      (JS.Obj [ ("productId", JS.Str "a1"); ("displayName", JS.Str "Widget");
                ("price", JS.Str "S/ 19.99") ])
      "falabella" "https://www.falabella.com.pe/p/a1" None = inr product
    /\ exists priceStr,
         JS.ToString (JS.or (JS.Str "S/ 19.99") (JS.Str "0")) = inr priceStr
         /\ BaseExtractionStrategy.extractCurrency (JS.Str priceStr)
            = inr (ProductTypes.currency (ProductTypes.price product))
         /\ BaseExtractionStrategy.extractCurrency (JS.Str priceStr) = inr "PEN")
  /\ (exists product,
      @GenericStrategy.normalizeProduct Scenarios.widgetWithCurrencyObject
        "tienda" "https://tienda.example.com/p/a1" None = inr product
      /\ ProductTypes.currency (ProductTypes.price product) = "USD").
Proof.
  split; [| eexists; split; [reflexivity |];
            apply (proj1 (proj2 (proj1 currency_inference SimpleURL.parser
                                   Scenarios.widgetWithCurrencyObject
                                   "tienda" "https://tienda.example.com/p/a1" None _ eq_refl)));
            reflexivity ].
  eexists. split; [reflexivity |].
  destruct (proj2 (proj1 (proj2 currency_inference)
                     (JS.Obj [ ("productId", JS.Str "a1"); ("displayName", JS.Str "Widget");
                               ("price", JS.Str "S/ 19.99") ])
                     "falabella" "https://www.falabella.com.pe/p/a1" None _ eq_refl))
    as (priceStr & Hstr & Hcode).
  - intros first others. discriminate.
  - exists priceStr. split; [exact Hstr |]. split; [exact Hcode |].
    simpl in Hstr. injection Hstr as <-.
    apply (proj1 (proj2 (proj2 currency_inference)) "S/ 19.99" [] "S/" "PEN"
             (List.tl BaseExtractionStrategy.currencyMap)).
    + reflexivity.
    + constructor.
    + reflexivity.
Defined.

(** C8, as stated, fails on the generic strategy: a record whose only
    price information is the price string [S/ 19.99], with no currency
    field, is given [USD], while the table maps the symbol of that
    string to [PEN]. *)
Lemma generic_ignores_symbol_in_price_string :
  exists product,
    @GenericStrategy.extract SimpleURL.parser (JS.Arr [Scenarios.widgetInSoles])
      "https://tienda.example.com/p/a1" None = inr [product]
    /\ ProductTypes.currency (ProductTypes.price product) = "USD"
    /\ BaseExtractionStrategy.extractCurrency (JS.Str "S/ 19.99") = inr "PEN".
Proof.
  eexists. split; [reflexivity |]. split; reflexivity.
Qed.

(** C10 at its failing input. A record whose id is the empty array
    passes the filter of the generic strategy (an array is truthy) and
    is given the productId that [String([])] yields, the empty string;
    likewise a record whose productId is the empty array passes the
    filter of the Falabella strategy. The uniqueKey computed from either
    entity has nothing after the colon. *)
Theorem empty_array_id_passes_the_filters :
  (exists product,
      @GenericStrategy.extract SimpleURL.parser (JS.Arr [Scenarios.widgetWithEmptyId])
        "https://example.com/p/1" None = inr [product]
      /\ ProductTypes.productId product = JS.Str EmptyString
      /\ ProductStorageService.keyOf product = inr "example:")
  /\ (exists product,
      @FalabellaStrategy.extract SimpleURL.parser (JS.Arr [Scenarios.phoneWithEmptyId])
        "https://example.com/p/1" None = inr [product]
      /\ ProductTypes.productId product = JS.Arr []
      /\ ProductStorageService.keyOf product = inr "example:").
Proof.
  split; eexists; (split; [reflexivity |]); split; reflexivity.
Qed.

(* ===================================================================== *)
(** * Further properties: canonicalizers and field utilities *)
(* ===================================================================== *)

Section SplitFacts.
Import JS.

Lemma split_not_nil c s : split c s <> [].
Proof.
  destruct s as [| a rest]; simpl; [discriminate |].
  destruct (Ascii.eqb a c); [discriminate |].
  destruct (split c rest); discriminate.
Qed.

(** [includes] of a one-character needle, step by step. *)
Lemma includes_char_cons c a rest :
  includes (String c EmptyString) (String a rest)
  = Ascii.eqb c a || includes (String c EmptyString) rest.
Proof.
  simpl. destruct (ascii_dec c a) as [-> | Hne].
  - rewrite Ascii.eqb_refl. destruct rest; reflexivity.
  - apply Ascii.eqb_neq in Hne. rewrite Hne. reflexivity.
Qed.

(** A label that holds no separator is a part of its own. *)
Lemma split_label c label rest :
  includes (String c EmptyString) label = false ->
  split c (label ++ String c rest) = label :: split c rest.
Proof.
  induction label as [| a label IH]; intros Hfree.
  - simpl. rewrite Ascii.eqb_refl. reflexivity.
  - rewrite includes_char_cons in Hfree. apply orb_false_iff in Hfree as [Ha Hrest].
    simpl. rewrite Ascii.eqb_sym, Ha. rewrite (IH Hrest). reflexivity.
Qed.

Lemma split_single c label :
  includes (String c EmptyString) label = false ->
  split c label = [label].
Proof.
  induction label as [| a label IH]; intros Hfree; [reflexivity |].
  rewrite includes_char_cons in Hfree. apply orb_false_iff in Hfree as [Ha Hrest].
  simpl. rewrite Ascii.eqb_sym, Ha. rewrite (IH Hrest). reflexivity.
Qed.

(** No part holds the separator. *)
Lemma split_parts_free c s :
  Forall (fun label => includes (String c EmptyString) label = false) (split c s).
Proof.
  induction s as [| a rest IH]; simpl.
  - repeat constructor.
  - destruct (Ascii.eqb a c) eqn:Hac.
    + constructor; [reflexivity | exact IH].
    + destruct (split c rest) as [| hd tl] eqn:Hsplit.
      * repeat constructor. rewrite includes_char_cons, Ascii.eqb_sym, Hac. reflexivity.
      * apply Forall_cons_iff in IH as [Hhd Htl]. constructor; [| exact Htl].
        rewrite includes_char_cons, Ascii.eqb_sym, Hac. exact Hhd.
Qed.

Lemma part_free parts i :
  Forall (fun label => includes "." label = false) parts ->
  includes "." (part parts i) = false.
Proof.
  intros Hall. unfold part. revert i.
  induction Hall as [| label rest Hlabel _ IH]; intros [| i]; simpl; try reflexivity.
  - exact Hlabel.
  - apply IH.
Qed.

End SplitFacts.

Section CanonicalShapes.
Context {U : URLParser}.
Import JS.

Lemma storage_domain_free url : includes "." (StorageService.extractDomain url) = false.
Proof.
  unfold StorageService.extractDomain.
  destruct (url_hostname url) as [host |]; [| reflexivity]. cbv zeta.
  pose proof (split_parts_free "." (strip_www host)) as Hfree.
  repeat match goal with
         | |- context [if ?c then _ else _] => destruct c
         end; apply part_free; exact Hfree.
Qed.

Lemma base_domain_free url : includes "." (BaseExtractionStrategy.extractDomain url) = false.
Proof.
  unfold BaseExtractionStrategy.extractDomain.
  destruct (url_hostname url) as [host |]; [| reflexivity]. cbv zeta.
  pose proof (split_parts_free "." (strip_www host)) as Hfree.
  repeat match goal with
         | |- context [if ?c then _ else _] => destruct c
         end; apply part_free; exact Hfree.
Qed.

End CanonicalShapes.

(** X1. The documented shapes of the two canonicalizers. Let [h] be the
    hostname of the URL without a leading [www.]. Both return [unknown]
    when the URL does not parse; [site] when [h] is [site.tld]; [site]
    when [h] is [site.sld.tld] with [sld] one of com, co, org, net, gov,
    edu; and [site] when [h] is [sub.site.tld] with [site] none of com,
    co, org, net, gov, edu, ac. *)
Theorem extractDomain_shapes {U : URLParser} (url : string) :
  (url_hostname url = None ->
   StorageService.extractDomain url = "unknown"
   /\ BaseExtractionStrategy.extractDomain url = "unknown")
  /\ (forall host site tld,
        url_hostname url = Some host ->
        strip_www host = site ++ "." ++ tld ->
        JS.includes "." site = false -> JS.includes "." tld = false ->
        StorageService.extractDomain url = site
        /\ BaseExtractionStrategy.extractDomain url = site)
  /\ (forall host site sld tld,
        url_hostname url = Some host ->
        strip_www host = site ++ "." ++ sld ++ "." ++ tld ->
        JS.includes "." site = false -> JS.includes "." tld = false ->
        In sld BaseExtractionStrategy.commonSLDs ->
        StorageService.extractDomain url = site
        /\ BaseExtractionStrategy.extractDomain url = site)
  /\ (forall host sub site tld,
        url_hostname url = Some host ->
        strip_www host = sub ++ "." ++ site ++ "." ++ tld ->
        JS.includes "." sub = false -> JS.includes "." site = false ->
        JS.includes "." tld = false ->
        ~ In site StorageService.commonSLDs ->
        StorageService.extractDomain url = site
        /\ BaseExtractionStrategy.extractDomain url = site).
Proof.
  unfold StorageService.extractDomain, BaseExtractionStrategy.extractDomain.
  split; [| split; [| split]].
  - intros ->. split; reflexivity.
  - intros host site tld -> -> Hsite Htld. cbv zeta.
    change (site ++ "." ++ tld) with (site ++ String "." tld).
    rewrite (split_label "." site tld Hsite), (split_single "." tld Htld).
    split; reflexivity.
  - intros host site sld tld -> -> Hsite Htld Hsld. cbv zeta.
    change (site ++ "." ++ sld ++ "." ++ tld) with (site ++ String "." (sld ++ String "." tld)).
    assert (Hfree : JS.includes "." sld = false).
    { simpl in Hsld. repeat destruct Hsld as [<- | Hsld]; try reflexivity. contradiction. }
    rewrite (split_label "." site _ Hsite), (split_label "." sld _ Hfree),
      (split_single "." tld Htld).
    simpl in Hsld.
    repeat destruct Hsld as [<- | Hsld]; try contradiction; split; reflexivity.
  - intros host sub site tld -> -> Hsub Hsite Htld Hnot. cbv zeta.
    change (sub ++ "." ++ site ++ "." ++ tld) with (sub ++ String "." (site ++ String "." tld)).
    rewrite (split_label "." sub _ Hsub), (split_label "." site _ Hsite),
      (split_single "." tld Htld).
    cbn [List.length Nat.leb Nat.sub part List.nth].
    assert (Hstorage : existsb (String.eqb site) StorageService.commonSLDs = false).
    { apply not_true_is_false. intros Hex. apply existsb_exists in Hex as (x & Hin & Heq).
      apply String.eqb_eq in Heq. subst x. exact (Hnot Hin). }
    assert (Hbase : existsb (String.eqb site) BaseExtractionStrategy.commonSLDs = false).
    { apply not_true_is_false. intros Hex. apply existsb_exists in Hex as (x & Hin & Heq).
      apply String.eqb_eq in Heq. subst x. apply Hnot. simpl in Hin |- *. tauto. }
    rewrite Hstorage, Hbase. split; reflexivity.
Qed.

(** X1 at [https://www.falabella.com.pe/...], of shape [site.sld.tld]. *)
Lemma extractDomain_shapes_witness :
  @StorageService.extractDomain SimpleURL.parser "https://www.falabella.com.pe/category/cat40052"
  = "falabella"
  /\ @BaseExtractionStrategy.extractDomain SimpleURL.parser
       "https://www.falabella.com.pe/category/cat40052" = "falabella".
Proof.
  apply (proj1 (proj2 (proj2 (@extractDomain_shapes SimpleURL.parser
                                "https://www.falabella.com.pe/category/cat40052")))
           "www.falabella.com.pe" "falabella" "com" "pe");
    try reflexivity.
  simpl. tauto.
Defined.

(** X2. A canonical domain never holds a dot, whichever canonicalizer
    computes it. Hence no listing that the Urbania strategy extracts
    from JSON, tagged [urbania.pe], carries the domain that tags the raw
    job record of any URL. *)
Theorem canonical_domain_has_no_dot {U : URLParser} :
  (forall url,
      JS.includes "." (StorageService.extractDomain url) = false
      /\ JS.includes "." (BaseExtractionStrategy.extractDomain url) = false)
  /\ (forall now data url jobId jobUrl,
        exists listings,
          UrbaniaStrategy.extractFromJSON now data url jobId = inr listings
          /\ Forall (fun listing =>
                       RealEstateTypes.domain (RealEstateTypes.source listing)
                       <> StorageService.extractDomain jobUrl) listings).
Proof.
  split.
  - intros url. split; [apply storage_domain_free | apply base_domain_free].
  - intros now data url jobId jobUrl.
    destruct (urbania_json_domain now data url jobId) as (listings & Hrun & Hall).
    exists listings. split; [exact Hrun |].
    eapply Forall_impl; [exact Hall |]. intros listing Hdomain Heq.
    pose proof (storage_domain_free jobUrl) as Hfree.
    rewrite <- Heq, Hdomain in Hfree. discriminate.
Qed.

Section ParsePriceFacts.
Import JS.

Lemma filter_price_chars s :
  price_chars (filter_chars BaseExtractionStrategy.price_char s).
Proof.
  induction s as [| a rest IH]; simpl; [exact I |].
  destruct (BaseExtractionStrategy.price_char a) eqn:Ha; [split; assumption | exact IH].
Qed.

Lemma price_char_cases a :
  BaseExtractionStrategy.price_char a = true ->
  (is_digit a = true \/ a = "."%char)
  /\ is_space a = false
  /\ a <> "-"%char /\ a <> "+"%char /\ a <> "I"%char /\ a <> "e"%char /\ a <> "E"%char.
Proof.
  destruct a as [[] [] [] [] [] [] [] []]; intros H; try discriminate H;
    (split; [first [left; reflexivity | right; reflexivity] |]);
    (split; [reflexivity |]); repeat split; discriminate.
Qed.

Lemma digit_val_nonneg a : is_digit a = true -> 0 <= digit_val a.
Proof.
  unfold is_digit, digit_val. intros H.
  apply andb_true_iff in H as [H _]. apply Nat.leb_le in H. lia.
Qed.

(** [take_digits] on a string of digits and dots: the value stays
    non-negative, and what is left is empty or starts with a dot. *)
Lemma take_digits_price s :
  forall acc count,
    price_chars s -> 0 <= acc ->
    exists m n rest,
      take_digits s acc count = (m, n, rest)
      /\ 0 <= m
      /\ price_chars rest
      /\ (rest = EmptyString \/ exists rest', rest = String "." rest').
Proof.
  induction s as [| a s IH]; intros acc count Hs Hacc.
  - exists acc, count, EmptyString. simpl. repeat split; [assumption | left; reflexivity].
  - destruct Hs as [Ha Hs]. simpl.
    destruct (is_digit a) eqn:Hdigit.
    + apply IH; [exact Hs |]. pose proof (digit_val_nonneg a Hdigit). lia.
    + exists acc, count, (String a s). repeat split; try assumption.
      right. destruct (price_char_cases a Ha) as ([Hd | ->] & _); [congruence |].
      exists s. reflexivity.
Qed.

Lemma exponent_part_of_dot rest :
  rest = EmptyString \/ (exists rest', rest = String "." rest') ->
  exponent_part rest = 0.
Proof. intros [-> | (rest' & ->)]; reflexivity. Qed.

Lemma skip_spaces_price a rest :
  BaseExtractionStrategy.price_char a = true ->
  skip_spaces (String a rest) = String a rest.
Proof.
  intros Ha.
  destruct a as [[] [] [] [] [] [] [] []]; try discriminate Ha;
    destruct rest as [| b [| c rest3]]; reflexivity.
Qed.

Lemma digit_val_le_9 a : is_digit a = true -> digit_val a <= 9.
Proof.
  unfold is_digit, digit_val. intros H.
  apply andb_true_iff in H as [_ H]. apply Nat.leb_le in H. lia.
Qed.

(** [take_digits] reads at most as many digits as the string is long,
    and each digit makes the value at most ten times larger. *)
Lemma take_digits_bound s :
  forall acc count m n rest,
    take_digits s acc count = (m, n, rest) -> 0 <= acc ->
    (count <= n)%nat
    /\ (n - count <= String.length s)%nat
    /\ m + 1 <= (acc + 1) * 10 ^ Z.of_nat (n - count).
Proof.
  induction s as [| a s IH]; intros acc count m n rest Hrun Hacc.
  - simpl in Hrun. injection Hrun as <- <- <-.
    rewrite Nat.sub_diag. simpl. lia.
  - simpl in Hrun. destruct (is_digit a) eqn:Hdigit.
    + pose proof (digit_val_nonneg a Hdigit) as Hlo.
      pose proof (digit_val_le_9 a Hdigit) as Hhi.
      destruct (IH _ _ _ _ _ Hrun ltac:(lia)) as (Hcount & Hlen & Hbound).
      split; [lia |]. split; [simpl; lia |].
      replace (n - count)%nat with (S (n - S count)) by lia.
      rewrite Nat2Z.inj_succ, Z.pow_succ_r by lia.
      assert (0 < 10 ^ Z.of_nat (n - S count)) by (apply Z.pow_pos_nonneg; lia).
      nia.
    + injection Hrun as <- <- <-. rewrite Nat.sub_diag. simpl. lia.
Qed.

Lemma in_double_range_cases m e :
  0 <= m ->
  (in_double_range false m e = Inf false /\ overflow_threshold * 10 ^ Z.of_nat e <= m)
  \/ exists m', in_double_range false m e = Dec m' e /\ 0 <= m'
  \/ in_double_range false m e = zero.
Proof.
  intros Hm. unfold in_double_range.
  destruct (Z.leb_spec (overflow_threshold * 10 ^ Z.of_nat e) m) as [Hover | Hunder].
  - left. split; [reflexivity | exact Hover].
  - right. exists m. destruct (_ && _); [right; reflexivity | left; split; [reflexivity | lia]].
Qed.

Lemma below_overflow_threshold n :
  (n <= 308)%nat -> 10 ^ Z.of_nat n < overflow_threshold.
Proof.
  intros Hn. apply Z.le_lt_trans with (10 ^ 308).
  - apply Z.pow_le_mono_r; lia.
  - vm_compute. reflexivity.
Qed.

(** [parseFloat] on a string of digits and dots: never negative, and an
    infinity only when more than 308 digits come before the dot. *)
Lemma parseFloat_price s :
  price_chars s ->
  (parseFloat s = NaN
   \/ (parseFloat s = Inf false /\ (308 < String.length s)%nat)
   \/ exists m e, parseFloat s = Dec m e /\ 0 <= m).
Proof.
  intros Hs. unfold parseFloat.
  assert (Hskip : skip_spaces s = s).
  { destruct s as [| a rest]; [reflexivity |]. destruct Hs as [Ha _].
    apply skip_spaces_price. exact Ha. }
  rewrite Hskip.
  assert (Hsign : match s with
                  | String "-" r => (true, r)
                  | String "+" r => (false, r)
                  | _ => (false, s)
                  end = (false, s)).
  { destruct s as [| a rest]; [reflexivity |]. destruct Hs as [Ha _].
    destruct (price_char_cases a Ha) as (_ & _ & Hminus & Hplus & _).
    destruct a as [[] [] [] [] [] [] [] []]; try reflexivity; congruence. }
  rewrite Hsign.
  assert (Hinf : String.prefix "Infinity" s = false).
  { destruct s as [| a rest]; [reflexivity |]. destruct Hs as [Ha _].
    clear Hskip Hsign.
    destruct a as [[] [] [] [] [] [] [] []]; try discriminate Ha; reflexivity. }
  rewrite Hinf.
  destruct (take_digits_price s 0 O Hs ltac:(lia))
    as (ip & ni & r1 & Hint & Hip & Hr1 & Hshape1).
  destruct (take_digits_bound s 0 O ip ni r1 Hint ltac:(lia)) as (_ & Hni & Hipb).
  rewrite Hint.
  assert (Hfrac : exists m nf r2,
             match r1 with
             | String "." r => take_digits r ip O
             | _ => (ip, O, r1)
             end = (m, nf, r2)
             /\ 0 <= m /\ (r2 = EmptyString \/ exists r', r2 = String "." r')
             /\ m + 1 <= (ip + 1) * 10 ^ Z.of_nat nf).
  { destruct Hshape1 as [-> | (r & ->)].
    - exists ip, O, EmptyString. repeat split; [assumption | left; reflexivity | simpl; lia].
    - destruct Hr1 as [_ Hr].
      destruct (take_digits_price r ip O Hr Hip) as (m & nf & r2 & Heq & Hm & _ & Hshape2).
      destruct (take_digits_bound r ip O m nf r2 Heq Hip) as (_ & _ & Hmb).
      rewrite Nat.sub_0_r in Hmb.
      exists m, nf, r2. repeat split; assumption. }
  destruct Hfrac as (m & nf & r2 & -> & Hm & Hshape2 & Hmb).
  destruct (ni + nf)%nat; [left; reflexivity |].
  right. rewrite (exponent_part_of_dot r2 Hshape2).
  change (0 <=? 0) with true. cbv iota. rewrite Z.pow_0_r, Z.mul_1_r.
  destruct (in_double_range_cases m nf Hm) as [[Heq Hover] | (m' & [[Heq Hm'] | Heq])].
  - left. split; [exact Heq |].
    destruct (Nat.le_gt_cases (String.length s) 308) as [Hshort | Hlong]; [| exact Hlong].
    exfalso. rewrite Nat.sub_0_r in Hni, Hipb.
    pose proof (below_overflow_threshold ni ltac:(lia)) as Hbelow.
    assert (0 < 10 ^ Z.of_nat nf) by (apply Z.pow_pos_nonneg; lia).
    nia.
  - right. exists m', nf. split; assumption.
  - right. exists 0, O. split; [exact Heq | lia].
Qed.

Lemma filter_chars_length keep s :
  (String.length (filter_chars keep s) <= String.length s)%nat.
Proof.
  induction s as [| a rest IH]; simpl; [lia |].
  destruct (keep a); simpl; lia.
Qed.

Lemma prefix_includes needle hay :
  String.prefix needle hay = true -> includes needle hay = true.
Proof. intros H. destruct hay; cbn [includes]; rewrite H; reflexivity. Qed.

Lemma prefix_same_head c needle rest :
  String.prefix (String c needle) (String c rest) = String.prefix needle rest.
Proof. simpl. destruct (ascii_dec c c); [reflexivity | contradiction]. Qed.

(** [hay.includes] passes to the tail of the needle. *)
Lemma includes_tail a needle hay :
  includes (String a needle) hay = true -> includes needle hay = true.
Proof.
  induction hay as [| c rest IH]; intros H.
  - simpl in H. discriminate.
  - assert (Hstep : forall n, includes n (String c rest)
                              = String.prefix n (String c rest) || includes n rest)
      by reflexivity.
    rewrite Hstep in H. rewrite Hstep. apply orb_true_iff. right.
    apply orb_true_iff in H as [Hprefix | Hrest]; [| apply IH; exact Hrest].
    destruct (ascii_dec a c) as [-> | Hne].
    + rewrite prefix_same_head in Hprefix. apply prefix_includes. exact Hprefix.
    + simpl in Hprefix. destruct (ascii_dec a c); [contradiction | discriminate].
Qed.

End ParsePriceFacts.

(** X3. [parsePrice] of a string never throws and never returns NaN or
    a negative number: whatever is not a digit or a dot is dropped, a
    minus sign included, and what cannot be read counts as zero. The
    result is the infinity only for a string of more than 308
    characters, as for a one followed by 309 zeros. *)
Theorem parsePrice_of_string (s : string) :
  (BaseExtractionStrategy.parsePrice (JS.Str s) = inr (JS.Inf false)
   \/ exists m e,
        BaseExtractionStrategy.parsePrice (JS.Str s) = inr (JS.Dec m e) /\ 0 <= m)
  /\ ((String.length s <= 308)%nat ->
      exists m e,
        BaseExtractionStrategy.parsePrice (JS.Str s) = inr (JS.Dec m e) /\ 0 <= m)
  /\ BaseExtractionStrategy.parsePrice (JS.Str ("1" ++ JS.zeros 309)) = inr (JS.Inf false).
Proof.
  assert (Hcases :
            (BaseExtractionStrategy.parsePrice (JS.Str s) = inr (JS.Inf false)
             /\ (308 < String.length s)%nat)
            \/ exists m e,
                 BaseExtractionStrategy.parsePrice (JS.Str s) = inr (JS.Dec m e) /\ 0 <= m).
  { unfold BaseExtractionStrategy.parsePrice.
    destruct (parseFloat_price _ (filter_price_chars s))
      as [-> | [[-> Hlong] | (m & e & -> & Hm)]].
    - right. exists 0, O. split; [reflexivity | lia].
    - left. split; [reflexivity |].
      pose proof (filter_chars_length BaseExtractionStrategy.price_char s). lia.
    - right. simpl. destruct (m =? 0); simpl.
      + exists 0, O. split; [reflexivity | lia].
      + exists m, e. split; [reflexivity | exact Hm]. }
  split; [| split].
  - destruct Hcases as [[Hinf _] | Hdec]; [left; exact Hinf | right; exact Hdec].
  - intros Hshort. destruct Hcases as [[_ Hlong] | Hdec]; [lia | exact Hdec].
  - vm_compute. reflexivity.
Qed.

(** X4. The lookup of [extractCurrency] on a string never returns BRL:
    a string that holds [R$] holds [$], whose entry comes first. *)
Theorem extractCurrency_never_BRL (s : string) :
  BaseExtractionStrategy.extractCurrency (JS.Str s) <> inr "BRL"
  /\ (JS.includes "R$" s = true ->
      BaseExtractionStrategy.extractCurrency (JS.Str s) = inr "PEN"
      \/ BaseExtractionStrategy.extractCurrency (JS.Str s) = inr "USD").
Proof.
  unfold BaseExtractionStrategy.extractCurrency, BaseExtractionStrategy.currencyMap.
  cbn [BaseExtractionStrategy.first_code JS.ret].
  split.
  - destruct (JS.includes "S/" s); [discriminate |].
    destruct (JS.includes "$" s) eqn:Hdollar; [discriminate |].
    destruct (JS.includes "€" s); [discriminate |].
    destruct (JS.includes "£" s); [discriminate |].
    destruct (JS.includes "¥" s); [discriminate |].
    destruct (JS.includes "R$" s) eqn:Hreal.
    + apply includes_tail in Hreal. congruence.
    + repeat match goal with
             | |- context [if ?c then _ else _] => destruct c
             end; discriminate.
  - intros Hreal. apply includes_tail in Hreal.
    destruct (JS.includes "S/" s); [left; reflexivity |].
    rewrite Hreal. right. reflexivity.
Qed.

(** X4 at a price in reais. *)
Lemma extractCurrency_never_BRL_witness :
  BaseExtractionStrategy.extractCurrency (JS.Str "R$ 1.299,00") = inr "PEN"
  \/ BaseExtractionStrategy.extractCurrency (JS.Str "R$ 1.299,00") = inr "USD".
Proof.
  apply (proj2 (extractCurrency_never_BRL "R$ 1.299,00")). reflexivity.
Defined.

(* ===================================================================== *)
(** * Further properties: the product store *)
(* ===================================================================== *)

Lemma last_cons_default {A} (rest : list A) (x d : A) :
  List.last (x :: rest) d = List.last rest x.
Proof.
  revert x d. induction rest as [| y rest IH]; intros x d; [reflexivity |].
  change (List.last (x :: y :: rest) d) with (List.last (y :: rest) d).
  rewrite (IH y d), (IH y x). reflexivity.
Qed.

Section ProductStoreMore.
Import JS ProductStorageService.

Lemma successive_any key calls :
  forall documents existing,
    documents !! key = Some existing ->
    Forall (fun call => keyOf (fst call) = inr key) calls ->
    exists documents' stored,
      upsertSuccessively {| collection := Some documents |} calls
      = inr {| collection := Some documents' |}
      /\ documents' !! key = Some stored
      /\ version stored = version existing + Z.of_nat (List.length calls)
      /\ firstSeenAt stored = firstSeenAt existing
      /\ (ProductStorageService.product stored, lastSeenAt stored)
         = lastCall (ProductStorageService.product existing, lastSeenAt existing) calls
      /\ lastUpdatedAt stored
         = snd (lastCall (ProductStorageService.product existing, lastUpdatedAt existing) calls).
Proof.
  unfold lastCall.
  induction calls as [| [product now] rest IH]; intros documents existing Hlookup Hkeys.
  - exists documents, existing. simpl. repeat split; try assumption. lia.
  - apply Forall_cons_iff in Hkeys as [Hkey Hkeys]. simpl in Hkey.
    cbn [upsertSuccessively].
    rewrite (ProductStoreFacts.upsertProduct_update _ _ _ _ _ Hkey Hlookup).
    cbn [bind].
    match goal with
    | |- context [ <[key := ?updated]> documents ] =>
        destruct (IH (<[key := updated]> documents) updated (lookup_insert_eq _ _ _) Hkeys)
          as (documents' & stored & Hrun & Hstored & Hversion & Hfirst & Hlast & Hupdated)
    end.
    exists documents', stored. rewrite Hrun. cbn [version firstSeenAt] in *.
    repeat split; try assumption.
    + rewrite Hversion. cbn [List.length]. lia.
    + rewrite Hlast. cbn [ProductStorageService.product lastSeenAt].
      rewrite last_cons_default. reflexivity.
    + rewrite Hupdated. cbn [ProductStorageService.product lastUpdatedAt].
      rewrite last_cons_default. reflexivity.
Qed.

Lemma reachable_step_wellformed documents documents' product now :
  (forall key stored, documents !! key = Some stored ->
     uniqueKey stored = key
     /\ keyOf (ProductStorageService.product stored) = inr key
     /\ 1 <= version stored
     /\ (1 <= List.length (priceHistory stored))%nat
     /\ Z.of_nat (List.length (priceHistory stored)) <= version stored) ->
  upsertProduct {| collection := Some documents |} product now
  = inr {| collection := Some documents' |} ->
  forall key stored, documents' !! key = Some stored ->
     uniqueKey stored = key
     /\ keyOf (ProductStorageService.product stored) = inr key
     /\ 1 <= version stored
     /\ (1 <= List.length (priceHistory stored))%nat
     /\ Z.of_nat (List.length (priceHistory stored)) <= version stored.
Proof.
  intros Hinv Hstep key stored Hlookup.
  destruct (ProductStoreFacts.upsert_inv _ _ _ _ Hstep) as (docs & k & Hdocs & Hkey).
  simpl in Hdocs. injection Hdocs as <-.
  destruct (documents !! k) as [existing |] eqn:Hexisting.
  - rewrite (ProductStoreFacts.upsertProduct_update _ _ _ _ _ Hkey Hexisting) in Hstep.
    injection Hstep as <-.
    destruct (decide (k = key)) as [-> | Hne].
    + rewrite lookup_insert_eq in Hlookup. injection Hlookup as <-.
      destruct (Hinv key existing Hexisting) as (_ & _ & Hv & Hlen & Hle).
      cbn [uniqueKey ProductStorageService.product version priceHistory].
      repeat split; try assumption; try lia.
      * destruct (priceChanged _ _); [| exact Hlen].
        rewrite slice_last_length, length_app. cbn [List.length]. lia.
      * destruct (priceChanged _ _); [| lia].
        rewrite slice_last_length, length_app. cbn [List.length]. lia.
    + rewrite lookup_insert_ne in Hlookup by exact Hne. apply Hinv. exact Hlookup.
  - rewrite (ProductStoreFacts.upsertProduct_insert _ _ _ _ Hkey Hexisting) in Hstep.
    injection Hstep as <-.
    destruct (decide (k = key)) as [-> | Hne].
    + rewrite lookup_insert_eq in Hlookup. injection Hlookup as <-.
      cbn [uniqueKey ProductStorageService.product version priceHistory List.length].
      repeat split; try assumption; lia.
    + rewrite lookup_insert_ne in Hlookup by exact Hne. apply Hinv. exact Hlookup.
Qed.

End ProductStoreMore.

(** X5. The version of a stored product counts the upserts of its key,
    whether or not they change anything: after a run of upserts that
    all address one key, absent before the run, the stored version is
    the number of calls, firstSeenAt is the time of the first call,
    lastSeenAt and lastUpdatedAt are the time of the last call, and the
    productId, name, price and source stored are those of the last
    call. *)
Theorem version_counts_upserts documents key first rest :
  documents !! key = None ->
  ProductStorageService.allAddress key (first :: rest) = true ->
  exists final stored,
    ProductStorageService.upsertSuccessively
      {| ProductStorageService.collection := Some documents |} (first :: rest) = inr final
    /\ ProductStorageService.findOne final key = Some stored
    /\ ProductStorageService.version stored = Z.of_nat (List.length (first :: rest))
    /\ ProductStorageService.firstSeenAt stored = snd first
    /\ ProductStorageService.lastSeenAt stored = snd (lastCall first rest)
    /\ ProductStorageService.lastUpdatedAt stored = snd (lastCall first rest)
    /\ ProductTypes.productId (ProductStorageService.product stored)
       = ProductTypes.productId (fst (lastCall first rest))
    /\ ProductTypes.name (ProductStorageService.product stored)
       = ProductTypes.name (fst (lastCall first rest))
    /\ ProductTypes.price (ProductStorageService.product stored)
       = ProductTypes.price (fst (lastCall first rest))
    /\ ProductTypes.source (ProductStorageService.product stored)
       = ProductTypes.source (fst (lastCall first rest)).
Proof.
  intros Hnone Hkeys. apply allAddress_Forall in Hkeys.
  apply Forall_cons_iff in Hkeys as [Hkey Hkeys]. destruct first as [product now].
  simpl in Hkey. cbn [ProductStorageService.upsertSuccessively].
  rewrite (ProductStoreFacts.upsertProduct_insert _ _ _ _ Hkey Hnone). cbn [JS.bind].
  match goal with
  | |- context [ <[key := ?inserted]> documents ] =>
      destruct (successive_any key rest (<[key := inserted]> documents) inserted
                  (lookup_insert_eq _ _ _) Hkeys)
        as (documents' & stored & Hrun & Hstored & Hversion & Hfirst & Hlast & Hupdated)
  end.
  exists {| ProductStorageService.collection := Some documents' |}, stored.
  cbn [ProductStorageService.version ProductStorageService.firstSeenAt
       ProductStorageService.lastSeenAt ProductStorageService.lastUpdatedAt
       ProductStorageService.product] in *.
  split; [exact Hrun |]. split; [exact Hstored |].
  split; [rewrite Hversion; cbn [List.length]; lia |].
  split; [exact Hfirst |].
  split; [rewrite <- Hlast; reflexivity |].
  split; [exact Hupdated |].
  rewrite <- Hlast. repeat split.
Qed.

(** X5 on three upserts of [p1] at the same price. *)
Lemma version_counts_upserts_witness :
  exists final stored,
    ProductStorageService.upsertSuccessively
      {| ProductStorageService.collection := Some ∅ |}
      [ (Scenarios.widget 10 "USD", 1000); (Scenarios.widget 10 "USD", 2000);
        (Scenarios.widget 10 "USD", 3000) ] = inr final
    /\ ProductStorageService.findOne final "x:p1" = Some stored
    /\ ProductStorageService.version stored = 3
    /\ ProductStorageService.firstSeenAt stored = 1000
    /\ ProductStorageService.lastSeenAt stored = 3000
    /\ ProductStorageService.lastUpdatedAt stored = 3000
    /\ ProductTypes.productId (ProductStorageService.product stored) = JS.Str "p1"
    /\ ProductTypes.name (ProductStorageService.product stored) = JS.Str "Widget"
    /\ ProductTypes.price (ProductStorageService.product stored)
       = ProductTypes.price (Scenarios.widget 10 "USD")
    /\ ProductTypes.source (ProductStorageService.product stored)
       = ProductTypes.source (Scenarios.widget 10 "USD").
Proof.
  apply (version_counts_upserts ∅ "x:p1" (Scenarios.widget 10 "USD", 1000)
           [ (Scenarios.widget 10 "USD", 2000); (Scenarios.widget 10 "USD", 3000) ]);
    reflexivity.
Defined.

(** X6. Every document of a products collection built by upserts from
    the empty collection is stored under its own uniqueKey, which is
    the key of the product it holds; its version is at least 1; and its
    priceHistory is never empty and never longer than its version. *)
Theorem reachable_documents_wellformed documents :
  ProductStorageService.reachable documents ->
  forall key stored,
    documents !! key = Some stored ->
    ProductStorageService.uniqueKey stored = key
    /\ ProductStorageService.keyOf (ProductStorageService.product stored) = inr key
    /\ 1 <= ProductStorageService.version stored
    /\ (1 <= List.length (ProductStorageService.priceHistory stored))%nat
    /\ Z.of_nat (List.length (ProductStorageService.priceHistory stored))
       <= ProductStorageService.version stored.
Proof.
  induction 1 as [| documents documents' product now _ IH Hstep].
  - intros key stored Hlookup. rewrite lookup_empty in Hlookup. discriminate.
  - eapply reachable_step_wellformed; eassumption.
Qed.

(** X6 on the collection that one upsert of [p1] builds. *)
Lemma reachable_documents_wellformed_witness :
  ProductStorageService.uniqueKey Scenarios.storedWidget = "x:p1"
  /\ ProductStorageService.keyOf (ProductStorageService.product Scenarios.storedWidget)
     = inr "x:p1"
  /\ 1 <= ProductStorageService.version Scenarios.storedWidget
  /\ (1 <= List.length (ProductStorageService.priceHistory Scenarios.storedWidget))%nat
  /\ Z.of_nat (List.length (ProductStorageService.priceHistory Scenarios.storedWidget))
     <= ProductStorageService.version Scenarios.storedWidget.
Proof.
  apply (reachable_documents_wellformed (<["x:p1" := Scenarios.storedWidget]> ∅)).
  - apply (ProductStorageService.reachable_upsert ∅ _ (Scenarios.widget 10 "USD") 1000).
    + constructor.
    + reflexivity.
  - reflexivity.
Defined.

(** X7. An upsert on a connected service is read back by [getProduct]:
    it returns a document with the productId, name, price and source of
    the upserted product, under the product's key, seen and updated at
    the time of the call. Every other document of the collection is
    left as it was (so no document is ever removed). On a service that
    is not connected both operations throw the same error. *)
Theorem upsert_then_getProduct :
  (forall documents product now key,
      ProductStorageService.keyOf product = inr key ->
      exists next stored,
        ProductStorageService.upsertProduct
          {| ProductStorageService.collection := Some documents |} product now = inr next
        /\ ProductStorageService.getProduct next
             (ProductTypes.domain (ProductTypes.source product))
             (ProductTypes.productId product) = inr (Some stored)
        /\ ProductTypes.productId (ProductStorageService.product stored)
           = ProductTypes.productId product
        /\ ProductTypes.name (ProductStorageService.product stored)
           = ProductTypes.name product
        /\ ProductTypes.price (ProductStorageService.product stored)
           = ProductTypes.price product
        /\ ProductTypes.source (ProductStorageService.product stored)
           = ProductTypes.source product
        /\ ProductStorageService.uniqueKey stored = key
        /\ ProductStorageService.lastSeenAt stored = now
        /\ ProductStorageService.lastUpdatedAt stored = now
        /\ (forall other, other <> key ->
              ProductStorageService.findOne next other = documents !! other))
  /\ (forall product now domain productId,
      ProductStorageService.upsertProduct
        {| ProductStorageService.collection := None |} product now
      = inl (JS.Error "MongoDB not connected. Call connect() first.")
      /\ ProductStorageService.getProduct
           {| ProductStorageService.collection := None |} domain productId
         = inl (JS.Error "MongoDB not connected. Call connect() first.")).
Proof.
  split.
  - intros documents product now key Hkey.
    assert (Hget : forall m : gmap string ProductStorageService.StoredProduct,
               ProductStorageService.getProduct {| ProductStorageService.collection := Some m |}
                 (ProductTypes.domain (ProductTypes.source product))
                 (ProductTypes.productId product) = inr (m !! key)).
    { intros m. unfold ProductStorageService.getProduct. simpl.
      unfold ProductStorageService.keyOf in Hkey. rewrite Hkey. reflexivity. }
    destruct (documents !! key) as [existing |] eqn:Hlookup.
    + rewrite (ProductStoreFacts.upsertProduct_update _ _ _ _ _ Hkey Hlookup).
      eexists _, _. split; [reflexivity |]. rewrite Hget, lookup_insert_eq.
      split; [reflexivity |]. repeat split.
      intros other Hne. simpl. apply lookup_insert_ne. congruence.
    + rewrite (ProductStoreFacts.upsertProduct_insert _ _ _ _ Hkey Hlookup).
      eexists _, _. split; [reflexivity |]. rewrite Hget, lookup_insert_eq.
      split; [reflexivity |]. repeat split.
      intros other Hne. simpl. apply lookup_insert_ne. congruence.
  - intros. split; reflexivity.
Qed.

(** X7 on [p1], upserted into the empty collection. *)
Lemma upsert_then_getProduct_witness :
  exists next stored,
    ProductStorageService.upsertProduct
      {| ProductStorageService.collection := Some ∅ |} (Scenarios.widget 10 "USD") 1000
    = inr next
    /\ ProductStorageService.getProduct next "x" (JS.Str "p1") = inr (Some stored)
    /\ ProductTypes.productId (ProductStorageService.product stored)
       = ProductTypes.productId (Scenarios.widget 10 "USD")
    /\ ProductTypes.name (ProductStorageService.product stored)
       = ProductTypes.name (Scenarios.widget 10 "USD")
    /\ ProductTypes.price (ProductStorageService.product stored)
       = ProductTypes.price (Scenarios.widget 10 "USD")
    /\ ProductTypes.source (ProductStorageService.product stored)
       = ProductTypes.source (Scenarios.widget 10 "USD")
    /\ ProductStorageService.uniqueKey stored = "x:p1"
    /\ ProductStorageService.lastSeenAt stored = 1000
    /\ ProductStorageService.lastUpdatedAt stored = 1000
    /\ (forall other, other <> "x:p1" ->
          ProductStorageService.findOne next other
          = (∅ : gmap string ProductStorageService.StoredProduct) !! other).
Proof.
  apply (proj1 upsert_then_getProduct ∅ (Scenarios.widget 10 "USD") 1000 "x:p1").
  reflexivity.
Defined.

(* ===================================================================== *)
(** * Further properties: bulk upserts and the listing store *)
(* ===================================================================== *)

Section ProductBulk.
Import JS ProductStorageService.







End ProductBulk.



Section ListingBulk.
Import JS RealEstateStorageService.

Lemma listing_upsertCounted_total this listing now tally :
  let tally' := snd (upsertCounted this listing now tally) in
  (inserted tally' + updated tally' + errors tally'
   = S (inserted tally + updated tally + errors tally))%nat.
Proof.
  unfold upsertCounted.
  destruct (upsertListing this listing now) as [e | next]; [simpl; lia |].
  match goal with |- context [if ?c then _ else _] => destruct c end; simpl; lia.
Qed.

Lemma listing_upsertListings_from_total calls :
  forall this tally,
    let tally' := snd (upsertListings_from this calls tally) in
    (inserted tally' + updated tally' + errors tally'
     = inserted tally + updated tally + errors tally + List.length calls)%nat.
Proof.
  induction calls as [| [listing now] rest IH]; intros this tally; simpl.
  - lia.
  - pose proof (listing_upsertCounted_total this listing now tally) as Hstep.
    destruct (upsertCounted this listing now tally) as [next tally1]. simpl in Hstep.
    specialize (IH next tally1). simpl in IH. lia.
Qed.

End ListingBulk.

(** X9. [upsertListings] accounts for every listing (inserted + updated
    + errors is their number), and tells an insert from an update by the
    document it reads back: a listing whose key was absent counts as
    inserted; a listing whose key was present counts as updated, unless
    the document was first seen at the very clock reading of this
    upsert, in which case it counts as inserted although no document
    was added. *)
Theorem upsertListings_classification :
  (forall this calls,
      (RealEstateStorageService.inserted (snd (RealEstateStorageService.upsertListings this calls))
       + RealEstateStorageService.updated (snd (RealEstateStorageService.upsertListings this calls))
       + RealEstateStorageService.errors (snd (RealEstateStorageService.upsertListings this calls))
       = List.length calls)%nat)
  /\ (forall documents listing now tally,
      documents !! RealEstateStorageService.keyOf listing = None ->
      snd (RealEstateStorageService.upsertCounted
             {| RealEstateStorageService.collection := Some documents |} listing now tally)
      = {| RealEstateStorageService.inserted := S (RealEstateStorageService.inserted tally);
           RealEstateStorageService.updated := RealEstateStorageService.updated tally;
           RealEstateStorageService.errors := RealEstateStorageService.errors tally |})
  /\ (forall documents listing now tally existing,
      documents !! RealEstateStorageService.keyOf listing = Some existing ->
      snd (RealEstateStorageService.upsertCounted
             {| RealEstateStorageService.collection := Some documents |} listing now tally)
      = if RealEstateStorageService.firstSeenAt existing =? now
        then {| RealEstateStorageService.inserted := S (RealEstateStorageService.inserted tally);
                RealEstateStorageService.updated := RealEstateStorageService.updated tally;
                RealEstateStorageService.errors := RealEstateStorageService.errors tally |}
        else {| RealEstateStorageService.inserted := RealEstateStorageService.inserted tally;
                RealEstateStorageService.updated := S (RealEstateStorageService.updated tally);
                RealEstateStorageService.errors := RealEstateStorageService.errors tally |}).
Proof.
  split; [| split].
  - intros this calls. unfold RealEstateStorageService.upsertListings.
    pose proof (listing_upsertListings_from_total calls this
                  {| RealEstateStorageService.inserted := 0;
                     RealEstateStorageService.updated := 0;
                     RealEstateStorageService.errors := 0 |}) as H.
    simpl in H. exact H.
  - intros documents listing now tally Hnone.
    unfold RealEstateStorageService.upsertCounted.
    rewrite (ListingStoreFacts.upsertListing_insert _ _ _ Hnone).
    cbn [RealEstateStorageService.findOne RealEstateStorageService.collection].
    rewrite lookup_insert_eq.
    cbn [RealEstateStorageService.firstSeenAt RealEstateStorageService.lastSeenAt].
    rewrite Z.eqb_refl. reflexivity.
  - intros documents listing now tally existing Hsome.
    unfold RealEstateStorageService.upsertCounted.
    rewrite (ListingStoreFacts.upsertListing_update _ _ _ _ Hsome).
    cbn [RealEstateStorageService.findOne RealEstateStorageService.collection].
    rewrite lookup_insert_eq.
    cbn [RealEstateStorageService.firstSeenAt RealEstateStorageService.lastSeenAt].
    destruct (RealEstateStorageService.firstSeenAt existing =? now); reflexivity.
Qed.

(** X9 on listing 77, stored at clock reading 1000 and upserted again
    at the same reading: the second upsert counts as an insert. *)
Lemma upsertListings_classification_witness :
  snd (RealEstateStorageService.upsertCounted
         {| RealEstateStorageService.collection :=
              Some {[ "urbania.pe:77" := Scenarios.storedFlat ]} |}
         (Scenarios.flat 1500 "PEN") 1000
         {| RealEstateStorageService.inserted := 1;
            RealEstateStorageService.updated := 0;
            RealEstateStorageService.errors := 0 |})
  = {| RealEstateStorageService.inserted := 2;
       RealEstateStorageService.updated := 0;
       RealEstateStorageService.errors := 0 |}.
Proof.
  apply (proj2 (proj2 upsertListings_classification)
           {[ "urbania.pe:77" := Scenarios.storedFlat ]} (Scenarios.flat 1500 "PEN") 1000
           {| RealEstateStorageService.inserted := 1;
              RealEstateStorageService.updated := 0;
              RealEstateStorageService.errors := 0 |}
           Scenarios.storedFlat).
  reflexivity.
Defined.

(** X10. A listing of an Urbania API response whose price is a text
    that [parseFloat] cannot read (not empty, no number at its head) is
    extracted with the amount NaN; and since NaN differs from every
    amount, every upsert of such a listing on a stored document appends
    one entry to priceHistory, although no price changed. *)
Theorem unparsable_price_grows_listing_history now item url jobId listing text :
  UrbaniaStrategy.parseJsonListing now item url jobId = Some listing ->
  JS.get_opt item "price" = JS.Str text ->
  text <> EmptyString ->
  JS.parseFloat text = JS.NaN ->
  RealEstateTypes.amount (RealEstateTypes.price listing) = JS.NaN
  /\ forall documents existing instant,
       documents !! RealEstateStorageService.keyOf listing = Some existing ->
       exists stored,
         RealEstateStorageService.upsertListing
           {| RealEstateStorageService.collection := Some documents |} listing instant
         = inr {| RealEstateStorageService.collection :=
                    Some (<[RealEstateStorageService.keyOf listing := stored]> documents) |}
         /\ RealEstateStorageService.priceHistory stored
            = Some (default [] (RealEstateStorageService.priceHistory existing)
                    ++ [ {| RealEstateStorageService.amount :=
                              RealEstateTypes.amount
                                (RealEstateTypes.price
                                   (RealEstateStorageService.listing existing));
                            RealEstateStorageService.currency :=
                              RealEstateTypes.currency
                                (RealEstateTypes.price
                                   (RealEstateStorageService.listing existing));
                            RealEstateStorageService.changedAt := instant |} ])%list.
Proof.
  intros Hparse Hprice Hne Hnan.
  assert (Hamount : RealEstateTypes.amount (RealEstateTypes.price listing) = JS.NaN).
  { unfold UrbaniaStrategy.parseJsonListing in Hparse. rewrite Hprice in Hparse.
    destruct (JS.get item "id") as [e | id]; cbn [JS.bind] in Hparse; [discriminate |].
    destruct (JS.ToString _) as [e | listingId]; cbn [JS.bind] in Hparse; [discriminate |].
    destruct (UrbaniaStrategy.determineListingType item) as [e | listingType];
      cbn [JS.bind] in Hparse; [discriminate |].
    destruct (UrbaniaStrategy.determinePropertyType item) as [e | propertyType];
      cbn [JS.bind] in Hparse; [discriminate |].
    assert (Harg : JS.or (JS.or (JS.get_opt (JS.Str text) "amount") (JS.Str text))
                         (JS.Num JS.zero) = JS.Str text).
    { unfold JS.or. simpl.
      destruct (String.eqb_spec text EmptyString); [contradiction | reflexivity]. }
    rewrite Harg in Hparse. cbn [JS.ToString JS.bind JS.ret] in Hparse.
    destruct (UrbaniaStrategy.parseDetails item) as [e | details];
      cbn [JS.bind JS.ret] in Hparse; [discriminate |].
    injection Hparse as <-. cbn [RealEstateTypes.amount RealEstateTypes.price].
    exact Hnan. }
  split; [exact Hamount |].
  intros documents existing instant Hsome.
  eexists. split; [apply (ListingStoreFacts.upsertListing_update _ _ _ _ Hsome) |].
  cbn [RealEstateStorageService.priceHistory]. rewrite Hamount. reflexivity.
Qed.

(** X10 on a listing whose price reads [Consultar precio], stored once
    and upserted again. *)
Lemma unparsable_price_grows_listing_history_witness :
  exists listing final stored,
    UrbaniaStrategy.parseJsonListing 0 Scenarios.listingOnRequest
      "https://urbania.pe/buscar/venta" None = Some listing
    /\ RealEstateTypes.amount (RealEstateTypes.price listing) = JS.NaN
    /\ RealEstateStorageService.upsertSuccessively
         {| RealEstateStorageService.collection := Some ∅ |}
         [ (listing, 1000); (listing, 2000) ] = inr final
    /\ RealEstateStorageService.findOne final "urbania.pe:78" = Some stored
    /\ RealEstateStorageService.priceHistory stored
       = Some [ {| RealEstateStorageService.amount := JS.NaN;
                   RealEstateStorageService.currency := JS.Str "PEN";
                   RealEstateStorageService.changedAt := 2000 |} ].
Proof.
  eexists _, _, _. split; [reflexivity |].
  split.
  - eapply (proj1 (unparsable_price_grows_listing_history 0 Scenarios.listingOnRequest
                     "https://urbania.pe/buscar/venta" None _ "Consultar precio"
                     eq_refl eq_refl ltac:(discriminate) eq_refl)).
  - split; [reflexivity |]. split; reflexivity.
Defined.

(* ===================================================================== *)
(** * Further properties: routing and the registries *)
(* ===================================================================== *)

Section RegistryFacts.
Context {E : Type}.
Implicit Types strategies more : list (ExtractionStrategy E).

Lemma firstHandling_app strategies more data url :
  firstHandling (strategies ++ more) data url
  = match firstHandling strategies data url with
    | inr None => firstHandling more data url
    | found => found
    end.
Proof.
  induction strategies as [| s rest IH]; simpl; [reflexivity |].
  destruct (canHandle s data url) as [e | []]; simpl; [reflexivity | reflexivity | exact IH].
Qed.

End RegistryFacts.

(** X11. Routing and the real-estate registry. Every URL that the
    Urbania strategy claims is routed to the real-estate orchestrator.
    But a URL that [isRealEstateSite] accepts and that does not contain
    [urbania.pe] (a page of adondevivir.com, properati.com.pe or
    nexoinmobiliario.pe) is routed to a real-estate orchestrator that,
    as constructed, has no strategy for it: the extraction returns no
    listing and the error [No strategy found for this real estate
    site], whatever the payload. *)
Theorem real_estate_routing {U : URLParser} (url : string) :
  (forall data,
      UrbaniaStrategy.canHandle data url = true ->
      RealEstateExtractorService.isRealEstateSite url = true
      /\ QueueListenerService.isRealEstate url = true)
  /\ (RealEstateExtractorService.isRealEstateSite url = true ->
      JS.includes "urbania.pe" url = false ->
      QueueListenerService.isRealEstate url = true
      /\ forall extractFromHTML now data jobId,
           RealEstateExtractorService.extractListings
             (RealEstateExtractorService.new extractFromHTML now) data url jobId
           = inr {| RealEstateExtractorService.listings := [];
                    RealEstateExtractorService.metadata :=
                      {| totalExtracted := 0;
                         source := url;
                         strategyUsed := None;
                         errors := Some ["No strategy found for this real estate site"] |} |}).
Proof.
  split.
  - intros data Hclaims. unfold UrbaniaStrategy.canHandle in Hclaims.
    assert (Hsite : RealEstateExtractorService.isRealEstateSite url = true).
    { unfold RealEstateExtractorService.isRealEstateSite. cbn [existsb].
      rewrite Hclaims. reflexivity. }
    split; [exact Hsite |].
    unfold QueueListenerService.isRealEstate. rewrite Hsite. reflexivity.
  - intros Hsite Hnot. split.
    + unfold QueueListenerService.isRealEstate. rewrite Hsite. reflexivity.
    + intros extractFromHTML now data jobId.
      unfold RealEstateExtractorService.extractListings,
        RealEstateExtractorService.extractListings_body,
        RealEstateExtractorService.findStrategy.
      rewrite firstHandling_none; [reflexivity |].
      repeat constructor. cbn [canHandle UrbaniaStrategy.strategy].
      unfold UrbaniaStrategy.canHandle. rewrite Hnot. reflexivity.
Qed.

(** X11 at a page of properati.com.pe. *)
Lemma real_estate_routing_witness :
  @QueueListenerService.isRealEstate SimpleURL.parser
    "https://www.properati.com.pe/inmueble/77" = true
  /\ forall extractFromHTML now data jobId,
       RealEstateExtractorService.extractListings
         (RealEstateExtractorService.new extractFromHTML now) data
         "https://www.properati.com.pe/inmueble/77" jobId
       = inr {| RealEstateExtractorService.listings := [];
                RealEstateExtractorService.metadata :=
                  {| totalExtracted := 0;
                     source := "https://www.properati.com.pe/inmueble/77";
                     strategyUsed := None;
                     errors := Some ["No strategy found for this real estate site"] |} |}.
Proof.
  apply (proj2 (@real_estate_routing SimpleURL.parser
                  "https://www.properati.com.pe/inmueble/77")); reflexivity.
Defined.

(** X12. Registration order is priority. Registering one more strategy
    never changes the strategy selected for a payload that a strategy
    registered before it claims; for a payload that none of them claims
    the new strategy, when it claims the payload, is selected in place
    of the fallback; and the registered names are the former ones
    followed by the new one. *)
Theorem registration_order_is_priority this strategy data url :
  (forall found,
      firstHandling (ProductExtractorService.strategies this) data url = inr (Some found) ->
      ProductExtractorService.findStrategy
        (ProductExtractorService.registerStrategy strategy this) data url = inr found
      /\ ProductExtractorService.findStrategy this data url = inr found)
  /\ (firstHandling (ProductExtractorService.strategies this) data url = inr None ->
      canHandle strategy data url = inr true ->
      ProductExtractorService.findStrategy
        (ProductExtractorService.registerStrategy strategy this) data url = inr strategy
      /\ ProductExtractorService.findStrategy this data url
         = inr (ProductExtractorService.fallbackStrategy this))
  /\ ProductExtractorService.getRegisteredStrategies
       (ProductExtractorService.registerStrategy strategy this)
     = (ProductExtractorService.getRegisteredStrategies this ++ [name strategy])%list.
Proof.
  unfold ProductExtractorService.findStrategy, ProductExtractorService.registerStrategy,
    ProductExtractorService.getRegisteredStrategies.
  cbn [ProductExtractorService.strategies ProductExtractorService.fallbackStrategy].
  rewrite firstHandling_app.
  split; [| split].
  - intros found ->. split; reflexivity.
  - intros -> Hclaims. cbn [firstHandling]. rewrite Hclaims. split; reflexivity.
  - rewrite map_app. reflexivity.
Qed.

(** X12 on the constructed product orchestrator and a Falabella page:
    registering the generic strategy as well leaves Falabella selected.
    *)
Lemma registration_order_is_priority_witness :
  ProductExtractorService.findStrategy
    (ProductExtractorService.registerStrategy (@GenericStrategy.strategy SimpleURL.parser)
       (@ProductExtractorService.new SimpleURL.parser))
    Scenarios.falabellaPage "https://www.falabella.com.pe/category/cat40052"
  = inr (@FalabellaStrategy.strategy SimpleURL.parser)
  /\ ProductExtractorService.findStrategy (@ProductExtractorService.new SimpleURL.parser)
       Scenarios.falabellaPage "https://www.falabella.com.pe/category/cat40052"
     = inr (@FalabellaStrategy.strategy SimpleURL.parser).
Proof.
  apply (proj1 (registration_order_is_priority
                  (@ProductExtractorService.new SimpleURL.parser)
                  (@GenericStrategy.strategy SimpleURL.parser)
                  Scenarios.falabellaPage "https://www.falabella.com.pe/category/cat40052")).
  reflexivity.
Defined.

(** X13. Whatever the registry, the metadata of a result agree with its
    entities: totalExtracted is their number, source is the URL, and
    either a strategy is named and there is no errors list, or no
    strategy is named, there is no entity and the errors list holds one
    text. *)
Theorem result_metadata_consistent :
  (forall this data url jobId result,
      ProductExtractorService.extractProducts this data url jobId = inr result ->
      totalExtracted (ProductExtractorService.metadata result)
      = List.length (ProductExtractorService.products result)
      /\ source (ProductExtractorService.metadata result) = url
      /\ ((exists used, strategyUsed (ProductExtractorService.metadata result) = Some used
                        /\ errors (ProductExtractorService.metadata result) = None)
          \/ (strategyUsed (ProductExtractorService.metadata result) = None
              /\ ProductExtractorService.products result = []
              /\ exists text, errors (ProductExtractorService.metadata result) = Some [text])))
  /\ (forall this data url jobId result,
      RealEstateExtractorService.extractListings this data url jobId = inr result ->
      totalExtracted (RealEstateExtractorService.metadata result)
      = List.length (RealEstateExtractorService.listings result)
      /\ source (RealEstateExtractorService.metadata result) = url
      /\ ((exists used, strategyUsed (RealEstateExtractorService.metadata result) = Some used
                        /\ errors (RealEstateExtractorService.metadata result) = None)
          \/ (strategyUsed (RealEstateExtractorService.metadata result) = None
              /\ RealEstateExtractorService.listings result = []
              /\ exists text,
                   errors (RealEstateExtractorService.metadata result) = Some [text]))).
Proof.
  split; intros this data url jobId result.
  - unfold ProductExtractorService.extractProducts,
      ProductExtractorService.extractProducts_body.
    destruct (ProductExtractorService.findStrategy this data url) as [e | strategy];
      cbn [JS.bind JS.try_catch JS.ret].
    + intros [= <-]. cbn. split; [reflexivity |]. split; [reflexivity |].
      right. repeat split. eexists. reflexivity.
    + destruct (extract strategy data url jobId) as [e | products];
        cbn [JS.bind JS.try_catch JS.ret]; intros [= <-]; cbn;
        (split; [reflexivity |]); (split; [reflexivity |]).
      * right. repeat split. eexists. reflexivity.
      * left. eexists. split; reflexivity.
  - unfold RealEstateExtractorService.extractListings,
      RealEstateExtractorService.extractListings_body.
    destruct (RealEstateExtractorService.findStrategy this data url) as [e | [strategy |]];
      cbn [JS.bind JS.try_catch JS.ret].
    + intros [= <-]. cbn. split; [reflexivity |]. split; [reflexivity |].
      right. repeat split. eexists. reflexivity.
    + destruct (extract strategy data url jobId) as [e | listings];
        cbn [JS.bind JS.try_catch JS.ret]; intros [= <-]; cbn;
        (split; [reflexivity |]); (split; [reflexivity |]).
      * right. repeat split. eexists. reflexivity.
      * left. eexists. split; reflexivity.
    + intros [= <-]. cbn. split; [reflexivity |]. split; [reflexivity |].
      right. repeat split. eexists. reflexivity.
Qed.

(** X13 on the failing registry of the C6 example. *)
Lemma result_metadata_consistent_witness :
  exists result,
    ProductExtractorService.extractProducts
      (ProductExtractorService.registerStrategy
         (Scenarios.failing (JS.Error "boom"))
         (@ProductExtractorService.new SimpleURL.parser))
      JS.Null "https://example.com/p/1" None = inr result
    /\ totalExtracted (ProductExtractorService.metadata result)
       = List.length (ProductExtractorService.products result)
    /\ source (ProductExtractorService.metadata result) = "https://example.com/p/1".
Proof.
  eexists. split; [reflexivity |].
  destruct (proj1 result_metadata_consistent
              (ProductExtractorService.registerStrategy
                 (Scenarios.failing (JS.Error "boom"))
                 (@ProductExtractorService.new SimpleURL.parser))
              JS.Null "https://example.com/p/1" None _ eq_refl) as (Htotal & Hsource & _).
  split; [exact Htotal | exact Hsource].
Defined.

(* ===================================================================== *)
(** * Further properties: strategies, identifiers and the job store *)
(* ===================================================================== *)

Lemma parsePrice_of_character c :
  exists digit,
    BaseExtractionStrategy.parsePrice (JS.Str (String c EmptyString))
    = inr (JS.Dec digit 0)
    /\ 0 <= digit <= 9.
Proof.
  destruct c as [[] [] [] [] [] [] [] []];
    eexists; (split; [vm_compute; reflexivity | lia]).
Qed.

(** X14. When the price entry that the Falabella strategy chooses holds
    its price as a plain string instead of a list of strings, only the
    first character of that string is parsed ([price?.[0]] indexes the
    string): the amount of the entity is a whole number between 0 and
    9. *)
Theorem falabella_string_price_reads_first_character
    item first others found c rest price :
  JS.get_opt item "prices" = JS.Arr (first :: others) ->
  FalabellaStrategy.find_internetPrice (first :: others) = inr found ->
  JS.get_opt (JS.or found first) "price" = JS.Str (String c rest) ->
  FalabellaStrategy.extractPrice item = inr price ->
  BaseExtractionStrategy.parsePrice (JS.Str (String c EmptyString))
  = inr (ProductTypes.amount price)
  /\ exists digit, ProductTypes.amount price = JS.Dec digit 0 /\ 0 <= digit <= 9.
Proof.
  intros Hprices Hfound Hstring Hprice.
  assert (Hamount : BaseExtractionStrategy.parsePrice (JS.Str (String c EmptyString))
                    = inr (ProductTypes.amount price)).
  { unfold FalabellaStrategy.extractPrice in Hprice.
    assert (Hget : JS.get item "prices" = inr (JS.get_opt item "prices")).
    { destruct item; simpl in Hprice; try discriminate; reflexivity. }
    rewrite Hget, Hprices in Hprice. cbn [JS.bind] in Hprice.
    rewrite Hfound in Hprice. cbn [JS.bind] in Hprice.
    assert (Hp : JS.get (JS.or found first) "price"
                 = inr (JS.get_opt (JS.or found first) "price")).
    { destruct (JS.or found first); cbn [JS.get JS.bind JS.throw] in Hprice;
        try discriminate; reflexivity. }
    rewrite Hp, Hstring in Hprice. cbn [JS.bind] in Hprice.
    change (JS.or (JS.or (JS.first_opt (JS.Str (String c rest))) (JS.Str (String c rest)))
                  (JS.Str "0"))
      with (JS.Str (String c EmptyString)) in Hprice.
    destruct (BaseExtractionStrategy.parsePrice (JS.Str (String c EmptyString)))
      as [e | amount]; cbn [JS.bind] in Hprice; [discriminate |].
    destruct (JS.get (JS.or found first) "symbol"); cbn [JS.bind] in Hprice; [discriminate |].
    destruct (BaseExtractionStrategy.extractCurrency _); cbn [JS.bind JS.ret] in Hprice;
      [discriminate |].
    injection Hprice as <-. reflexivity. }
  split; [exact Hamount |].
  destruct (parsePrice_of_character c) as (digit & Hdigit & Hrange).
  exists digit. split; [congruence | exact Hrange].
Qed.

(** X14 on a record whose internet price is the string [999]: the
    amount is 9. *)
Lemma falabella_string_price_reads_first_character_witness :
  exists price,
    FalabellaStrategy.extractPrice Scenarios.phoneWithStringPrice = inr price
    /\ ProductTypes.amount price = JS.of_Z 9.
Proof.
  eexists. split; [reflexivity |].
  destruct (falabella_string_price_reads_first_character
              Scenarios.phoneWithStringPrice
              (JS.Obj [ ("type", JS.Str "internetPrice"); ("price", JS.Str "999");
                        ("symbol", JS.Str "S/ ") ]) [] _ "9"%char "99" _
              eq_refl eq_refl eq_refl eq_refl) as [Hamount _].
  apply (f_equal (fun r => match r with inr amount => amount | inl _ => JS.NaN end))
    in Hamount.
  symmetry. exact Hamount.
Defined.

Section IdFacts.
Import JS.

Lemma leading_digits_all s : all_digits (UrbaniaStrategy.leading_digits s).
Proof.
  induction s as [| a rest IH]; simpl; [exact I |].
  destruct (is_digit a) eqn:Ha; simpl; [split; assumption | exact I].
Qed.

Lemma match_slash_digits_some href digits :
  UrbaniaStrategy.match_slash_digits href = Some digits ->
  digits <> EmptyString /\ all_digits digits.
Proof.
  induction href as [| a rest IH]; simpl; [discriminate |].
  destruct (Ascii.eqb a "/"); [| exact IH].
  destruct (UrbaniaStrategy.leading_digits rest) as [| d ds] eqn:Hlead; [exact IH |].
  intros [= <-]. split; [discriminate |].
  rewrite <- Hlead. apply leading_digits_all.
Qed.

Lemma last_of_nonempty (parts : list string) part :
  Forall (fun p => p <> EmptyString) parts ->
  List.last (List.map Some parts) None = Some part ->
  part <> EmptyString.
Proof.
  induction 1 as [| p rest Hp _ IH]; [discriminate |].
  destruct rest as [| q rest'].
  - simpl. intros [= <-]. exact Hp.
  - intros Hlast. apply IH. exact Hlast.
Qed.

End IdFacts.

(** X15. [generateIdFromUrl] never returns the empty string: it returns
    the digits that follow the leftmost slash followed by digits, else
    the last non-empty segment of the href, else [unknown-] followed by
    the clock reading. When a slash is followed by digits the id is made
    of digits only. *)
Theorem generateIdFromUrl_never_empty (now : Z) (href : string) :
  UrbaniaStrategy.generateIdFromUrl now href <> EmptyString
  /\ (forall digits,
        UrbaniaStrategy.match_slash_digits href = Some digits ->
        UrbaniaStrategy.generateIdFromUrl now href = digits /\ all_digits digits).
Proof.
  unfold UrbaniaStrategy.generateIdFromUrl. split.
  - destruct (UrbaniaStrategy.match_slash_digits href) as [digits |] eqn:Hmatch.
    + apply (match_slash_digits_some _ _ Hmatch).
    + match goal with
      | |- context [List.last (List.map Some ?parts) None] =>
          destruct (List.last (List.map Some parts) None) as [part |] eqn:Hlast;
            [apply (last_of_nonempty parts part); [| exact Hlast] | discriminate]
      end.
      apply List.Forall_forall. intros p Hin. apply filter_In in Hin as [_ Hp].
      intros ->. discriminate.
  - intros digits Hmatch. rewrite Hmatch. split; [reflexivity |].
    apply (match_slash_digits_some _ _ Hmatch).
Qed.

(** X15 on the href of a listing page. *)
Lemma generateIdFromUrl_never_empty_witness :
  UrbaniaStrategy.generateIdFromUrl 0 "/inmueble/12345678-departamento-lima" = "12345678"
  /\ all_digits "12345678".
Proof.
  apply (proj2 (generateIdFromUrl_never_empty 0 "/inmueble/12345678-departamento-lima")).
  reflexivity.
Defined.

(** X16. [saveResult] on a connected service is read back by
    [getResult] under the job id: the record carries the given state,
    the canonical domain of the URL, the clock reading as storedAt and
    the url, html and fetchedAt of the result. Its failureReason is the
    given reason when that is a non-empty string; otherwise it is the
    failureReason of the record stored before under that job id, if
    any: [$set] does not clear it, so a job saved as failed and saved
    again as completed keeps its failure reason. The records of other
    jobs are left as they were. *)
Theorem saveResult_then_getResult {U : URLParser} documents result state reason now :
  exists next stored,
    StorageService.saveResult {| StorageService.collection := Some documents |}
      result state reason now = inr next
    /\ StorageService.getResult next (StorageService.jobId result) = inr (Some stored)
    /\ StorageService.state stored = state
    /\ StorageService.domain stored = StorageService.extractDomain (StorageService.url result)
    /\ StorageService.storedAt stored = now
    /\ StorageService.jobId (StorageService.fetched stored) = StorageService.jobId result
    /\ StorageService.url (StorageService.fetched stored) = StorageService.url result
    /\ StorageService.html (StorageService.fetched stored) = StorageService.html result
    /\ StorageService.fetchedAt (StorageService.fetched stored)
       = StorageService.fetchedAt result
    /\ StorageService.failureReason stored
       = match StorageService.failureReason_field reason with
         | Some text => Some text
         | None =>
             match documents !! StorageService.jobId result with
             | Some existing => StorageService.failureReason existing
             | None => None
             end
         end
    /\ (forall other,
          other <> StorageService.jobId result ->
          StorageService.getResult next other = inr (documents !! other)).
Proof.
  unfold StorageService.saveResult, StorageService.getResult, StorageService.upsertOne.
  cbn [StorageService.collection StorageService.fetched StorageService.jobId JS.ret].
  destruct (documents !! StorageService.jobId result) as [existing |] eqn:Hlookup;
    (eexists _, _; split; [reflexivity |]);
    cbn [StorageService.collection]; rewrite lookup_insert_eq;
    (split; [reflexivity |]);
    cbn [StorageService.state StorageService.domain StorageService.storedAt
         StorageService.fetched StorageService.jobId StorageService.url
         StorageService.html StorageService.fetchedAt StorageService.failureReason];
    do 7 (split; [reflexivity |]); split.
  - unfold StorageService.set_optional.
    destruct (StorageService.failureReason_field reason); reflexivity.
  - intros other Hne. f_equal. apply lookup_insert_ne. congruence.
  - destruct (StorageService.failureReason_field reason); reflexivity.
  - intros other Hne. f_equal. apply lookup_insert_ne. congruence.
Qed.

(** X16 on job [job-1], recorded as failed and then saved as completed:
    the record is completed and still gives the reason of the failure.
    *)
Lemma saveResult_then_getResult_witness :
  exists next stored,
    @StorageService.saveResult SimpleURL.parser
      {| StorageService.collection := Some {[ "job-1" := Scenarios.failedJob1 ]} |}
      Scenarios.fetched1 StorageService.Completed None 1000 = inr next
    /\ StorageService.getResult next "job-1" = inr (Some stored)
    /\ StorageService.state stored = StorageService.Completed
    /\ StorageService.domain stored = "falabella"
    /\ StorageService.failureReason stored = Some "Navigation timeout".
Proof.
  destruct (@saveResult_then_getResult SimpleURL.parser
              {[ "job-1" := Scenarios.failedJob1 ]} Scenarios.fetched1
              StorageService.Completed None 1000)
    as (next & stored & Hsave & Hget & Hstate & Hdomain & _ & _ & _ & _ & _ & Hreason & _).
  exists next, stored. repeat split; assumption.
Defined.

Section KeyFacts.
Import JS.

Lemma key_injective d1 :
  forall d2 i1 i2,
    includes ":" d1 = false -> includes ":" d2 = false ->
    d1 ++ String ":" i1 = d2 ++ String ":" i2 ->
    d1 = d2 /\ i1 = i2.
Proof.
  induction d1 as [| a d1 IH]; intros [| b d2] i1 i2 H1 H2 Heq.
  - injection Heq as ->. split; reflexivity.
  - change (String ":" i1 = String b (d2 ++ String ":" i2)) in Heq.
    injection Heq as <- _.
    rewrite includes_char_cons, Ascii.eqb_refl in H2. discriminate.
  - change (String a (d1 ++ String ":" i1) = String ":" i2) in Heq.
    injection Heq as -> _.
    rewrite includes_char_cons, Ascii.eqb_refl in H1. discriminate.
  - change (String a (d1 ++ String ":" i1) = String b (d2 ++ String ":" i2)) in Heq.
    injection Heq as -> Heq.
    rewrite includes_char_cons in H1, H2.
    apply orb_false_iff in H1 as [_ H1]. apply orb_false_iff in H2 as [_ H2].
    destruct (IH d2 i1 i2 H1 H2 Heq) as [-> ->]. split; reflexivity.
Qed.

Lemma or_string_or_absent a b :
  string_or_absent a -> string_or_absent b -> string_or_absent (or a b).
Proof. unfold or. destruct (truthy a); auto. Qed.

Lemma truthy_string v :
  truthy v = true -> string_or_absent v ->
  exists s, v = Str s /\ s <> EmptyString.
Proof.
  destruct v; simpl; try contradiction; try discriminate.
  intros Htruthy _. exists s. split; [reflexivity |].
  intros ->. discriminate.
Qed.

End KeyFacts.

(** X17. The uniqueKey of a listing tells its domain and its listing id
    apart as long as the domains hold no colon (as [urbania.pe] does
    not): two keys are equal only if both components are. Without that
    proviso keys collide: domain [a:b] with id [c] and domain [a] with
    id [b:c] share the key [a:b:c]. *)
Theorem listing_uniqueKey_injective :
  (forall domain1 id1 domain2 id2,
      JS.includes ":" domain1 = false ->
      JS.includes ":" domain2 = false ->
      RealEstateStorageService.generateUniqueKey domain1 id1
      = RealEstateStorageService.generateUniqueKey domain2 id2 ->
      domain1 = domain2 /\ id1 = id2)
  /\ RealEstateStorageService.generateUniqueKey "a:b" "c"
     = RealEstateStorageService.generateUniqueKey "a" "b:c".
Proof.
  split; [| reflexivity].
  intros domain1 id1 domain2 id2 H1 H2 Heq.
  apply (key_injective domain1 domain2 id1 id2 H1 H2 Heq).
Qed.

(** X17 on two listings of Urbania. *)
Lemma listing_uniqueKey_injective_witness :
  RealEstateStorageService.generateUniqueKey "urbania.pe" "77" = "urbania.pe:77"
  /\ ("urbania.pe" = "urbania.pe" /\ "77" = "77").
Proof.
  split; [reflexivity |].
  apply (proj1 listing_uniqueKey_injective "urbania.pe" "77" "urbania.pe" "77");
    reflexivity.
Defined.

(** X18. The filter of the generic strategy does its work on records
    whose id-like and name-like fields are strings (or absent): every
    entity made from such a record that looks like a product has a
    non-empty productId and a non-empty name, both strings, and its
    uniqueKey is its domain, a colon and that productId. *)
Theorem generic_string_fields_give_identity item domain url jobId product :
  GenericStrategy.looksLikeProduct item = true ->
  string_or_absent (JS.get_opt item "id") ->
  string_or_absent (JS.get_opt item "productId") ->
  string_or_absent (JS.get_opt item "sku") ->
  string_or_absent (JS.get_opt item "skuId") ->
  string_or_absent (JS.get_opt item "asin") ->
  string_or_absent (JS.get_opt item "name") ->
  string_or_absent (JS.get_opt item "title") ->
  string_or_absent (JS.get_opt item "displayName") ->
  GenericStrategy.normalizeProduct item domain url jobId = inr product ->
  exists id name,
    ProductTypes.productId product = JS.Str id /\ id <> EmptyString
    /\ ProductTypes.name product = JS.Str name /\ name <> EmptyString
    /\ ProductStorageService.keyOf product = inr (domain ++ ":" ++ id).
Proof.
  intros Hlooks Hid Hpid Hsku Hskuid Hasin Hname Htitle Hdisplay Hnorm.
  unfold GenericStrategy.looksLikeProduct in Hlooks.
  destruct (negb (JS.truthy item) || negb (JS.typeof_object item)) eqn:Hobject;
    [discriminate |].
  apply andb_true_iff in Hlooks as [HhasId HhasName].
  assert (Hget : JS.get item "id" = inr (JS.get_opt item "id")).
  { destruct item; simpl in Hobject; try discriminate; reflexivity. }
  destruct (truthy_string _ HhasId) as (id & Hidv & Hidne).
  { repeat apply or_string_or_absent; assumption. }
  assert (Hnamev : exists name,
             JS.or (JS.or (JS.or (JS.get_opt item "name") (JS.get_opt item "title"))
                          (JS.get_opt item "displayName")) (JS.Str "Unknown Product")
             = JS.Str name /\ name <> EmptyString).
  { unfold JS.or at 1.
    destruct (JS.truthy (JS.or (JS.or (JS.get_opt item "name") (JS.get_opt item "title"))
                               (JS.get_opt item "displayName"))) eqn:Htruthy.
    - apply truthy_string; [exact Htruthy |].
      repeat apply or_string_or_absent; assumption.
    - eexists. split; [reflexivity | discriminate]. }
  destruct Hnamev as (name & Hnamev & Hnamene).
  unfold GenericStrategy.normalizeProduct in Hnorm.
  rewrite Hget in Hnorm. cbn [JS.bind] in Hnorm.
  assert (Hidarg : JS.or (JS.or (JS.or (JS.or (JS.or (JS.get_opt item "id")
                                                     (JS.get_opt item "productId"))
                                              (JS.get_opt item "sku"))
                                       (JS.get_opt item "skuId"))
                                (JS.get_opt item "asin")) (JS.Str EmptyString)
                   = JS.Str id).
  { unfold JS.or at 1. rewrite HhasId. exact Hidv. }
  rewrite Hidarg, Hnamev in Hnorm. cbn [JS.ToString JS.bind JS.ret] in Hnorm.
  destruct (GenericStrategy.extractPrice item) as [e | price]; cbn [JS.bind] in Hnorm;
    [discriminate |].
  injection Hnorm as <-. exists id, name. repeat split; assumption.
Qed.

(** X18 on the record [a1] of the generic scenario. *)
Lemma generic_string_fields_give_identity_witness :
  exists product id name,
    GenericStrategy.normalizeProduct Scenarios.widgetInSoles
      "example" "https://tienda.example.com/p/a1" None = inr product
    /\ ProductTypes.productId product = JS.Str id /\ id <> EmptyString
    /\ ProductTypes.name product = JS.Str name /\ name <> EmptyString
    /\ ProductStorageService.keyOf product = inr ("example" ++ ":" ++ id).
Proof.
  eexists.
  destruct (generic_string_fields_give_identity Scenarios.widgetInSoles
              "example" "https://tienda.example.com/p/a1" None _
              eq_refl I I I I I I I I eq_refl) as (id & name & H).
  exists id, name. split; [reflexivity | exact H].
Defined.

Section NullRecords.
Context {U : URLParser}.
Import JS.

Lemma filterM_keeps_null items :
  In Null items -> exists e, filterM FalabellaStrategy.keeps items = inl e.
Proof.
  induction items as [| item rest IH]; intros Hin; [contradiction |].
  destruct Hin as [-> | Hin].
  - eexists. reflexivity.
  - destruct (IH Hin) as (e & He). cbn [filterM].
    destruct (FalabellaStrategy.keeps item) as [e' | keep]; cbn [bind].
    + eexists. reflexivity.
    + rewrite He. eexists. reflexivity.
Qed.

End NullRecords.

(** X19. A null record among the records of an array payload makes the
    Falabella strategy return no entity at all, whatever the other
    records hold: its filter reads [item.productId] from every record,
    and the TypeError ends the extraction. The generic strategy, whose
    filter tests the record first, skips a null record and extracts
    from the others as if it were not there. *)
Theorem null_record_in_payload {U : URLParser} items url jobId :
  (In JS.Null items -> FalabellaStrategy.extract (JS.Arr items) url jobId = inr [])
  /\ GenericStrategy.extract (JS.Arr (JS.Null :: items)) url jobId
     = GenericStrategy.extract (JS.Arr items) url jobId.
Proof.
  split.
  - intros Hin. unfold FalabellaStrategy.extract, FalabellaStrategy.extract_body.
    change (JS.get_opt (JS.get_opt (JS.get_opt (JS.Arr items) "props") "pageProps") "results")
      with JS.Undefined.
    cbn [JS.truthy JS.isArray as_array JS.bind JS.ret].
    destruct (filterM_keeps_null items Hin) as (e & ->). reflexivity.
  - reflexivity.
Qed.

(** X19 on a payload of one good record and one null. *)
Lemma null_record_in_payload_witness :
  @FalabellaStrategy.extract SimpleURL.parser
    (JS.Arr [ Scenarios.phoneWithStringPrice; JS.Null ])
    "https://www.falabella.com.pe/category/cat40052" None = inr [].
Proof.
  apply (proj1 (@null_record_in_payload SimpleURL.parser
                  [ Scenarios.phoneWithStringPrice; JS.Null ]
                  "https://www.falabella.com.pe/category/cat40052" None)).
  right. left. reflexivity.
Defined.

Section PriceInvariant.
Import JS ProductStorageService.

Lemma num_strict_eq_trans a b c :
  num_strict_eq a b = true -> num_strict_eq b c = true -> num_strict_eq a c = true.
Proof.
  destruct a as [| na | ma ea], b as [| nb | mb eb], c as [| nc | mc ec];
    simpl; try discriminate.
  - intros Hab Hbc. apply Bool.eqb_prop in Hab, Hbc. subst. apply Bool.eqb_reflx.
  - intros Hab Hbc. apply Z.eqb_eq in Hab, Hbc. apply Z.eqb_eq.
    assert (Hpos : 10 ^ Z.of_nat eb <> 0) by (apply Z.pow_nonzero; lia).
    apply (Z.mul_reg_r _ _ _ Hpos).
    transitivity (ma * 10 ^ Z.of_nat eb * 10 ^ Z.of_nat ec); [ring |].
    rewrite Hab.
    transitivity (mb * 10 ^ Z.of_nat ec * 10 ^ Z.of_nat ea); [ring |].
    rewrite Hbc. ring.
Qed.

Lemma priceChanged_false_trans a b c :
  priceChanged a b = false -> priceChanged b c = false -> priceChanged a c = false.
Proof.
  unfold priceChanged, num_strict_neq. intros Hab Hbc.
  apply orb_false_iff in Hab as [Hab1 Hab2]. apply orb_false_iff in Hbc as [Hbc1 Hbc2].
  apply negb_false_iff in Hab1, Hab2, Hbc1, Hbc2.
  apply String.eqb_eq in Hab2, Hbc2.
  apply orb_false_iff. split; apply negb_false_iff.
  - eapply num_strict_eq_trans; eassumption.
  - apply String.eqb_eq. congruence.
Qed.

Lemma same_price_unchanged a b c :
  same_price a b -> priceChanged b c = false -> same_price a c.
Proof.
  intros [-> | Hab] Hbc; right; [exact Hbc |].
  eapply priceChanged_false_trans; eassumption.
Qed.

Lemma current_price_step documents documents' product now :
  (forall key stored, documents !! key = Some stored ->
     exists earlier latest,
       priceHistory stored = (earlier ++ [latest])%list
       /\ same_price (price latest) (ProductTypes.price (ProductStorageService.product stored))) ->
  upsertProduct {| collection := Some documents |} product now
  = inr {| collection := Some documents' |} ->
  forall key stored, documents' !! key = Some stored ->
     exists earlier latest,
       priceHistory stored = (earlier ++ [latest])%list
       /\ same_price (price latest) (ProductTypes.price (ProductStorageService.product stored)).
Proof.
  intros Hinv Hstep key stored Hlookup.
  destruct (ProductStoreFacts.upsert_inv _ _ _ _ Hstep) as (docs & k & Hdocs & Hkey).
  simpl in Hdocs. injection Hdocs as <-.
  destruct (documents !! k) as [existing |] eqn:Hexisting.
  - rewrite (ProductStoreFacts.upsertProduct_update _ _ _ _ _ Hkey Hexisting) in Hstep.
    injection Hstep as <-.
    destruct (decide (k = key)) as [-> | Hne].
    + rewrite lookup_insert_eq in Hlookup. injection Hlookup as <-.
      cbn [priceHistory ProductStorageService.product].
      destruct (priceChanged _ _) eqn:Hchanged.
      * rewrite slice_last_snoc by lia. eexists _, _. split; [reflexivity |].
        left. reflexivity.
      * destruct (Hinv key existing Hexisting) as (earlier & latest & Hhistory & Hsame).
        exists earlier, latest. split; [exact Hhistory |].
        eapply same_price_unchanged; eassumption.
    + rewrite lookup_insert_ne in Hlookup by exact Hne. exact (Hinv key stored Hlookup).
  - rewrite (ProductStoreFacts.upsertProduct_insert _ _ _ _ Hkey Hexisting) in Hstep.
    injection Hstep as <-.
    destruct (decide (k = key)) as [-> | Hne].
    + rewrite lookup_insert_eq in Hlookup. injection Hlookup as <-.
      exists [], (entryOf (product, now)). split; [reflexivity |]. left. reflexivity.
    + rewrite lookup_insert_ne in Hlookup by exact Hne. exact (Hinv key stored Hlookup).
Qed.

End PriceInvariant.

(** X20. In every products collection built by upserts from the empty
    collection, the last entry of a document's priceHistory is its
    current price: the two are identical, or equal in amount and
    currency as [priceChanged] compares them. *)
Theorem last_history_entry_is_current_price documents :
  ProductStorageService.reachable documents ->
  forall key stored,
    documents !! key = Some stored ->
    exists earlier latest,
      ProductStorageService.priceHistory stored = (earlier ++ [latest])%list
      /\ same_price (ProductStorageService.price latest)
                    (ProductTypes.price (ProductStorageService.product stored)).
Proof.
  induction 1 as [| documents documents' product now _ IH Hstep].
  - intros key stored Hlookup. rewrite lookup_empty in Hlookup. discriminate.
  - eapply current_price_step; eassumption.
Qed.

(** X20 on [p1], inserted at 10 USD and upserted at 12 USD. *)
Lemma last_history_entry_is_current_price_witness :
  exists final stored earlier latest,
    ProductStorageService.upsertSuccessively
      {| ProductStorageService.collection := Some ∅ |}
      [ (Scenarios.widget 10 "USD", 1000); (Scenarios.widget 12 "USD", 2000) ] = inr final
    /\ ProductStorageService.findOne final "x:p1" = Some stored
    /\ ProductStorageService.priceHistory stored = (earlier ++ [latest])%list
    /\ same_price (ProductStorageService.price latest)
                  (ProductTypes.price (ProductStorageService.product stored)).
Proof.
  eexists _, _. 
  assert (Hrun : ProductStorageService.upsertSuccessively
            {| ProductStorageService.collection := Some ∅ |}
            [ (Scenarios.widget 10 "USD", 1000); (Scenarios.widget 12 "USD", 2000) ]
          = inr {| ProductStorageService.collection :=
                     Some (<["x:p1" :=
                       {| ProductStorageService.product := Scenarios.widget 12 "USD";
                          ProductStorageService.uniqueKey := "x:p1";
                          ProductStorageService.firstSeenAt := 1000;
                          ProductStorageService.lastSeenAt := 2000;
                          ProductStorageService.lastUpdatedAt := 2000;
                          ProductStorageService.priceHistory :=
                            [ ProductStorageService.entryOf (Scenarios.widget 10 "USD", 1000);
                              ProductStorageService.entryOf (Scenarios.widget 12 "USD", 2000) ];
                          ProductStorageService.version := 2 |}]>
                       (<["x:p1" := Scenarios.storedWidget]> ∅)) |}) by reflexivity.
  destruct (last_history_entry_is_current_price
              (<["x:p1" :=
                 {| ProductStorageService.product := Scenarios.widget 12 "USD";
                    ProductStorageService.uniqueKey := "x:p1";
                    ProductStorageService.firstSeenAt := 1000;
                    ProductStorageService.lastSeenAt := 2000;
                    ProductStorageService.lastUpdatedAt := 2000;
                    ProductStorageService.priceHistory :=
                      [ ProductStorageService.entryOf (Scenarios.widget 10 "USD", 1000);
                        ProductStorageService.entryOf (Scenarios.widget 12 "USD", 2000) ];
                    ProductStorageService.version := 2 |}]>
                 (<["x:p1" := Scenarios.storedWidget]> ∅)))
    with (key := "x:p1")
         (stored := {| ProductStorageService.product := Scenarios.widget 12 "USD";
                       ProductStorageService.uniqueKey := "x:p1";
                       ProductStorageService.firstSeenAt := 1000;
                       ProductStorageService.lastSeenAt := 2000;
                       ProductStorageService.lastUpdatedAt := 2000;
                       ProductStorageService.priceHistory :=
                         [ ProductStorageService.entryOf (Scenarios.widget 10 "USD", 1000);
                           ProductStorageService.entryOf (Scenarios.widget 12 "USD", 2000) ];
                       ProductStorageService.version := 2 |})
    as (earlier & latest & Hhistory & Hsame).
  - apply (ProductStorageService.reachable_upsert
             (<["x:p1" := Scenarios.storedWidget]> ∅) _ (Scenarios.widget 12 "USD") 2000).
    + apply (ProductStorageService.reachable_upsert ∅ _ (Scenarios.widget 10 "USD") 1000).
      * constructor.
      * reflexivity.
    + reflexivity.
  - reflexivity.
  - exists earlier, latest. split; [exact Hrun |]. split; [reflexivity |].
    split; assumption.
Defined.
